(** * phycontrib.template.gui: the template controller and the
      template-subtraction routine, embedded in Rocq.

    The development follows [src/phycontrib/template/gui.py].  NumPy arrays
    are nested lists that carry the lengths of their inner axes, so that an
    array with no row still has a shape; Python integers are [Z]; an indexing
    or broadcasting failure is an exception of the [outcome] monad.  Array
    buffers that the code mutates live in a store indexed by references. *)

From Stdlib Require Import Ascii String QArith Qabs Qminmax Lqa Sorted.
From stdpp Require Import base gmap strings list.

Local Open Scope Z_scope.

(** ** Exceptions and results *)

Inductive exn : Type :=
  | IndexError
  | ValueError
  | KeyError
  | OverflowError
  | AssertionError
  | IOError
  | ReferenceError.

Inductive outcome (A : Type) : Type :=
  | Return (a : A)
  | Raise (e : exn).
Arguments Return {A} a.
Arguments Raise {A} e.

#[global] Instance outcome_ret : MRet outcome := fun _ a => Return a.

#[global] Instance outcome_bind : MBind outcome := fun _ _ k m =>
  match m with
  | Return a => k a
  | Raise e => Raise e
  end.

Fixpoint traverse {A B} (f : A -> outcome B) (l : list A) : outcome (list B) :=
  match l with
  | [] => Return []
  | a :: l' =>
      b ← f a;
      bs ← traverse f l';
      Return (b :: bs)
  end.

Definition returns {A} (m : outcome A) : Prop := exists a, m = Return a.

(** ** Python and NumPy indexing *)

(** [a[i]] on an axis of length [len]: a negative index counts from the end,
    an index outside [-len, len) raises [IndexError]. *)
Definition norm_index (len : nat) (i : Z) : outcome nat :=
  if decide (0 <= i < Z.of_nat len) then Return (Z.to_nat i)
  else if decide (- Z.of_nat len <= i < 0) then Return (Z.to_nat (i + Z.of_nat len))
  else Raise IndexError.

Definition py_index {A} (l : list A) (i : Z) : outcome A :=
  k ← norm_index (length l) i;
  match l !! k with
  | Some a => Return a
  | None => Raise IndexError
  end.

(** [a[idx]] with an integer array [idx] (fancy indexing on the first axis). *)
Definition py_take {A} (l : list A) (idx : list Z) : outcome (list A) :=
  traverse (py_index l) idx.

(** One bound of a slice [a[start:stop]] on an axis of length [len], as
    [slice.indices] adjusts it (step 1): negative bounds count from the end,
    and the result is clipped to [0, len]. *)
Definition clip_bound (len : nat) (i : Z) : nat :=
  let i' := if decide (i < 0) then i + Z.of_nat len else i in
  if decide (i' < 0) then 0%nat
  else if decide (Z.of_nat len < i') then len
  else Z.to_nat i'.

Definition slice_bounds (len : nat) (start stop : option Z) : nat * nat :=
  (from_option (clip_bound len) 0%nat start,
   from_option (clip_bound len) len stop).

Definition py_slice {A} (start stop : option Z) (l : list A) : list A :=
  let '(a, b) := slice_bounds (length l) start stop in
  take (b - a) (drop a l).

(** Broadcasting one axis of a source to a target of length [m]: equal
    lengths are kept, a source of length one is repeated, anything else does
    not broadcast. *)
Definition broadcast_to {B} (m : nat) (src : list B) : option (list B) :=
  if decide (length src = m) then Some src
  else match src with
       | [b] => Some (replicate m b)
       | _ => None
       end.

Definition broadcastable (src tgt : nat) : bool :=
  bool_decide (src = tgt) || bool_decide (src = 1%nat).

(** ** Arrays *)

(** A two-dimensional array of shape [(length a2_rows, a2_ncols)]. *)
Record array2 (A : Type) : Type := Array2 {
  a2_rows : list (list A);
  a2_ncols : nat
}.
Arguments Array2 {A} a2_rows a2_ncols.
Arguments a2_rows {A} a.
Arguments a2_ncols {A} a.

Definition shape2 {A} (a : array2 A) : nat * nat :=
  (length (a2_rows a), a2_ncols a).

Definition wf2 {A} (a : array2 A) : Prop :=
  Forall (fun r => length r = a2_ncols a) (a2_rows a).

(** A three-dimensional array of shape [(length a3_planes, a3_dim1, a3_dim2)]. *)
Record array3 (A : Type) : Type := Array3 {
  a3_planes : list (list (list A));
  a3_dim1 : nat;
  a3_dim2 : nat
}.
Arguments Array3 {A} a3_planes a3_dim1 a3_dim2.
Arguments a3_planes {A} a.
Arguments a3_dim1 {A} a.
Arguments a3_dim2 {A} a.

Definition shape3 {A} (a : array3 A) : nat * nat * nat :=
  (length (a3_planes a), a3_dim1 a, a3_dim2 a).

Definition wf3 {A} (a : array3 A) : Prop :=
  Forall (fun p => length p = a3_dim1 a /\
                   Forall (fun r => length r = a3_dim2 a) p) (a3_planes a).

(** [a[start:stop, :]]: a slice of the rows. *)
Definition slice_rows {A} (start stop : option Z) (a : array2 A) : array2 A :=
  Array2 (py_slice start stop (a2_rows a)) (a2_ncols a).

(** ** The store of trace buffers

    [subtract_templates] copies its input and updates the copy in place.
    Buffers are held in a store; a Python variable holds a reference.  An
    exception leaves the store as it is at the point of the raise. *)

Definition loc := positive.

Section Store.
Context {F : Type}.

Definition M (A : Type) : Type :=
  gmap loc (array2 F) -> outcome A * gmap loc (array2 F).

#[global] Instance M_ret : MRet M := fun _ a h => (Return a, h).

#[global] Instance M_bind : MBind M := fun _ _ k m h =>
  match m h with
  | (Return a, h') => k a h'
  | (Raise e, h') => (Raise e, h')
  end.

Definition lift {A} (o : outcome A) : M A := fun h => (o, h).

Definition load (l : loc) : M (array2 F) :=
  fun h =>
    match h !! l with
    | Some a => (Return a, h)
    | None => (Raise ReferenceError, h)
    end.

Definition write (l : loc) (a : array2 F) : M unit :=
  fun h => (Return tt, <[l := a]> h).

(** A new buffer, at a reference no live buffer has. *)
Definition alloc (a : array2 F) : M loc :=
  fun h => let l := fresh (dom h) in (Return l, <[l := a]> h).

(** [a.copy()] *)
Definition copy (l : loc) : M loc :=
  a ← load l; alloc a.

Fixpoint for_each {A} (l : list A) (body : A -> M unit) : M unit :=
  match l with
  | [] => mret tt
  | a :: l' => body a;; for_each l' body
  end.
End Store.

Arguments M F A : clear implicits.

(** ** Template subtraction ([subtract_templates], lines 36-60)

    The element type of the buffers and its arithmetic are parameters: the
    code computes on floating-point numbers, and nothing below depends on
    how they round. *)

Section Subtract.
Context {F : Type}.
(** [a - b] and [a * b] on elements. *)
Variable fsub fmul : F -> F -> F.
(** [int(round(v))], which raises on a value that is not finite. *)
Variable round_int : F -> outcome Z.

(** [spike_templates * amplitudes[:, np.newaxis, np.newaxis]]: every value
    of plane [k] times amplitude [k]; the first axes broadcast. *)
Definition scale_plane (a : F) (p : list (list F)) : list (list F) :=
  map (map (fun v => fmul v a)) p.

Definition mul_amplitudes (spike_templates : array3 F) (amplitudes : list F)
  : outcome (array3 F) :=
  let planes := a3_planes spike_templates in
  let mk ps := Array3 ps (a3_dim1 spike_templates) (a3_dim2 spike_templates) in
  if decide (length planes = length amplitudes) then
    Return (mk (zip_with (fun p a => scale_plane a p) planes amplitudes))
  else
    match planes, amplitudes with
    | [p], _ => Return (mk (map (fun a => scale_plane a p) amplitudes))
    | _, [a] => Return (mk (map (scale_plane a) planes))
    | _, _ => Raise ValueError
    end.

(** [w[index]] *)
Definition plane (w : array3 F) (index : nat) : outcome (array2 F) :=
  match a3_planes w !! index with
  | Some p => Return (Array2 p (a3_dim2 w))
  | None => Raise IndexError
  end.

(** One row minus one (broadcast) row. *)
Definition sub_row (r xr : list F) : list F :=
  match broadcast_to (length r) xr with
  | Some xr' => zip_with fsub r xr'
  | None => r
  end.

(** [traces[sa:sb, :] -= x]: the rows of the slice have [x] subtracted, the
    other rows stay; shapes that do not broadcast raise [ValueError]. *)
Definition isub_rows (tr : array2 F) (sa sb : Z) (x : array2 F)
  : outcome (array2 F) :=
  let rows := a2_rows tr in
  let '(a, b) := slice_bounds (length rows) (Some sa) (Some sb) in
  let m := (b - a)%nat in
  if broadcastable (a2_ncols x) (a2_ncols tr) then
    match broadcast_to m (a2_rows x) with
    | Some xs =>
        Return (Array2 (take a rows
                        ++ zip_with sub_row (take m (drop a rows)) xs
                        ++ drop (a + m) rows)
                       (a2_ncols tr))
    | None => Raise ValueError
    end
  else Raise ValueError.

(** The clipping of lines 50-58: the window [sa, sb) and the part of the
    template that is subtracted there. *)
Definition clip_window (n : nat) (t : Z) (x : array2 F)
  : array2 F * Z * Z :=
  let i := 20 in
  let j := 41 in
  let sa := t - i in
  let sb := t + j in
  if decide (sa < 0) then
    (slice_rows (Some (- sa)) None x, 0, sb)
  else if decide (sb > Z.of_nat n) then
    (slice_rows None (Some (- (sb - Z.of_nat n))) x, sa, Z.of_nat n)
  else (x, sa, sb).

(** Lines 50-59 for a spike at offset [t]: clip, then subtract. *)
Definition subtract_window (n : nat) (t : Z) (x tr : array2 F)
  : outcome (array2 F) :=
  let '(x', sa, sb) := clip_window n t x in isub_rows tr sa sb x'.

(** The window [t - 20, t + 41) meets or touches a buffer of [n] rows and
    overhangs at most one of its ends. *)
Definition window_fits (n : nat) (t : Z) : Prop :=
  ~ (t - 20 < 0 /\ t + 41 > Z.of_nat n) /\ 0 <= t + 41 /\ t - 20 <= Z.of_nat n.

(** What the loop needs of spike [index]: a time, an offset whose window
    fits, and a template of 61 samples on the channels of the buffer. *)
Definition spike_fits (n c : nat) (start rate : F) (st : list F)
    (w : array3 F) (index : nat) : Prop :=
  exists s t p,
    st !! index = Some s
    /\ round_int (fmul (fsub s start) rate) = Return t
    /\ window_fits n t
    /\ a3_planes w !! index = Some p
    /\ length p = 61%nat
    /\ a3_dim2 w = c.

(** The body of the loop for one spike, on the buffer [tr]. *)
Definition subtract_spike (n : nat) (start sample_rate : F)
    (st : list F) (w : array3 F) (index : nat) (tr : array2 F)
  : outcome (array2 F) :=
  s ← py_index st (Z.of_nat index);
  t ← round_int (fmul (fsub s start) sample_rate);
  x ← plane w index;
  subtract_window n t x tr.

Definition subtract_templates (traces : loc) (start : F)
    (spike_times amplitudes : list F) (spike_templates : array3 F)
    (sample_rate : F) : M F loc :=
  orig ← load traces;
  traces' ← alloc orig;
  w ← lift (mul_amplitudes spike_templates amplitudes);
  let n := length (a2_rows orig) in
  for_each (seq 0 (length (a3_planes w))) (fun index =>
    cur ← load traces';
    new ← lift (subtract_spike n start sample_rate spike_times w index cur);
    write traces' new);;
  mret traces'.
End Subtract.

(** ** Integer-valued buffers

    The routine on arrays of integer type, where [round] is the identity;
    used to run it on concrete buffers. *)

Module IntBuffers.
Definition subtract (traces : loc) (start : Z) (spike_times amplitudes : list Z)
    (spike_templates : array3 Z) (sample_rate : Z) : M Z loc :=
  subtract_templates Z.sub Z.mul (fun v => Return v)
    traces start spike_times amplitudes spike_templates sample_rate.

(** [np.zeros((n, c))] and [np.ones((n, c))] *)
Definition zeros (n c : nat) : array2 Z := Array2 (replicate n (replicate c 0)) c.
Definition ones (n c : nat) : array2 Z := Array2 (replicate n (replicate c 1)) c.

(** One template of 61 samples on one channel, all ones. *)
Definition unit_template : array3 Z := Array3 [a2_rows (ones 61 1)] 61 1.

(** A store holding one buffer of [n] samples on one channel. *)
Definition one_buffer (n : nat) : gmap loc (array2 Z) := {[ 1%positive := zeros n 1 ]}.
End IntBuffers.

(** ** The array registry ([filenames] and [read_array], lines 75-98) *)


(** [os.path.splitext] on a POSIX path, on lists of characters: the
    extension starts at the last dot of the last path component, and leading
    dots of that component do not start an extension. *)
Module Splitext.




End Splitext.

Section ReadArray.
(** The values that the loaders produce. *)
Context {V : Type}.
(** [np.load(fn)] and [sio.loadmat(fn)], which read the file system. *)
Variable np_load : string -> outcome V.
Variable sio_loadmat : string -> outcome (gmap string V).


End ReadArray.

(** ** Cluster ids and groups at load ([_init_data], lines 195-229) *)

(** [np.unique]: the distinct values, in increasing order. *)
Fixpoint insert_unique (z : Z) (l : list Z) : list Z :=
  match l with
  | [] => [z]
  | y :: l' =>
      if decide (z < y) then z :: y :: l'
      else if decide (z = y) then y :: l'
      else y :: insert_unique z l'
  end.

Definition np_unique (l : list Z) : list Z := foldr insert_unique [] l.

(** A group label; Python's [None] is Rocq's [None]. *)
Definition group := string.

Record cluster_info : Type := ClusterInfo {
  cluster_ids : list Z;
  cluster_groups : gmap Z (option group)
}.

(** [{c: None for c in range(n_clusters)}] *)
Definition groups_for_range (n_clusters : nat) : gmap Z (option group) :=
  list_to_map (map (fun c : nat => (Z.of_nat c, None)) (seq 0 n_clusters)).

Definition _init_data_clusters (spike_clusters : list Z) : cluster_info :=
  let cluster_ids := np_unique spike_clusters in
  let n_clusters := length cluster_ids in
  ClusterInfo cluster_ids (groups_for_range n_clusters).

(** ** Numbers

    Array values are floating-point numbers.  They are idealised here as the
    rationals, computed exactly, together with the two infinities and NaN,
    so that a division by zero produces what NumPy produces (a NaN or an
    infinity, and no exception).  Rounding, overflow and the sign of zero
    are not modelled. *)

Module Num.
Inductive num : Type :=
  | Fin (q : Q)
  | PInf
  | NInf
  | NaN.

Definition zero : num := Fin 0.

(** [np.abs] *)
Definition abs (x : num) : num :=
  match x with
  | Fin q => Fin (Qabs q)
  | PInf | NInf => PInf
  | NaN => NaN
  end.

(** [np.maximum], the step of [max]: a NaN operand gives NaN. *)
Definition max (x y : num) : num :=
  match x, y with
  | NaN, _ | _, NaN => NaN
  | PInf, _ | _, PInf => PInf
  | NInf, z | z, NInf => z
  | Fin a, Fin b => Fin (Qmax a b)
  end.

(** [x / y] on arrays of floats; the divisor zero is the positive zero. *)
Definition div (x y : num) : num :=
  match x, y with
  | NaN, _ | _, NaN => NaN
  | Fin a, Fin b =>
      if Qeq_bool b 0 then
        if Qeq_bool a 0 then NaN
        else if Qle_bool 0 a then PInf else NInf
      else Fin (a / b)
  | Fin _, (PInf | NInf) => Fin 0
  | PInf, Fin b => if Qle_bool 0 b then PInf else NInf
  | NInf, Fin b => if Qle_bool 0 b then NInf else PInf
  | (PInf | NInf), (PInf | NInf) => NaN
  end.

(** [x == 0] *)
Definition is_zero (x : num) : bool :=
  match x with
  | Fin q => Qeq_bool q 0
  | _ => false
  end.

(** A value in the closed interval from 0 to 1. *)
Definition in_unit (x : num) : Prop :=
  match x with
  | Fin q => (0 <= q /\ q <= 1)%Q
  | _ => False
  end.
End Num.

(** ** Masks ([get_masks] and [MaskLoader], lines 101-120) *)

(** [a.max()] along an axis: the first value is the start of the reduction,
    and an axis of length zero has no maximum. *)
Definition reduce_max (l : list Num.num) : outcome Num.num :=
  match l with
  | [] => Raise ValueError
  | x :: l' => Return (foldl Num.max x l')
  end.

(** [p.max(axis=0)] on a block of shape (samples, channels). *)
Definition max_samples (p : list (list Num.num)) : outcome (list Num.num) :=
  match p with
  | [] => Raise ValueError
  | r :: p' => Return (foldl (zip_with Num.max) r p')
  end.

Definition get_masks (templates : array3 Num.num) : outcome (array2 Num.num) :=
  let n_samples_templates := a3_dim1 templates in
  let n_channels := a3_dim2 templates in
  let templates := map (map (map Num.abs)) (a3_planes templates) in
  if decide (n_samples_templates = 0%nat) then Raise ValueError else
  m ← traverse max_samples templates;
  if decide (n_channels = 0%nat) then Raise ValueError else
  mm ← traverse reduce_max m;
  let masks := zip_with (fun row d => map (fun v => Num.div v d) row) m mm in
  let masks :=
    zip_with (fun row d =>
                if Num.is_zero d then replicate n_channels Num.zero else row)
             masks mm in
  Return (Array2 masks n_channels).

Section MaskLoader.
Context {F : Type}.

Record MaskLoader : Type := mkMaskLoader {
  _spike_clusters : list Z;
  _cluster_masks : array2 F;
  ml_shape : nat * nat
}.

(** [MaskLoader.__init__] *)
Definition MaskLoader_init (cluster_masks : array2 F) (spike_clusters : list Z)
  : MaskLoader :=
  mkMaskLoader spike_clusters cluster_masks
    (length spike_clusters, a2_ncols cluster_masks).

(** An item is one spike id or an array of spike ids; the lookup gives one
    row or an array of rows. *)
Inductive spike_item : Type :=
  | One (i : Z)
  | Many (ids : list Z).

Inductive mask_item : Type :=
  | Row (r : list F)
  | Rows (a : array2 F).

(** [MaskLoader.__getitem__] *)
Definition MaskLoader_getitem (self : MaskLoader) (item : spike_item)
  : outcome mask_item :=
  match item with
  | One i =>
      clu ← py_index (_spike_clusters self) i;
      r ← py_index (a2_rows (_cluster_masks self)) clu;
      Return (Row r)
  | Many ids =>
      clu ← py_take (_spike_clusters self) ids;
      rs ← py_take (a2_rows (_cluster_masks self)) clu;
      Return (Rows (Array2 rs (a2_ncols (_cluster_masks self))))
  end.
End MaskLoader.
Arguments MaskLoader F : clear implicits.
Arguments mask_item F : clear implicits.

(** ** The template controller (lines 123-344) *)

(** [l.index(z)]: the first position of [z]. *)
Fixpoint list_index (z : Z) (l : list Z) : outcome nat :=
  match l with
  | [] => Raise ValueError
  | y :: l' =>
      if decide (y = z) then Return 0%nat
      else k ← list_index z l'; Return (S k)
  end.

(** [a[:, j]] *)
Definition py_column {A} (a : array2 A) (j : Z) : outcome (list A) :=
  k ← norm_index (a2_ncols a) j;
  traverse (fun r => match r !! k with
                     | Some v => Return v
                     | None => Raise IndexError
                     end) (a2_rows a).

(** [a[ids, j]] *)
Definition py_take_column {A} (a : array2 A) (ids : list Z) (j : Z)
  : outcome (list A) :=
  k ← norm_index (a2_ncols a) j;
  traverse (fun i =>
              r ← py_index (a2_rows a) i;
              match r !! k with
              | Some v => Return v
              | None => Raise IndexError
              end) ids.

(** [np.transpose(p, (1, 0))] of a block with [c] columns. *)
Definition transpose {A} (c : nat) (p : list (list A)) : list (list A) :=
  map (fun j => omap (fun r => r !! j) p) (seq 0 c).

(** A block broadcast to the shape [(rows, cols)]. *)
Definition broadcast_block {A} (rows cols : nat) (v : list (list A))
  : outcome (list (list A)) :=
  match broadcast_to rows v with
  | Some vs =>
      traverse (fun r => match broadcast_to cols r with
                         | Some r' => Return r'
                         | None => Raise ValueError
                         end) vs
  | None => Raise ValueError
  end.

(** [block[ch, :] = vs]: slot [k] of [vs] is written at channel [ch[k]], one
    slot after the other, so that the last slot written to a channel stays. *)
Definition assign_channels {A} (ch : list nat) (vs block : list (list A))
  : list (list A) :=
  foldl (fun b gv => <[gv.1 := gv.2]> b) block (zip ch vs).

(** A similarity score: the rank scores are Python integers, the scores of
    the close-clusters collaborator are whatever it computes. *)
Inductive score (S : Type) : Type :=
  | Rank (z : Z)
  | Other (s : S).
Arguments Rank {S} z.
Arguments Other {S} s.

Section Controller.
Context {F S : Type}.
(** [0.0], the value of [np.zeros]. *)
Variable zero : F.
(** [Controller._select_spikes(cluster_id, n_max)] and
    [Controller.get_close_clusters(cluster_id)], of the [phy] library. *)
Variable _select_spikes : Z -> option nat -> outcome (list Z).
Variable get_close_clusters : Z -> outcome (list (Z * score S)).

(** The attributes of the controller that the queries read. *)
Record controller : Type := mkController {
  n_channels : nat;
  n_features_per_channel : nat;
  all_features : array3 F;          (* (n_spikes, n_features_per_channel, n_loc_chan) *)
  features_ind : array2 Z;          (* (n_loc_chan, n_templates) *)
  spike_clusters : list Z;          (* (n_spikes,) *)
  all_masks : MaskLoader F;
  template_features : array2 F;     (* (n_spikes, n_sim_tem) *)
  template_features_ind : array2 Z  (* (n_templates, n_sim_tem) *)
}.

Record features_bunch : Type := mkFeatures {
  b_data : array3 F;
  b_spike_ids : list Z;
  b_spike_clusters : list Z;
  b_masks : mask_item F
}.

Definition get_features (self : controller) (cluster_id : Z)
  : outcome features_bunch :=
  spike_ids ← _select_spikes cluster_id (Some 1000%nat);
  let nc := n_channels self in
  let nfpc := n_features_per_channel self in
  let ns := length spike_ids in
  let f := replicate ns (replicate nc (replicate nfpc zero)) in
  (* Sparse channels. *)
  ch ← py_column (features_ind self) cluster_id;
  (* Populate the dense features array. *)
  sparse ← py_take (a3_planes (all_features self)) spike_ids;
  let v := map (transpose (a3_dim2 (all_features self))) sparse in
  if broadcastable (a3_dim2 (all_features self)) (length ch)
     && broadcastable (a3_dim1 (all_features self)) nfpc then
    vs ← traverse (broadcast_block (length ch) nfpc) v;
    chn ← traverse (norm_index nc) ch;
    let f := zip_with (assign_channels chn) vs f in
    clu ← py_take (spike_clusters self) spike_ids;
    masks ← MaskLoader_getitem (all_masks self) (Many spike_ids);
    Return (mkFeatures (Array3 f nc nfpc) spike_ids clu masks)
  else Raise ValueError.

Record template_features_bunch : Type := mkTemplateFeatures {
  d_x : list F;
  d_y : list F;
  d_spike_ids : list Z;
  d_spike_clusters : list Z
}.

(** [template_features_ind[c].tolist()]: the similar templates of [c],
    closest first. *)
Definition similar_templates (self : controller) (c : Z) : outcome (list Z) :=
  py_index (a2_rows (template_features_ind self)) c.

Definition get_template_features (self : controller) (cluster_ids : list Z)
  : outcome (option template_features_bunch) :=
  let template_features := template_features self in
  if decide (length cluster_ids < 2)%nat then Return None else
  match cluster_ids with
  | cx :: cy :: _ =>
      sim_x ← similar_templates self cx;
      sim_y ← similar_templates self cy;
      if bool_decide (cx ∉ sim_y) || bool_decide (cy ∉ sim_x) then Return None
      else
        sxy ← list_index cy sim_x;
        syx ← list_index cx sim_y;
        spikes_x ← _select_spikes cx None;
        spikes_y ← _select_spikes cy None;
        let spike_ids := spikes_x ++ spikes_y in
        x1 ← py_take_column template_features spikes_x 0;
        x2 ← py_take_column template_features spikes_y (Z.of_nat syx);
        y1 ← py_take_column template_features spikes_x (Z.of_nat sxy);
        y2 ← py_take_column template_features spikes_y 0;
        clu ← py_take (spike_clusters self) spike_ids;
        Return (Some (mkTemplateFeatures (x1 ++ x2) (y1 ++ y2) spike_ids clu))
  | _ => Return None
  end.

Definition similarity (self : controller) (cluster_id : Z)
  : outcome (list (Z * score S)) :=
  let n := a2_ncols (template_features_ind self) in
  sim0 ← py_index (a2_rows (template_features_ind self)) cluster_id;
  let sim := imap (fun i c => (c, Rank (- Z.of_nat n + Z.of_nat i))) sim0 in
  sim2 ← get_close_clusters cluster_id;
  let sim2 := filter (fun e => e.1 ∉ sim0) sim2 in
  Return (sim ++ sim2).
End Controller.
Arguments controller F : clear implicits.
Arguments features_bunch F : clear implicits.
Arguments template_features_bunch F : clear implicits.

(** ** Valid indices *)

(** [l[i]] is [a], with [i] a valid non-negative index. *)
Definition at_index {A} (l : list A) (i : Z) (a : A) : Prop :=
  0 <= i /\ l !! Z.to_nat i = Some a.

(** A spike id that indexes both the template features and the cluster
    assignment (both have [n_spikes] entries after [_init_data]). *)
Definition valid_spike {F} (self : controller F) (i : Z) : Prop :=
  0 <= i < Z.of_nat (length (a2_rows (template_features self)))
  /\ i < Z.of_nat (length (spike_clusters self)).

(** ** Peaks

    [p] is the peak absolute value of [vals]: no absolute value exceeds it,
    and one of them is [p]. *)
Definition is_peak (vals : list Q) (p : Q) : Prop :=
  (forall v, v ∈ vals -> (Qabs v <= p)%Q) /\ (exists v, v ∈ vals /\ Qabs v = p).

(** The values of channel [c] in a template of shape (samples, channels). *)
Definition channel_values (template : list (list Q)) (c : nat) : list Q :=
  omap (fun r => r !! c) template.

(** The mask value of a channel with peak [pc] in a template with peak
    [peak]. *)
Definition mask_value (pc peak : Q) : Num.num :=
  if Qeq_bool peak 0 then Num.Fin 0 else Num.Fin (pc / peak).

(** A tensor of finite values. *)
Definition finite_tensor (qs : list (list (list Q))) (n_samples n_channels : nat)
  : array3 Num.num :=
  Array3 (map (map (map Num.Fin)) qs) n_samples n_channels.

(** What [get_masks] computes on one template of finite values: the peak
    of each channel, the peak of the template, and the row of the mask. *)
Definition finite_channel_peaks (template : list (list Q)) : list Q :=
  match map (map Qabs) template with
  | [] => []
  | r :: rest => foldl (zip_with Qmax) r rest
  end.

Definition finite_peak (m : list Q) : Q :=
  match m with
  | [] => 0%Q
  | x :: l => foldl Qmax x l
  end.

Definition finite_mask_row (template : list (list Q)) : list Num.num :=
  let m := finite_channel_peaks template in
  map (fun pc => mask_value pc (finite_peak m)) m.

(** Two templates of two samples on two channels; the second is all zero. *)
Definition example_templates : list (list (list Q)) :=
  [ [[1 # 2; -2 # 1]; [1 # 1; 0 # 1]];
    [[0 # 1; 0 # 1]; [0 # 1; 0 # 1]] ]%Q.

(** ** A small data set

    Four spikes, two templates, four channels, two local channels and two
    similar templates per template, with integer values. *)

Module Example.
Definition spike_clusters : list Z := [0; 1; 0; 1].

Definition template_masks : array2 Z :=
  Array2 [[1; 0; 2; 0]; [0; 3; 0; 4]] 4.

Definition all_features : array3 Z :=
  Array3 [ [[1; 2]; [3; 4]; [5; 6]];
           [[11; 12]; [13; 14]; [15; 16]];
           [[21; 22]; [23; 24]; [25; 26]];
           [[31; 32]; [33; 34]; [35; 36]] ] 3 2.

Definition features_ind : array2 Z := Array2 [[0; 3]; [2; 1]] 2.

Definition template_features : array2 Z :=
  Array2 [[1; 2]; [3; 4]; [5; 6]; [7; 8]] 2.

Definition template_features_ind : array2 Z := Array2 [[0; 1]; [1; 0]] 2.

Definition self : controller Z :=
  mkController 4 3 all_features features_ind spike_clusters
    (MaskLoader_init template_masks spike_clusters)
    template_features template_features_ind.

(** The spikes of a cluster, and at most the first [n_max] of them. *)
Definition spikes_of (c : Z) : list Z :=
  omap (fun ic : nat * Z => if decide (ic.2 = c) then Some (Z.of_nat ic.1) else None)
       (imap pair spike_clusters).

Definition select_spikes (c : Z) (n_max : option nat) : outcome (list Z) :=
  if decide (c < 0) then Raise AssertionError
  else Return (match n_max with
               | Some n => take n (spikes_of c)
               | None => spikes_of c
               end).

Definition close_clusters (c : Z) : outcome (list (Z * score Z)) :=
  Return [(1, Other 5); (2, Other 9)].

End Example.

(** ** Amplitudes of a cluster ([get_amplitudes], lines 280-288)

    The attributes [spike_times] and [all_amplitudes] of the controller are
    arguments here. *)

Section Amplitudes.
Context {F : Type}.
Variable _select_spikes : Z -> option nat -> outcome (list Z).

Record amplitudes_bunch : Type := mkAmplitudes {
  a_spike_ids : list Z;
  a_spike_clusters : list Z;
  a_x : list F;
  a_y : list F
}.

Definition get_amplitudes (spike_times all_amplitudes : list F)
    (cluster_id : Z) : outcome amplitudes_bunch :=
  spike_ids ← _select_spikes cluster_id (Some 10000%nat);
  (* cluster_id * np.ones(len(spike_ids)) *)
  let clu := replicate (length spike_ids) cluster_id in
  x ← py_take spike_times spike_ids;
  y ← py_take all_amplitudes spike_ids;
  Return (mkAmplitudes spike_ids clu x y).
End Amplitudes.
Arguments amplitudes_bunch F : clear implicits.

(** ** Traces of an interval ([get_traces], lines 314-335)

    [select_traces] (of [phy]), the removal of the mean of each channel and
    [searchsorted] are parameters.  The array [tr - np.mean(tr, axis=0)] is
    a new buffer of the store; the two bundles that are returned hold the
    references of the raw and of the residual buffer. *)

Section Traces.
Context {F : Type}.
Variable fsub fmul : F -> F -> F.
Variable round_int : F -> outcome Z.
(** [select_traces(self.all_traces, interval, sample_rate=...)] *)
Variable select_traces : F * F -> outcome (array2 F).
(** [tr - np.mean(tr, axis=0)] *)
Variable remove_mean : array2 F -> array2 F.
(** [a.searchsorted(v)] *)
Variable searchsorted : list F -> F -> nat.

Record trace_data : Type := mkTraceData {
  t_spike_times : list F;
  t_spike_clusters : list Z;
  t_all_amplitudes : list F;
  t_templates_unw : array3 F;
  t_sample_rate : F
}.

Definition get_traces (self : trace_data) (interval : F * F)
  : M F (loc * loc) :=
  raw ← lift (select_traces interval);
  tr ← alloc (remove_mean raw);
  let a := Some (Z.of_nat (searchsorted (t_spike_times self) interval.1)) in
  let b := Some (Z.of_nat (searchsorted (t_spike_times self) interval.2)) in
  let sc := py_slice a b (t_spike_clusters self) in
  (* Remove templates. *)
  planes ← lift (py_take (a3_planes (t_templates_unw self)) sc);
  tr_sub ← subtract_templates fsub fmul round_int tr interval.1
             (py_slice a b (t_spike_times self))
             (py_slice a b (t_all_amplitudes self))
             (Array3 planes (a3_dim1 (t_templates_unw self))
                            (a3_dim2 (t_templates_unw self)))
             (t_sample_rate self);
  mret (tr, tr_sub).
End Traces.
Arguments trace_data F : clear implicits.

(** What [get_masks] computes on one template, for any values: the peaks
    of the channels, the peak of the template, and the row of the mask. *)
Definition channel_peaks (template : list (list Num.num)) : list Num.num :=
  match map (map Num.abs) template with
  | [] => []
  | r :: rest => foldl (zip_with Num.max) r rest
  end.

Definition template_peak (m : list Num.num) : Num.num :=
  match m with
  | [] => Num.zero
  | x :: l => foldl Num.max x l
  end.

Definition mask_row (n_channels : nat) (template : list (list Num.num))
  : list Num.num :=
  let m := channel_peaks template in
  let d := template_peak m in
  if Num.is_zero d then replicate n_channels Num.zero
  else map (fun v => Num.div v d) m.

(** ** A small recording

    One channel of 100 samples, three spikes of one template, with integer
    values; the mean removal is left out and [searchsorted] counts the
    times below the value. *)

Module ExampleTraces.
Definition self : trace_data Z :=
  mkTraceData [5; 50; 95] [0; 0; 0] [1; 1; 1]
    (Array3 [a2_rows (IntBuffers.ones 61 1)] 61 1) 1.

Definition select_traces (interval : Z * Z) : outcome (array2 Z) :=
  Return (IntBuffers.zeros 100 1).

Definition remove_mean (a : array2 Z) : array2 Z := a.

Definition searchsorted (l : list Z) (v : Z) : nat :=
  length (filter (fun x => x < v) l).

Definition get_traces (interval : Z * Z) : M Z (loc * loc) :=
  get_traces Z.sub Z.mul (fun v => Return v) select_traces remove_mean
    searchsorted self interval.
End ExampleTraces.

(** * Theorems *)

(** ** Facts about slices and broadcasting *)

Lemma clip_bound_le (len : nat) (i : Z) : (clip_bound len i <= len)%nat.
Proof. unfold clip_bound. repeat case_decide; lia. Qed.

Lemma clip_bound_in_range (len : nat) (i : Z) :
  0 <= i <= Z.of_nat len -> clip_bound len i = Z.to_nat i.
Proof. intros Hi. unfold clip_bound. repeat case_decide; lia. Qed.

Lemma broadcast_to_length {B} (m : nat) (src xs : list B) :
  broadcast_to m src = Some xs -> length xs = m.
Proof.
  unfold broadcast_to. case_decide as Hlen.
  - intros [= <-]. exact Hlen.
  - destruct src as [|b [|? ?]]; try discriminate.
    intros [= <-]. apply length_replicate.
Qed.

Lemma broadcast_to_same {B} (src : list B) :
  broadcast_to (length src) src = Some src.
Proof. unfold broadcast_to. by rewrite decide_True. Qed.

Lemma broadcast_to_none {B} (m : nat) (src : list B) :
  length src <> m -> length src <> 1%nat -> broadcast_to m src = None.
Proof.
  intros Hm H1. unfold broadcast_to. rewrite decide_False by done.
  destruct src as [|b [|? ?]]; simpl in *; done.
Qed.

Lemma clip_bound_nonneg (len k : nat) :
  clip_bound len (Z.of_nat k) = (k `min` len)%nat.
Proof. unfold clip_bound. repeat case_decide; lia. Qed.

Lemma clip_bound_neg (len k : nat) :
  (0 < k)%nat -> clip_bound len (- Z.of_nat k) = (len - k)%nat.
Proof. intros Hk. unfold clip_bound. repeat case_decide; lia. Qed.

Lemma py_slice_from {A} (k : nat) (l : list A) :
  py_slice (Some (Z.of_nat k)) None l = drop k l.
Proof.
  unfold py_slice, slice_bounds. simpl. rewrite clip_bound_nonneg.
  destruct (decide (k <= length l)%nat).
  - rewrite Nat.min_l by lia. apply take_ge. rewrite length_drop. lia.
  - rewrite Nat.min_r by lia. rewrite Nat.sub_diag, take_0.
    symmetry. apply drop_ge. lia.
Qed.

Lemma py_slice_drop_last {A} (k : nat) (l : list A) :
  (0 < k)%nat -> py_slice None (Some (- Z.of_nat k)) l = take (length l - k) l.
Proof.
  intros Hk. unfold py_slice, slice_bounds. simpl.
  rewrite clip_bound_neg by done. by rewrite Nat.sub_0_r.
Qed.

Section SubtractFacts.
Context {F : Type}.
Variable fsub fmul : F -> F -> F.
Variable round_int : F -> outcome Z.

Lemma isub_rows_shape (tr x tr' : array2 F) (sa sb : Z) :
  isub_rows fsub tr sa sb x = Return tr' -> shape2 tr' = shape2 tr.
Proof.
  unfold isub_rows, slice_bounds. simpl.
  pose proof (clip_bound_le (length (a2_rows tr)) sa) as Ha.
  pose proof (clip_bound_le (length (a2_rows tr)) sb) as Hb.
  destruct (broadcastable _ _); [|discriminate].
  destruct (broadcast_to _ _) as [xs|] eqn:Hxs; [|discriminate].
  apply broadcast_to_length in Hxs.
  intros [= <-]. unfold shape2. simpl. f_equal.
  rewrite !length_app, length_zip_with, !length_take, !length_drop. lia.
Qed.

Lemma subtract_spike_shape n start rate st w index (tr tr' : array2 F) :
  subtract_spike fsub fmul round_int n start rate st w index tr = Return tr' ->
  shape2 tr' = shape2 tr.
Proof.
  unfold subtract_spike.
  destruct (py_index st _) as [s|]; [simpl|discriminate].
  destruct (round_int _) as [t|]; [simpl|discriminate].
  destruct (plane w index) as [x|]; [simpl|discriminate].
  unfold subtract_window.
  destruct (clip_window n t x) as [[x' sa] sb].
  apply isub_rows_shape.
Qed.
End SubtractFacts.

(** ** The effect of [subtract_templates] on the store *)

Section SubtractStore.
Context {F : Type}.
Variable fsub fmul : F -> F -> F.
Variable round_int : F -> outcome Z.

Lemma run_bind {A B} (m : M F A) (k : A -> M F B) (h : gmap loc (array2 F)) :
  (m ≫= k) h =
  match m h with
  | (Return a, h') => k a h'
  | (Raise e, h') => (Raise e, h')
  end.
Proof. reflexivity. Qed.

Lemma for_each_cons {A} (a : A) (l : list A) (body : A -> M F unit) :
  for_each (a :: l) body = (body a;; for_each l body).
Proof. reflexivity. Qed.

(** The loop only ever writes the copy, and keeps its shape. *)
Lemma subtract_loop_inv n start rate st w (l' : loc) (idx : list nat) :
  forall (h : gmap loc (array2 F)) (cur : array2 F),
    h !! l' = Some cur ->
    exists r cur',
      for_each idx (fun index =>
         c ← load l';
         new ← lift (subtract_spike fsub fmul round_int n start rate st w index c);
         write l' new) h = (r, <[l' := cur']> h)
      /\ shape2 cur' = shape2 cur.
Proof.
  induction idx as [|index idx IH]; intros h cur Hcur.
  - exists (Return tt), cur. simpl. split; [|done].
    unfold mret, M_ret. f_equal. symmetry. by apply insert_id.
  - rewrite for_each_cons, !run_bind. unfold load at 1. rewrite Hcur.
    cbv beta iota. rewrite run_bind. unfold lift at 1.
    destruct (subtract_spike _ _ _ _ _ _ _ _ _ _) as [new|e] eqn:Hstep.
    + apply subtract_spike_shape in Hstep.
      unfold write at 1. cbv beta iota.
      destruct (IH (<[l' := new]> h) new) as (r & cur' & Heq & Hsh).
      { apply lookup_insert_eq. }
      exists r, cur'. split; [|congruence].
      rewrite Heq. f_equal. apply insert_insert_eq.
    + exists (Raise e), cur. split; [|done].
      f_equal. symmetry. by apply insert_id.
Qed.

(** A run of [subtract_templates] adds one buffer, at a new reference and
    of the shape of the input, and changes nothing else; when the call
    returns, it returns that reference. *)
Lemma subtract_templates_run (h : gmap loc (array2 F)) traces tr
    start st amps tpl rate :
  h !! traces = Some tr ->
  exists r out,
    subtract_templates fsub fmul round_int traces start st amps tpl rate h
      = (r, <[fresh (dom h) := out]> h)
    /\ shape2 out = shape2 tr
    /\ (r = Return (fresh (dom h)) \/ exists e, r = Raise e).
Proof.
  intros Htr. unfold subtract_templates. set (l' := fresh (dom h)).
  rewrite run_bind. unfold load at 1. rewrite Htr.
  rewrite run_bind. unfold alloc at 1. fold l'.
  rewrite run_bind. unfold lift at 1.
  destruct (mul_amplitudes fmul tpl amps) as [w|e].
  - rewrite run_bind.
    destruct (subtract_loop_inv (length (a2_rows tr)) start rate st w l'
                (seq 0 (length (a3_planes w))) (<[l' := tr]> h) tr)
      as (r & cur' & Heq & Hsh); [apply lookup_insert_eq|].
    rewrite insert_insert_eq in Heq. rewrite Heq.
    destruct r as [[]|e].
    + exists (Return l'), cur'. eauto.
    + exists (Raise e), cur'. eauto.
  - exists (Raise e), tr. eauto.
Qed.
End SubtractStore.

(** ** Clipping of the subtraction window *)

Section Clipping.
Context {F : Type}.
Variable fsub : F -> F -> F.

(** A window that overhangs at most one end of the buffer is clipped to
    its overlap [a, b) with the buffer: exactly the rows [a, b) change,
    and row [a + k] has template sample [a + k - (t - 20)] subtracted. *)
Lemma subtract_window_clipped (t : Z) (x tr : array2 F) :
  let n := length (a2_rows tr) in
  let a := Z.to_nat (Z.max 0 (t - 20)) in
  let b := Z.to_nat (Z.min (Z.of_nat n) (t + 41)) in
  length (a2_rows x) = 61%nat ->
  a2_ncols x = a2_ncols tr ->
  ~ (t - 20 < 0 /\ t + 41 > Z.of_nat n) ->
  0 <= t + 41 ->
  t - 20 <= Z.of_nat n ->
  subtract_window fsub n t x tr =
    Return (Array2
              (take a (a2_rows tr)
               ++ zip_with (sub_row fsub)
                    (take (b - a) (drop a (a2_rows tr)))
                    (take (b - a) (drop (Z.to_nat (Z.of_nat a - (t - 20))) (a2_rows x)))
               ++ drop b (a2_rows tr))
              (a2_ncols tr)).
Proof.
  intros n a b Hx Hc Hboth Hsb Hsa.
  unfold subtract_window, clip_window.
  destruct (decide (t - 20 < 0)) as [Hlo|Hlo].
  - (* leading samples trimmed *)
    assert (a = 0%nat) as Ha by lia.
    assert (b = Z.to_nat (t + 41)) as Hb by lia.
    clearbody a b. subst a b.
    unfold isub_rows, slice_bounds, slice_rows. simpl. fold n.
    rewrite Hc. unfold broadcastable at 1. rewrite bool_decide_eq_true_2 by done.
    simpl.
    rewrite (clip_bound_in_range n 0) by lia.
    rewrite (clip_bound_in_range n (t + 41)) by lia.
    replace (- (t - 20)) with (Z.of_nat (Z.to_nat (20 - t))) by lia.
    rewrite py_slice_from. simpl.
    replace (Z.to_nat (Z.of_nat 0 - (t - 20))) with (Z.to_nat (20 - t)) by lia.
    rewrite !Nat.sub_0_r, !drop_0.
    assert (Hlen : length (drop (Z.to_nat (20 - t)) (a2_rows x))
                   = Z.to_nat (t + 41)).
    { rewrite length_drop, Hx. lia. }
    rewrite <- Hlen at 1. rewrite broadcast_to_same.
    rewrite (take_ge (drop _ (a2_rows x))) by lia. done.
  - destruct (decide (t + 41 > Z.of_nat n)) as [Hhi|Hhi].
    + (* trailing samples trimmed *)
      assert (a = Z.to_nat (t - 20)) as Ha by lia.
      assert (b = n) as Hb by lia.
      clearbody a b. subst a b.
      unfold isub_rows, slice_bounds, slice_rows. simpl. fold n.
      rewrite Hc. unfold broadcastable at 1. rewrite bool_decide_eq_true_2 by done.
      simpl.
      rewrite (clip_bound_in_range n (t - 20)) by lia.
      rewrite (clip_bound_in_range n (Z.of_nat n)) by lia.
      replace (- (t + 41 - Z.of_nat n))
        with (- Z.of_nat (Z.to_nat (t + 41 - Z.of_nat n))) by lia.
      rewrite py_slice_drop_last by lia. rewrite Hx, Nat2Z.id.
      replace (Z.to_nat (Z.of_nat (Z.to_nat (t - 20)) - (t - 20)))
        with 0%nat by lia.
      rewrite drop_0.
      replace (61 - Z.to_nat (t + 41 - Z.of_nat n))%nat
        with (n - Z.to_nat (t - 20))%nat by lia.
      assert (Hlen : length (take (n - Z.to_nat (t - 20)) (a2_rows x))
                     = (n - Z.to_nat (t - 20))%nat).
      { rewrite length_take, Hx. lia. }
      rewrite <- Hlen at 1. rewrite broadcast_to_same.
      replace (Z.to_nat (t - 20) + (n - Z.to_nat (t - 20)))%nat with n by lia.
      done.
    + (* the whole window is inside the buffer *)
      assert (a = Z.to_nat (t - 20)) as Ha by lia.
      assert (b = (Z.to_nat (t - 20) + 61)%nat) as Hb by lia.
      clearbody a b. subst a b.
      unfold isub_rows, slice_bounds. simpl. fold n.
      rewrite Hc. unfold broadcastable at 1. rewrite bool_decide_eq_true_2 by done.
      simpl.
      rewrite (clip_bound_in_range n (t - 20)) by lia.
      rewrite (clip_bound_in_range n (t + 41)) by lia.
      replace (Z.to_nat (Z.of_nat (Z.to_nat (t - 20)) - (t - 20)))
        with 0%nat by lia.
      rewrite drop_0.
      replace (Z.to_nat (t + 41) - Z.to_nat (t - 20))%nat with 61%nat by lia.
      replace (Z.to_nat (t - 20) + 61 - Z.to_nat (t - 20))%nat
        with 61%nat by lia.
      rewrite <- Hx at 1. rewrite broadcast_to_same.
      rewrite (take_ge (a2_rows x)) by lia. done.
Qed.

(** A window that overhangs both ends of a buffer with at least one row is
    not clipped at the far end: the [elif] of line 56 is skipped, the
    trimmed template is longer than the buffer, and the subtraction
    raises. *)
Lemma subtract_window_overhang_both (t : Z) (x tr : array2 F) :
  let n := length (a2_rows tr) in
  length (a2_rows x) = 61%nat ->
  (0 < n)%nat ->
  t - 20 < 0 ->
  t + 41 > Z.of_nat n ->
  subtract_window fsub n t x tr = Raise ValueError.
Proof.
  intros n Hx Hn Hlo Hhi.
  unfold subtract_window, clip_window. rewrite decide_True by done.
  unfold isub_rows, slice_bounds, slice_rows. simpl. fold n.
  destruct (broadcastable _ _); [|done].
  rewrite (clip_bound_in_range n 0) by lia.
  replace (clip_bound n (t + 41)) with n
    by (unfold clip_bound; repeat case_decide; lia).
  replace (- (t - 20)) with (Z.of_nat (Z.to_nat (20 - t))) by lia.
  rewrite py_slice_from.
  rewrite broadcast_to_none; [done| |]; rewrite length_drop, Hx; lia.
Qed.
End Clipping.

(** ** When [subtract_templates] returns *)

Section SubtractReturns.
Context {F : Type}.
Variable fsub fmul : F -> F -> F.
Variable round_int : F -> outcome Z.

Lemma py_index_nat {A} (l : list A) (i : nat) (a : A) :
  l !! i = Some a -> py_index l (Z.of_nat i) = Return a.
Proof.
  intros Hl. pose proof (lookup_lt_Some _ _ _ Hl) as Hlt.
  unfold py_index, norm_index. rewrite decide_True by lia. simpl.
  rewrite Nat2Z.id. unfold mbind, outcome_bind. by rewrite Hl.
Qed.

Lemma subtract_spike_returns n c start rate st w index (tr : array2 F) :
  length (a2_rows tr) = n ->
  a2_ncols tr = c ->
  spike_fits fsub fmul round_int n c start rate st w index ->
  returns (subtract_spike fsub fmul round_int n start rate st w index tr).
Proof.
  intros Hn Hc (s & t & p & Hs & Ht & (Hboth & Hsb & Hsa) & Hp & Hlen & Hd).
  unfold subtract_spike. rewrite (py_index_nat _ _ _ Hs). simpl.
  rewrite Ht. simpl. unfold plane. rewrite Hp. simpl. subst n.
  rewrite subtract_window_clipped; simpl; try done; [by eexists|congruence].
Qed.

Lemma subtract_loop_returns n c start rate st w (l' : loc) (idx : list nat) :
  forall (h : gmap loc (array2 F)) (cur : array2 F),
    h !! l' = Some cur ->
    length (a2_rows cur) = n ->
    a2_ncols cur = c ->
    Forall (spike_fits fsub fmul round_int n c start rate st w) idx ->
    exists cur',
      for_each idx (fun index =>
         c ← load l';
         new ← lift (subtract_spike fsub fmul round_int n start rate st w index c);
         write l' new) h = (Return tt, <[l' := cur']> h).
Proof.
  induction idx as [|index idx IH]; intros h cur Hcur Hn Hc Hfit.
  - exists cur. simpl. unfold mret, M_ret. f_equal. symmetry. by apply insert_id.
  - apply Forall_cons in Hfit as [Hfit Hrest].
    rewrite for_each_cons, !run_bind. unfold load at 1. rewrite Hcur.
    cbv beta iota. rewrite run_bind. unfold lift at 1.
    destruct (subtract_spike_returns n c start rate st w index cur Hn Hc Hfit)
      as [new Hnew].
    rewrite Hnew. unfold write at 1. cbv beta iota.
    pose proof (subtract_spike_shape _ _ _ _ _ _ _ _ _ _ _ Hnew) as Hsh.
    injection Hsh as Hrows Hcols.
    destruct (IH (<[l' := new]> h) new) as (cur' & Heq);
      [apply lookup_insert_eq|congruence|congruence|done|].
    exists cur'. rewrite Heq. f_equal. apply insert_insert_eq.
Qed.

(** With one amplitude per template, 61 samples per template, and every
    window fitting the buffer, the call returns. *)
Lemma subtract_templates_returns (h : gmap loc (array2 F)) traces tr
    start st amps tpl rate :
  h !! traces = Some tr ->
  length (a3_planes tpl) = length amps ->
  Forall (fun p => length p = 61%nat) (a3_planes tpl) ->
  a3_dim2 tpl = a2_ncols tr ->
  (forall index, (index < length amps)%nat ->
     exists s t, st !! index = Some s
                 /\ round_int (fmul (fsub s start) rate) = Return t
                 /\ window_fits (length (a2_rows tr)) t) ->
  (subtract_templates fsub fmul round_int traces start st amps tpl rate h).1
    = Return (fresh (dom h)).
Proof.
  intros Htr Hlen H61 Hd Hspikes.
  unfold subtract_templates. set (l' := fresh (dom h)).
  rewrite run_bind. unfold load at 1. rewrite Htr.
  rewrite run_bind. unfold alloc at 1. fold l'.
  rewrite run_bind. unfold lift at 1.
  unfold mul_amplitudes. rewrite decide_True by done.
  set (w := Array3 _ _ _). cbv beta iota. rewrite run_bind.
  destruct (subtract_loop_returns (length (a2_rows tr)) (a2_ncols tr)
              start rate st w l' (seq 0 (length (a3_planes w)))
              (<[l' := tr]> h) tr) as (cur' & Heq);
    [apply lookup_insert_eq|done|done| |by rewrite Heq].
  apply Forall_forall. intros index Hin%elem_of_seq.
  assert (Hw : length (a3_planes w) = length amps).
  { subst w. simpl. rewrite length_zip_with. lia. }
  destruct (Hspikes index) as (s & t & Hs & Ht & Hfit); [lia|].
  destruct (lookup_lt_is_Some_2 (a3_planes w) index) as [p Hp]; [lia|].
  exists s, t, p. repeat split; try done; try apply Hfit.
  subst w. simpl in Hp.
  apply lookup_zip_with_Some in Hp as (p0 & a & -> & Hp0 & _).
  unfold scale_plane. rewrite length_map.
  eapply (Forall_lookup_1 _ _ _ _ H61 Hp0).
Qed.
End SubtractReturns.

(** ** Claims on [subtract_templates] *)

(** C1 (the code departs from the claim).  On a buffer of 30 samples, a spike
    at offset 10 has the window [-10, 51), which overhangs both ends.  The
    claim wants the template clipped to the 30 rows of the overlap; the code
    trims only the leading samples (the branch for the far end is an [elif]),
    keeps 51 template rows for a slice of 30 rows, and raises. *)
Theorem subtract_templates_double_overhang_raises :
  (IntBuffers.subtract 1%positive 0 [10] [1] IntBuffers.unit_template 1
     (IntBuffers.one_buffer 30)).1 = Raise ValueError.
Proof. vm_compute. reflexivity. Qed.

Section SubtractClaims.
Context {F : Type}.
Variable fsub fmul : F -> F -> F.
Variable round_int : F -> outcome Z.


(** C10.  With no spike (no amplitude and no template) the call returns a
    new buffer that holds exactly the values of the input buffer. *)
Theorem subtract_templates_no_spikes
    (h : gmap loc (array2 F)) (traces : loc) (tr : array2 F)
    (start : F) (spike_times : list F) (d1 d2 : nat) (sample_rate : F) :
  h !! traces = Some tr ->
  exists l' h',
    subtract_templates fsub fmul round_int traces start spike_times []
      (Array3 [] d1 d2) sample_rate h = (Return l', h')
    /\ h' !! l' = Some tr
    /\ h' !! traces = Some tr.
Proof.
  intros Htr. exists (fresh (dom h)), (<[fresh (dom h) := tr]> h).
  assert (Hfresh : h !! fresh (dom h) = None).
  { apply not_elem_of_dom. apply is_fresh. }
  split; [|split].
  - unfold subtract_templates. rewrite run_bind. unfold load at 1.
    rewrite Htr. reflexivity.
  - apply lookup_insert_eq.
  - rewrite lookup_insert_ne; [done|]. congruence.
Qed.
End SubtractClaims.


Lemma subtract_templates_no_spikes_witness :
  IntBuffers.one_buffer 4 !! 1%positive = Some (IntBuffers.zeros 4 1)
  /\ exists l' h',
       IntBuffers.subtract 1%positive 0 [] [] (Array3 [] 61 1) 1
         (IntBuffers.one_buffer 4) = (Return l', h')
       /\ h' !! l' = Some (IntBuffers.zeros 4 1)
       /\ h' !! 1%positive = Some (IntBuffers.zeros 4 1).
Proof.
  split; [reflexivity|].
  apply (subtract_templates_no_spikes Z.sub Z.mul (fun v => Return v)
           (IntBuffers.one_buffer 4) 1%positive (IntBuffers.zeros 4 1)).
  reflexivity.
Defined.

(** ** Indexing facts *)

Lemma traverse_Forall2 {A B} (f : A -> outcome B) (l : list A) (bs : list B) :
  traverse f l = Return bs <-> Forall2 (fun a b => f a = Return b) l bs.
Proof.
  revert bs. induction l as [|a l IH]; intros bs; simpl.
  - split.
    + intros [= <-]. constructor.
    + intros Hf. by inversion Hf.
  - split.
    + destruct (f a) as [b|e] eqn:Hfa; simpl; [|discriminate].
      destruct (traverse f l) as [bs'|e] eqn:Hl; simpl; [|discriminate].
      intros [= <-]. constructor; [done|]. by apply IH.
    + intros Hf. inversion Hf as [|? b ? bs' Hab Hrest]; subst.
      rewrite Hab. simpl. apply IH in Hrest. rewrite Hrest. done.
Qed.

Lemma traverse_length {A B} (f : A -> outcome B) (l : list A) (bs : list B) :
  traverse f l = Return bs -> length bs = length l.
Proof.
  intros H%traverse_Forall2. symmetry. by eapply Forall2_length.
Qed.

Lemma py_index_at {A} (l : list A) (i : Z) (a : A) :
  at_index l i a -> py_index l i = Return a.
Proof.
  intros [Hi Hl]. pose proof (lookup_lt_Some _ _ _ Hl) as Hlt.
  unfold py_index, norm_index. rewrite decide_True by lia. simpl.
  by rewrite Hl.
Qed.

Lemma py_take_at {A} (l : list A) (ids : list Z) (xs : list A) :
  Forall2 (at_index l) ids xs -> py_take l ids = Return xs.
Proof.
  intros H. apply traverse_Forall2.
  eapply Forall2_impl; [exact H|]. intros i a. apply py_index_at.
Qed.

(** ** Claims on the mask lookup *)

Section MaskClaims.
Context {F : Type}.

(** C5.  For spike ids [ids] whose clusters [clus] are rows of the mask
    table, the lookup of the array [ids] returns exactly the rows
    [template_masks[spike_clusters[i]]], and the lookup of one spike id
    [i] returns the row of its cluster: the row at position [k] of the
    array lookup is the result of the lookup of [ids[k]]. *)
Theorem mask_lookup_by_cluster
    (template_masks : array2 F) (spike_clusters : list Z)
    (ids clus : list Z) (rows : list (list F)) :
  Forall2 (at_index spike_clusters) ids clus ->
  Forall2 (at_index (a2_rows template_masks)) clus rows ->
  let all_masks := MaskLoader_init template_masks spike_clusters in
  MaskLoader_getitem all_masks (Many ids)
    = Return (Rows (Array2 rows (a2_ncols template_masks)))
  /\ Forall2 (fun i r => MaskLoader_getitem all_masks (One i) = Return (Row r))
       ids rows
  /\ (forall k i c, ids !! k = Some i -> clus !! k = Some c ->
        at_index spike_clusters i c
        /\ exists r, rows !! k = Some r
                     /\ at_index (a2_rows template_masks) c r).
Proof.
  intros Hclus Hrows all_masks. split; [|split].
  - simpl. rewrite (py_take_at _ _ _ Hclus). simpl.
    rewrite (py_take_at _ _ _ Hrows). done.
  - revert rows Hrows. induction Hclus as [|i c ids clus Hic Hrest IH];
      intros rows Hrows; inversion Hrows as [|? r ? rows' Hcr Hrows']; subst.
    + constructor.
    + constructor; [|by apply IH].
      simpl. rewrite (py_index_at _ _ _ Hic). simpl.
      rewrite (py_index_at _ _ _ Hcr). done.
  - intros k i c Hi Hc.
    destruct (Forall2_lookup_l _ _ _ _ _ Hclus Hi) as (c' & Hc' & Hic).
    assert (c' = c) as -> by congruence.
    destruct (Forall2_lookup_l _ _ _ _ _ Hrows Hc) as (r & Hr & Hcr).
    eauto.
Qed.
End MaskClaims.

Lemma mask_lookup_by_cluster_witness :
  Forall2 (at_index Example.spike_clusters) [1; 2] [1; 0]
  /\ Forall2 (at_index (a2_rows Example.template_masks)) [1; 0]
       [[0; 3; 0; 4]; [1; 0; 2; 0]]
  /\ MaskLoader_getitem
       (MaskLoader_init Example.template_masks Example.spike_clusters)
       (Many [1; 2])
     = Return (Rows (Array2 [[0; 3; 0; 4]; [1; 0; 2; 0]] 4)).
Proof.
  assert (H1 : Forall2 (at_index Example.spike_clusters) [1; 2] [1; 0]).
  { repeat (constructor; [split; [lia|reflexivity]|]). constructor. }
  assert (H2 : Forall2 (at_index (a2_rows Example.template_masks)) [1; 0]
                 [[0; 3; 0; 4]; [1; 0; 2; 0]]).
  { repeat (constructor; [split; [lia|reflexivity]|]). constructor. }
  split; [exact H1|]. split; [exact H2|].
  exact (proj1 (mask_lookup_by_cluster _ _ _ _ _ H1 H2)).
Defined.

(** ** Claims on the registry and on the cluster groups *)


Section ReadArrayClaims.
Context {V : Type}.
Variable np_load : string -> outcome V.
Variable sio_loadmat : string -> outcome (gmap string V).

End ReadArrayClaims.


(** The keys of the cluster groups are the first [n_clusters] naturals, and
    every key is unset. *)
Lemma groups_for_range_lookup (n : nat) (k : Z) :
  groups_for_range n !! k
  = if decide (0 <= k < Z.of_nat n) then Some None else None.
Proof.
  unfold groups_for_range. case_decide as Hk.
  - apply elem_of_list_to_map_1.
    + rewrite <- list_fmap_compose. simpl.
      apply NoDup_fmap_2; [|apply NoDup_seq].
      intros x y Hxy. simpl in Hxy. lia.
    + apply list_elem_of_fmap. exists (Z.to_nat k). split.
      * f_equal. lia.
      * apply elem_of_seq. lia.
  - apply not_elem_of_list_to_map_1. rewrite <- list_fmap_compose. simpl.
    intros (x & Hkx & Hx%elem_of_seq)%list_elem_of_fmap. simpl in Hkx. lia.
Qed.

(** C8 (the code departs from the claim).  For the cluster assignment
    [2; 5; 5] the cluster ids are 2 and 5, and the claim wants the groups
    keyed by 2 and 5; the code keys them by [range(n_clusters)], that is by
    0 and 1, so that cluster 2 and cluster 5 have no group and the keys 0
    and 1, which are no cluster, have one. *)
Theorem cluster_groups_keyed_by_range :
  let info := _init_data_clusters [2; 5; 5] in
  cluster_ids info = [2; 5]
  /\ map_to_list (cluster_groups info) ≡ₚ [(0, None); (1, None)]
  /\ cluster_groups info !! 2 = None
  /\ cluster_groups info !! 5 = None.
Proof.
  simpl. split; [reflexivity|]. split; [|split].
  - vm_compute. apply Permutation_swap.
  - rewrite groups_for_range_lookup. reflexivity.
  - rewrite groups_for_range_lookup. reflexivity.
Qed.


(** ** Claims on the similarity ranking *)

Lemma fst_imap_rank {S : Type} (n : Z) (sim0 : list Z) :
  (imap (fun i c => (c, @Rank S (n + Z.of_nat i))) sim0).*1 = sim0.
Proof.
  apply list_eq. intros i.
  rewrite list_lookup_fmap, list_lookup_imap.
  by destruct (sim0 !! i).
Qed.

Lemma NoDup_fst_filter {A B} (P : A * B -> Prop) `{!forall e, Decision (P e)}
    (l : list (A * B)) :
  NoDup (l.*1) -> NoDup ((filter P l).*1).
Proof.
  induction l as [|[a b] l IH]; [done|].
  rewrite fmap_cons, filter_cons. simpl. intros [Ha Hl]%NoDup_cons.
  destruct (decide (P (a, b))); [|by apply IH].
  rewrite fmap_cons. simpl. apply NoDup_cons. split; [|by apply IH].
  intros (e & -> & He%list_elem_of_filter)%list_elem_of_fmap.
  apply Ha. apply list_elem_of_fmap. exists e. tauto.
Qed.

Section SimilarityClaims.
Context {F S : Type}.
Variable get_close_clusters : Z -> outcome (list (Z * score S)).

(** C3 (amended).  [similarity(c)] returns first the [K] entries of the
    similar-template row of [c], in the order of the row, entry [i] with the
    score [-K + i]: the scores are negative and increase strictly with the
    rank, so that the first-listed template receives the most negative score
    [-K] and the last-listed one [-1].  They are followed by the entries of
    the close-clusters collaborator, in its order, without those whose id is
    in the row.  No id of the second part is an id of the first, and when
    neither the row nor the collaborator's list repeats an id, the result
    has no duplicate id. *)
Theorem similarity_ranked (self : controller F) (c : Z)
    (sim0 : list Z) (sim2 : list (Z * score S)) :
  similar_templates self c = Return sim0 ->
  length sim0 = a2_ncols (template_features_ind self) ->
  get_close_clusters c = Return sim2 ->
  let K := length sim0 in
  exists res,
    similarity get_close_clusters self c = Return res
    /\ (forall (i : nat) id, sim0 !! i = Some id ->
          res !! i = Some (id, Rank (- Z.of_nat K + Z.of_nat i))
          /\ - Z.of_nat K + Z.of_nat i < 0)
    /\ drop K res = filter (fun e => e.1 ∉ sim0) sim2
    /\ (forall e, e ∈ drop K res -> (e.1 ∉ sim0) /\ e ∈ sim2)
    /\ (NoDup sim0 -> NoDup (sim2.*1) -> NoDup (res.*1)).
Proof.
  intros Hsim0 Hlen Hsim2 K.
  set (top := imap (fun i c => (c, @Rank S (- Z.of_nat K + Z.of_nat i))) sim0).
  assert (Htop : length top = K) by (subst top; apply length_imap).
  exists (top ++ filter (fun e => e.1 ∉ sim0) sim2).
  split; [|split; [|split; [|split]]].
  - unfold similarity. unfold similar_templates in Hsim0. rewrite Hsim0. simpl.
    rewrite Hsim2. simpl. subst top K. by rewrite Hlen.
  - intros i id Hi. pose proof (lookup_lt_Some _ _ _ Hi) as Hlt.
    split; [|subst K; lia].
    rewrite lookup_app_l by lia. subst top.
    rewrite list_lookup_imap, Hi. done.
  - rewrite drop_app_length'; done.
  - rewrite drop_app_length' by done.
    intros e He%list_elem_of_filter. done.
  - intros Hnd0 Hnd2. rewrite fmap_app. apply NoDup_app.
    subst top. rewrite fst_imap_rank. split; [done|]. split.
    + intros id Hid (e & -> & He%list_elem_of_filter)%list_elem_of_fmap.
      tauto.
    + by apply NoDup_fst_filter.
Qed.
End SimilarityClaims.

Lemma similarity_ranked_witness :
  similar_templates Example.self 0 = Return [0; 1]
  /\ length [0; 1] = a2_ncols (template_features_ind Example.self)
  /\ Example.close_clusters 0 = Return [(1, Other 5); (2, Other 9)]
  /\ exists res,
       similarity Example.close_clusters Example.self 0 = Return res
       /\ (forall (i : nat) id, [0; 1] !! i = Some id ->
             res !! i = Some (id, Rank (- Z.of_nat 2 + Z.of_nat i))
             /\ - Z.of_nat 2 + Z.of_nat i < 0)
       /\ drop 2 res = filter (fun e => e.1 ∉ [0; 1]) [(1, Other 5); (2, Other 9)]
       /\ (forall e, e ∈ drop 2 res ->
             (e.1 ∉ [0; 1]) /\ e ∈ [(1, Other 5); (2, Other 9)])
       /\ (NoDup [0; 1] -> NoDup ([(1, @Other Z 5); (2, Other 9)].*1) ->
           NoDup (res.*1)).
Proof.
  split; [reflexivity|]. split; [reflexivity|]. split; [reflexivity|].
  apply (similarity_ranked Example.close_clusters Example.self 0 [0; 1]
           [(1, Other 5); (2, Other 9)]); reflexivity.
Defined.

(** C3 (the claim as stated fails).  In the small data set the row of
    cluster 0 lists the templates 0 and 1; the first-listed template 0
    receives the score -2 and template 1 the score -1, so the first-listed
    template does not have the least negative score of the row. *)
Lemma similarity_first_listed_most_negative :
  ~ (forall res, similarity Example.close_clusters Example.self 0 = Return res ->
       forall c0 z0 (j : nat) cj zj,
         res !! 0%nat = Some (c0, Rank z0) ->
         res !! j = Some (cj, Rank zj) ->
         zj <= z0).
Proof.
  intros H.
  specialize (H [(0, Rank (-2)); (1, Rank (-1)); (2, Other 9)] eq_refl
                0 (-2) 1%nat 1 (-1) eq_refl eq_refl).
  lia.
Qed.

(** ** Claims on the template features of a pair *)

Lemma list_index_elem (z : Z) (l : list Z) :
  z ∈ l -> exists k, list_index z l = Return k /\ (k < length l)%nat.
Proof.
  induction l as [|y l IH]; simpl.
  - intros H. by apply elem_of_nil in H.
  - intros H. case_decide as Hy.
    + exists 0%nat. split; [done|lia].
    + apply elem_of_cons in H as [->|H]; [done|].
      destruct (IH H) as (k & -> & Hk). exists (Datatypes.S k). split; [done|lia].
Qed.

Lemma py_take_column_returns {A} (a : array2 A) (ids : list Z) (j : Z) :
  wf2 a ->
  Forall (fun i => 0 <= i < Z.of_nat (length (a2_rows a))) ids ->
  0 <= j < Z.of_nat (a2_ncols a) ->
  exists xs, py_take_column a ids j = Return xs /\ length xs = length ids.
Proof.
  intros Hwf Hids Hj. unfold py_take_column, norm_index.
  rewrite decide_True by done. simpl.
  assert (H : exists xs,
             Forall2 (fun i x =>
                        (r ← py_index (a2_rows a) i;
                         match r !! Z.to_nat j with
                         | Some v => Return v
                         | None => Raise IndexError
                         end) = Return x) ids xs).
  { induction Hids as [|i ids Hi _ IH].
    - exists []. constructor.
    - destruct IH as [xs IH].
      destruct (lookup_lt_is_Some_2 (a2_rows a) (Z.to_nat i)) as [r Hr]; [lia|].
      assert (Hlen : length r = a2_ncols a).
      { eapply (Forall_lookup_1 _ _ _ _ Hwf Hr). }
      destruct (lookup_lt_is_Some_2 r (Z.to_nat j)) as [v Hv]; [lia|].
      exists (v :: xs). constructor; [|done].
      rewrite (py_index_at _ i r) by (split; [lia|done]). simpl.
      by rewrite Hv. }
  destruct H as [xs H]. exists xs. split.
  - by apply traverse_Forall2.
  - symmetry. by eapply Forall2_length.
Qed.

Lemma py_take_returns {A} (l : list A) (ids : list Z) :
  Forall (fun i => 0 <= i < Z.of_nat (length l)) ids ->
  exists xs, py_take l ids = Return xs /\ length xs = length ids.
Proof.
  intros Hids.
  assert (H : exists xs, Forall2 (at_index l) ids xs).
  { induction Hids as [|i ids Hi _ [xs IH]].
    - exists []. constructor.
    - destruct (lookup_lt_is_Some_2 l (Z.to_nat i)) as [x Hx]; [lia|].
      exists (x :: xs). constructor; [|done]. split; [lia|done]. }
  destruct H as [xs H]. exists xs. split; [by apply py_take_at|].
  symmetry. by eapply Forall2_length.
Qed.

Section TemplateFeaturesClaims.
Context {F : Type}.
Variable _select_spikes : Z -> option nat -> outcome (list Z).

(** C4.  [get_template_features] returns [None] on fewer than two ids;
    on ids that start with [a] and [b] it returns [None] exactly when [a] is
    not in the similar-template row of [b] or [b] is not in the row of [a];
    otherwise it returns a bundle whose [x] and [y] have the same length and
    whose [spike_ids] has as many entries as the spikes selected for [a]
    plus the spikes selected for [b]. *)
Theorem get_template_features_none_iff (self : controller F)
    (a b : Z) (rest : list Z) (sa sb spa spb : list Z) :
  wf2 (template_features self) ->
  similar_templates self a = Return sa ->
  similar_templates self b = Return sb ->
  length sa = a2_ncols (template_features self) ->
  length sb = a2_ncols (template_features self) ->
  _select_spikes a None = Return spa ->
  _select_spikes b None = Return spb ->
  Forall (valid_spike self) (spa ++ spb) ->
  (forall ids, (length ids < 2)%nat ->
     get_template_features _select_spikes self ids = Return None)
  /\ (get_template_features _select_spikes self (a :: b :: rest) = Return None
      <-> (a ∉ sb \/ b ∉ sa))
  /\ (a ∈ sb -> b ∈ sa ->
      exists d,
        get_template_features _select_spikes self (a :: b :: rest)
          = Return (Some d)
        /\ length (d_x d) = length (d_y d)
        /\ d_spike_ids d = spa ++ spb
        /\ length (d_spike_ids d) = (length spa + length spb)%nat).
Proof.
  intros Hwf Hsa Hsb Hlsa Hlsb Hspa Hspb Hvalid.
  assert (Hsome : a ∈ sb -> b ∈ sa ->
    exists d,
      get_template_features _select_spikes self (a :: b :: rest)
        = Return (Some d)
      /\ length (d_x d) = length (d_y d)
      /\ d_spike_ids d = spa ++ spb
      /\ length (d_spike_ids d) = (length spa + length spb)%nat).
  { intros Hab Hba.
    pose proof (proj1 (Forall_forall _ _) Hvalid) as Hv.
    unfold get_template_features. rewrite decide_False by (simpl; lia).
    rewrite Hsa. simpl. rewrite Hsb. simpl.
    rewrite bool_decide_eq_false_2 by (intros H; by apply H).
    rewrite bool_decide_eq_false_2 by (intros H; by apply H). simpl.
    destruct (list_index_elem b sa Hba) as (sxy & -> & Hsxy). simpl.
    destruct (list_index_elem a sb Hab) as (syx & -> & Hsyx). simpl.
    rewrite Hspa. simpl. rewrite Hspb. simpl.
    assert (Hrows : forall l, l ⊆ spa ++ spb ->
              Forall (fun i => 0 <= i
                         < Z.of_nat (length (a2_rows (template_features self)))) l).
    { intros l Hl. apply Forall_forall. intros i Hi.
      destruct (Hv i (Hl i Hi)) as [? _]. done. }
    assert (Hx : spa ⊆ spa ++ spb) by (intros i Hi; apply elem_of_app; tauto).
    assert (Hy : spb ⊆ spa ++ spb) by (intros i Hi; apply elem_of_app; tauto).
    destruct (py_take_column_returns (template_features self) spa 0 Hwf
                (Hrows _ Hx)) as (x1 & -> & Hx1); [lia|]. simpl.
    destruct (py_take_column_returns (template_features self) spb
                (Z.of_nat syx) Hwf (Hrows _ Hy)) as (x2 & -> & Hx2); [lia|].
    simpl.
    destruct (py_take_column_returns (template_features self) spa
                (Z.of_nat sxy) Hwf (Hrows _ Hx)) as (y1 & -> & Hy1); [lia|].
    simpl.
    destruct (py_take_column_returns (template_features self) spb 0 Hwf
                (Hrows _ Hy)) as (y2 & -> & Hy2); [lia|]. simpl.
    destruct (py_take_returns (spike_clusters self) (spa ++ spb))
      as (clu & -> & _).
    { apply Forall_forall. intros i Hi.
      destruct (Hv i Hi) as [? ?]. lia. }
    simpl. eexists. split; [reflexivity|]. simpl.
    rewrite !length_app. repeat split; lia. }
  split; [|split; [|exact Hsome]].
  - intros ids Hids. unfold get_template_features. by rewrite decide_True.
  - split.
    + intros Hnone.
      destruct (decide (a ∈ sb)) as [Hab|Hab]; [|by left].
      destruct (decide (b ∈ sa)) as [Hba|Hba]; [|by right].
      destruct (Hsome Hab Hba) as (d & Hd & _). congruence.
    + intros Hor. unfold get_template_features.
      rewrite decide_False by (simpl; lia).
      rewrite Hsa. simpl. rewrite Hsb. simpl.
      destruct Hor as [Hab|Hba].
      * by rewrite (bool_decide_eq_true_2 _ Hab).
      * rewrite (bool_decide_eq_true_2 (b ∉ sa) Hba). by rewrite orb_true_r.
Qed.
End TemplateFeaturesClaims.

Lemma get_template_features_none_iff_witness :
  (forall ids, (length ids < 2)%nat ->
     get_template_features Example.select_spikes Example.self ids = Return None)
  /\ (get_template_features Example.select_spikes Example.self [0; 1] = Return None
      <-> (0 ∉ [1; 0] \/ 1 ∉ [0; 1]))
  /\ (0 ∈ [1; 0] -> 1 ∈ [0; 1] ->
      exists d,
        get_template_features Example.select_spikes Example.self [0; 1]
          = Return (Some d)
        /\ length (d_x d) = length (d_y d)
        /\ d_spike_ids d = [0; 2] ++ [1; 3]
        /\ length (d_spike_ids d) = (length [0; 2] + length [1; 3])%nat).
Proof.
  apply (get_template_features_none_iff Example.select_spikes Example.self
           0 1 [] [0; 1] [1; 0] [0; 2] [1; 3]); try reflexivity.
  - repeat constructor.
  - repeat (constructor; [split; simpl; lia|]). constructor.
Defined.

(** ** Scattering sparse features into the dense array *)

Lemma omap_column_lookup {A} (c k j : nat) (p : list (list A)) (r : list A) :
  Forall (fun r => length r = c) p ->
  (k < c)%nat ->
  p !! j = Some r ->
  omap (fun r => r !! k) p !! j = r !! k.
Proof.
  intros Hwf Hk. revert j. induction Hwf as [|r0 p Hr0 _ IH]; intros j Hj.
  - done.
  - destruct (lookup_lt_is_Some_2 r0 k) as [v Hv]; [lia|].
    simpl. rewrite Hv. destruct j as [|j]; simpl in *.
    + by injection Hj as <-.
    + by apply IH.
Qed.

Lemma omap_column_length {A} (c k : nat) (p : list (list A)) :
  Forall (fun r => length r = c) p ->
  (k < c)%nat ->
  length (omap (fun r => r !! k) p) = length p.
Proof.
  intros Hwf Hk. induction Hwf as [|r0 p Hr0 _ IH]; [done|].
  destruct (lookup_lt_is_Some_2 r0 k) as [v Hv]; [lia|].
  simpl. rewrite Hv. simpl. f_equal. exact IH.
Qed.

Lemma transpose_lookup {A} (c k : nat) (p : list (list A)) :
  (k < c)%nat ->
  transpose c p !! k = Some (omap (fun r => r !! k) p).
Proof.
  intros Hk. unfold transpose. rewrite list_lookup_fmap.
  rewrite lookup_seq_lt by done. done.
Qed.

Lemma transpose_shape {A} (c : nat) (p : list (list A)) :
  Forall (fun r => length r = c) p ->
  length (transpose c p) = c
  /\ Forall (fun col => length col = length p) (transpose c p).
Proof.
  intros Hwf. unfold transpose. split.
  - by rewrite length_fmap, length_seq.
  - apply Forall_fmap, Forall_forall. intros k Hk%elem_of_seq. simpl.
    apply omap_column_length with (c := c); [done|lia].
Qed.

Lemma broadcast_block_same {A} (rows cols : nat) (v : list (list A)) :
  length v = rows ->
  Forall (fun r => length r = cols) v ->
  broadcast_block rows cols v = Return v.
Proof.
  intros Hrows Hcols. unfold broadcast_block, broadcast_to.
  rewrite decide_True by done. apply traverse_Forall2.
  clear Hrows. induction Hcols as [|r v Hr _ IH]; constructor; [|done].
  by rewrite decide_True.
Qed.

Lemma norm_index_in_range (nc : nat) (ch : list Z) :
  Forall (fun g => 0 <= g < Z.of_nat nc) ch ->
  traverse (norm_index nc) ch = Return (Z.to_nat <$> ch).
Proof.
  intros H. apply traverse_Forall2.
  induction H as [|g ch Hg _ IH]; simpl; constructor; [|done].
  unfold norm_index. by rewrite decide_True.
Qed.

Lemma assign_channels_length {A} (ch : list nat) (vs block : list (list A)) :
  length (assign_channels ch vs block) = length block.
Proof.
  unfold assign_channels. revert vs block.
  induction ch as [|g ch IH]; intros vs block; [done|].
  destruct vs as [|v vs]; [done|]. simpl.
  rewrite IH. apply length_insert.
Qed.

(** A channel that is not listed keeps its row. *)
Lemma assign_channels_other {A} (ch : list nat) (vs block : list (list A))
    (g : nat) :
  g ∉ ch -> assign_channels ch vs block !! g = block !! g.
Proof.
  unfold assign_channels. revert vs block.
  induction ch as [|g0 ch IH]; intros vs block Hg; [done|].
  destruct vs as [|v vs]; [done|]. simpl.
  apply not_elem_of_cons in Hg as [Hne Hg].
  rewrite IH by done. by apply list_lookup_insert_ne.
Qed.

(** A listed channel holds the slot that lists it last. *)
Lemma assign_channels_last {A} (ch : list nat) (vs block : list (list A))
    (k g : nat) (v : list A) :
  ch !! k = Some g ->
  vs !! k = Some v ->
  (forall k', (k < k')%nat -> ch !! k' <> Some g) ->
  (g < length block)%nat ->
  assign_channels ch vs block !! g = Some v.
Proof.
  unfold assign_channels. revert vs block k.
  induction ch as [|g0 ch IH]; intros vs block k Hk Hv Hlast Hg; [done|].
  destruct vs as [|v0 vs]; [done|]. simpl.
  destruct k as [|k]; simpl in *.
  - injection Hk as ->. injection Hv as ->.
    fold (assign_channels ch vs (<[g := v]> block)).
    rewrite assign_channels_other.
    + by apply list_lookup_insert_eq.
    + intros (k' & Hk')%list_elem_of_lookup.
      apply (Hlast (Datatypes.S k')); [lia|done].
  - apply (IH vs _ k); try done.
    + intros k' Hlt. apply (Hlast (Datatypes.S k')). lia.
    + by rewrite length_insert.
Qed.

Lemma assign_channels_Forall {A} (P : list A -> Prop) (ch : list nat)
    (vs block : list (list A)) :
  Forall P vs -> Forall P block -> Forall P (assign_channels ch vs block).
Proof.
  unfold assign_channels. revert vs block.
  induction ch as [|g ch IH]; intros vs block Hvs Hblock; [done|].
  destruct vs as [|v vs]; [done|]. simpl.
  apply Forall_cons in Hvs as [Hv Hvs].
  apply IH; [done|]. by apply Forall_insert.
Qed.

Lemma outcome_bind_return {A B} (a : A) (k : A -> outcome B) :
  (Return a ≫= k) = k a.
Proof. reflexivity. Qed.

Lemma broadcastable_refl (n : nat) : broadcastable n n = true.
Proof. unfold broadcastable. by rewrite bool_decide_eq_true_2. Qed.

(** ** Claims on the features of a cluster *)

Section FeaturesClaims.
Context {F : Type}.
Variable zero : F.
Variable _select_spikes : Z -> option nat -> outcome (list Z).

(** C2.  [get_features(c)] selects at most 1000 spikes and returns an array
    of shape (selected spikes, [n_channels], [n_features_per_channel]).  For
    each selected spike, a channel that the index of [c] does not list holds
    zeros, and the channel listed at slot [k] holds, at feature [j], the
    sparse value [all_features[spike, j, k]] (when a channel is listed more
    than once, the slot that lists it last). *)
Theorem get_features_dense (self : controller F) (c : Z)
    (spike_ids ch : list Z) (sparse : list (list (list F)))
    (clu : list Z) (masks : mask_item F) :
  (forall c' n ids, _select_spikes c' (Some n) = Return ids ->
     (length ids <= n)%nat) ->
  _select_spikes c (Some 1000%nat) = Return spike_ids ->
  py_column (features_ind self) c = Return ch ->
  length ch = a3_dim2 (all_features self) ->
  a3_dim1 (all_features self) = n_features_per_channel self ->
  wf3 (all_features self) ->
  Forall (fun g => 0 <= g < Z.of_nat (n_channels self)) ch ->
  Forall2 (at_index (a3_planes (all_features self))) spike_ids sparse ->
  py_take (spike_clusters self) spike_ids = Return clu ->
  MaskLoader_getitem (all_masks self) (Many spike_ids) = Return masks ->
  exists b,
    get_features zero _select_spikes self c = Return b
    /\ b_spike_ids b = spike_ids
    /\ (length spike_ids <= 1000)%nat
    /\ shape3 (b_data b)
       = (length spike_ids, n_channels self, n_features_per_channel self)
    /\ wf3 (b_data b)
    /\ forall (s : nat) block p,
         a3_planes (b_data b) !! s = Some block ->
         sparse !! s = Some p ->
         (forall g : nat,
            (g < n_channels self)%nat -> Z.of_nat g ∉ ch ->
            block !! g = Some (replicate (n_features_per_channel self) zero))
         /\ (forall (k : nat) (g : Z) (j : nat) frow v,
               ch !! k = Some g ->
               (forall k', (k < k')%nat -> ch !! k' <> Some g) ->
               p !! j = Some frow ->
               frow !! k = Some v ->
               exists row, block !! Z.to_nat g = Some row /\ row !! j = Some v).
Proof.
  intros Hcap Hsel Hch Hlen Hnf Hwf Hrange Hsparse Hclu Hmasks.
  set (nc := n_channels self). set (nfpc := n_features_per_channel self).
  set (nloc := a3_dim2 (all_features self)).
  set (v := map (transpose nloc) sparse).
  set (chn := Z.to_nat <$> ch).
  set (f0 := replicate (length spike_ids) (replicate nc (replicate nfpc zero))).
  (* the selected planes are planes of [all_features] *)
  assert (Hplanes : forall s p, sparse !! s = Some p ->
            length p = nfpc /\ Forall (fun r => length r = nloc) p).
  { intros s p Hp.
    destruct (Forall2_lookup_r _ _ _ _ _ Hsparse Hp) as (i & _ & _ & Hi).
    unfold nfpc, nloc. rewrite <- Hnf.
    exact (Forall_lookup_1 _ _ _ _ Hwf Hi). }
  assert (Hv : Forall (fun blk => length blk = length ch
                          /\ Forall (fun r => length r = nfpc) blk) v).
  { subst v. apply Forall_fmap, Forall_forall.
    intros p (s & Hp)%list_elem_of_lookup. simpl.
    destruct (Hplanes s p Hp) as [Hp1 Hp2].
    destruct (transpose_shape nloc p Hp2) as [Hl Hc].
    split; [by rewrite Hlen|]. by rewrite <- Hp1. }
  assert (Hrun : get_features zero _select_spikes self c
                 = Return (mkFeatures
                             (Array3 (zip_with (assign_channels chn) v f0) nc nfpc)
                             spike_ids clu masks)).
  { assert (Hb : traverse (broadcast_block (length ch) nfpc) v = Return v).
    { apply traverse_Forall2, Forall_Forall2_diag.
      eapply Forall_impl; [exact Hv|]. intros blk [H1 H2].
      by apply broadcast_block_same. }
    unfold get_features.
    rewrite Hsel, outcome_bind_return. cbv beta zeta.
    rewrite Hch, outcome_bind_return. cbv beta zeta.
    rewrite (py_take_at _ _ _ Hsparse), outcome_bind_return. cbv beta zeta.
    rewrite <- Hlen at 1. rewrite Hnf, !broadcastable_refl.
    cbv beta iota. fold nloc v nfpc nc.
    rewrite Hb, outcome_bind_return. cbv beta.
    rewrite (norm_index_in_range nc ch Hrange), outcome_bind_return. cbv beta.
    rewrite Hclu, outcome_bind_return. cbv beta.
    rewrite Hmasks, outcome_bind_return. done. }
  eexists. split; [exact Hrun|]. simpl.
  assert (Hns : length v = length spike_ids).
  { subst v. rewrite length_map. symmetry. by eapply Forall2_length. }
  split; [done|]. split; [by eapply Hcap|]. split; [|split].
  - unfold shape3. simpl. do 2 f_equal.
    rewrite length_zip_with. subst f0. rewrite length_replicate. lia.
  - unfold wf3. simpl. apply Forall_forall.
    intros block (s & Hs)%list_elem_of_lookup.
    apply lookup_zip_with_Some in Hs as (vblk & blk0 & -> & Hvblk & Hblk0).
    apply lookup_replicate in Hblk0 as [-> _].
    split.
    + rewrite assign_channels_length. apply length_replicate.
    + apply assign_channels_Forall.
      * exact (proj2 (Forall_lookup_1 _ _ _ _ Hv Hvblk)).
      * apply Forall_replicate. apply length_replicate.
  - intros s block p Hs Hp.
    apply lookup_zip_with_Some in Hs as (vblk & blk0 & -> & Hvblk & Hblk0).
    apply lookup_replicate in Hblk0 as [-> _].
    assert (vblk = transpose nloc p) as ->.
    { subst v. rewrite list_lookup_fmap, Hp in Hvblk. by injection Hvblk. }
    destruct (Hplanes s p Hp) as [Hp1 Hp2].
    pose proof (proj1 (Forall_forall _ _) Hrange) as Hr.
    split.
    + intros g Hg Hnot. rewrite assign_channels_other.
      * by apply lookup_replicate_2.
      * subst chn. intros (z & -> & Hz)%list_elem_of_fmap.
        apply Hnot. specialize (Hr z Hz). simpl in Hr.
        by rewrite Z2Nat.id by lia.
    + intros k g j frow x Hk Hlast Hj Hx.
      pose proof (lookup_lt_Some _ _ _ Hk) as Hklt.
      exists (omap (fun r => r !! k) p). split.
      * apply assign_channels_last with (k := k).
        -- subst chn. by rewrite list_lookup_fmap, Hk.
        -- apply transpose_lookup. subst nloc. lia.
        -- intros k' Hlt. subst chn. rewrite list_lookup_fmap.
           destruct (ch !! k') as [z|] eqn:Hz; [|done]. simpl.
           intros [= Heq]. apply (Hlast k' Hlt). rewrite Hz. f_equal.
           assert (z ∈ ch) as Hzin by (apply list_elem_of_lookup; eauto).
           assert (g ∈ ch) as Hgin by (apply list_elem_of_lookup; eauto).
           pose proof (Hr z Hzin) as Hz1. pose proof (Hr g Hgin) as Hg1.
           simpl in Hz1, Hg1. lia.
        -- rewrite length_replicate.
           assert (g ∈ ch) as Hgin by (apply list_elem_of_lookup; eauto).
           specialize (Hr g Hgin). simpl in Hr. subst nc. lia.
      * rewrite (omap_column_lookup nloc k j p frow); [done|done| |done].
        subst nloc. lia.
Qed.
End FeaturesClaims.

Lemma example_select_spikes_cap (c : Z) (n : nat) (ids : list Z) :
  Example.select_spikes c (Some n) = Return ids -> (length ids <= n)%nat.
Proof.
  unfold Example.select_spikes. case_decide; [discriminate|].
  intros [= <-]. rewrite length_take. lia.
Qed.

Lemma get_features_dense_witness :
  exists b,
    get_features 0 Example.select_spikes Example.self 0 = Return b
    /\ b_spike_ids b = [0; 2]
    /\ (length [0; 2] <= 1000)%nat
    /\ shape3 (b_data b) = (length [0; 2], 4%nat, 3%nat)
    /\ wf3 (b_data b)
    /\ forall (s : nat) block p,
         a3_planes (b_data b) !! s = Some block ->
         [[[1; 2]; [3; 4]; [5; 6]]; [[21; 22]; [23; 24]; [25; 26]]] !! s = Some p ->
         (forall g : nat,
            (g < 4)%nat -> Z.of_nat g ∉ [0; 2] ->
            block !! g = Some (replicate 3 0))
         /\ (forall (k : nat) (g : Z) (j : nat) frow v,
               [0; 2] !! k = Some g ->
               (forall k', (k < k')%nat -> [0; 2] !! k' <> Some g) ->
               p !! j = Some frow ->
               frow !! k = Some v ->
               exists row, block !! Z.to_nat g = Some row /\ row !! j = Some v).
Proof.
  apply (get_features_dense 0 Example.select_spikes Example.self 0
           [0; 2] [0; 2]
           [[[1; 2]; [3; 4]; [5; 6]]; [[21; 22]; [23; 24]; [25; 26]]]
           [0; 0] (Rows (Array2 [[1; 0; 2; 0]; [1; 0; 2; 0]] 4)));
    try reflexivity.
  - exact example_select_spikes_cap.
  - repeat constructor.
  - repeat (constructor; [simpl; lia|]). constructor.
  - repeat (constructor; [split; [lia|reflexivity]|]). constructor.
Defined.

(** ** Maxima of finite values *)

Lemma Qmax_cases (x y : Q) : Qmax x y = x \/ Qmax x y = y.
Proof.
  unfold Qmax, GenericMinMax.gmax. destruct (x ?= y)%Q; auto.
Qed.

Lemma foldl_Qmax_spec (x : Q) (l : list Q) :
  (forall v, v ∈ x :: l -> (v <= foldl Qmax x l)%Q) /\ foldl Qmax x l ∈ x :: l.
Proof.
  revert x. induction l as [|y l IH]; intros x; simpl.
  - split; [|apply list_elem_of_here].
    intros v ->%list_elem_of_singleton. apply Qle_refl.
  - destruct (IH (Qmax x y)) as [Hle Hin]. split.
    + intros v Hv.
      assert (Hm : (Qmax x y <= foldl Qmax (Qmax x y) l)%Q)
        by (apply Hle, list_elem_of_here).
      apply elem_of_cons in Hv as [->|Hv].
      * eapply Qle_trans; [apply Q.le_max_l|exact Hm].
      * apply elem_of_cons in Hv as [->|Hv].
        -- eapply Qle_trans; [apply Q.le_max_r|exact Hm].
        -- apply Hle. by apply list_elem_of_further.
    + apply elem_of_cons in Hin as [Heq|Hin].
      * rewrite Heq. destruct (Qmax_cases x y) as [->| ->].
        -- apply list_elem_of_here.
        -- apply list_elem_of_further, list_elem_of_here.
      * by do 2 apply list_elem_of_further.
Qed.

Lemma foldl_max_Fin (x : Q) (l : list Q) :
  foldl Num.max (Num.Fin x) (map Num.Fin l) = Num.Fin (foldl Qmax x l).
Proof. revert x. induction l as [|y l IH]; intros x; simpl; [done|apply IH]. Qed.

Lemma zip_with_max_Fin (a b : list Q) :
  zip_with Num.max (map Num.Fin a) (map Num.Fin b)
  = map Num.Fin (zip_with Qmax a b).
Proof.
  revert b. induction a as [|x a IH]; intros [|y b]; simpl; try done.
  f_equal. apply IH.
Qed.

Lemma foldl_zip_max_Fin (r : list Q) (rest : list (list Q)) :
  foldl (zip_with Num.max) (map Num.Fin r) (map (map Num.Fin) rest)
  = map Num.Fin (foldl (zip_with Qmax) r rest).
Proof.
  revert r. induction rest as [|r' rest IH]; intros r; simpl; [done|].
  rewrite zip_with_max_Fin. apply IH.
Qed.

(** The maximum over the samples, channel by channel. *)
Lemma foldl_zip_Qmax_spec (C c : nat) (r : list Q) (rest : list (list Q)) :
  Forall (fun r' => length r' = C) (r :: rest) ->
  (c < C)%nat ->
  length (foldl (zip_with Qmax) r rest) = C
  /\ exists pc,
       foldl (zip_with Qmax) r rest !! c = Some pc
       /\ (forall v, v ∈ channel_values (r :: rest) c -> (v <= pc)%Q)
       /\ pc ∈ channel_values (r :: rest) c.
Proof.
  intros Hwf Hc. revert r Hwf.
  induction rest as [|r' rest IH]; intros r Hwf.
  - apply Forall_cons in Hwf as [Hr _].
    destruct (lookup_lt_is_Some_2 r c) as [x Hx]; [lia|].
    split; [done|]. exists x. unfold channel_values. simpl. rewrite Hx. simpl.
    split; [done|]. split; [|apply list_elem_of_here].
    intros v ->%list_elem_of_singleton. apply Qle_refl.
  - apply Forall_cons in Hwf as [Hr Hwf].
    pose proof Hwf as Hwf'. apply Forall_cons in Hwf' as [Hr' Hrest].
    destruct (lookup_lt_is_Some_2 r c) as [x Hx]; [lia|].
    destruct (lookup_lt_is_Some_2 r' c) as [y Hy]; [lia|].
    assert (Hz : zip_with Qmax r r' !! c = Some (Qmax x y)).
    { apply lookup_zip_with_Some. eauto. }
    destruct (IH (zip_with Qmax r r')) as (Hlen & pc & Hpc & Hle & Hin).
    { apply Forall_cons. split; [|done]. rewrite length_zip_with. lia. }
    simpl. split; [done|]. exists pc. split; [done|].
    unfold channel_values in *. simpl in *.
    rewrite Hx, Hy. rewrite Hz in Hle, Hin. simpl in *.
    assert (Hm : (Qmax x y <= pc)%Q) by (apply Hle, list_elem_of_here).
    split.
    + intros v Hv. apply elem_of_cons in Hv as [->|Hv].
      * eapply Qle_trans; [apply Q.le_max_l|exact Hm].
      * apply elem_of_cons in Hv as [->|Hv].
        -- eapply Qle_trans; [apply Q.le_max_r|exact Hm].
        -- apply Hle. by apply list_elem_of_further.
    + apply elem_of_cons in Hin as [Heq|Hin].
      * rewrite Heq. destruct (Qmax_cases x y) as [->| ->].
        -- apply list_elem_of_here.
        -- apply list_elem_of_further, list_elem_of_here.
      * by do 2 apply list_elem_of_further.
Qed.

(** ** [get_masks] on finite values *)

Lemma channel_values_elem (template : list (list Q)) (c : nat) (v : Q) :
  v ∈ channel_values template c <-> exists r, r ∈ template /\ r !! c = Some v.
Proof. unfold channel_values. apply list_elem_of_omap. Qed.

Lemma channel_values_abs (template : list (list Q)) (c : nat) :
  channel_values (map (map Qabs) template) c
  = map Qabs (channel_values template c).
Proof.
  unfold channel_values. induction template as [|r template IH]; [done|].
  simpl. rewrite list_lookup_fmap.
  destruct (r !! c); simpl; [f_equal|]; exact IH.
Qed.

(** The peaks of the channels of a template with at least one sample. *)
Lemma finite_channel_peaks_spec (S C : nat) (template : list (list Q)) :
  length template = S ->
  Forall (fun r => length r = C) template ->
  (0 < S)%nat ->
  length (finite_channel_peaks template) = C
  /\ forall c, (c < C)%nat ->
       exists pc, finite_channel_peaks template !! c = Some pc
                  /\ is_peak (channel_values template c) pc.
Proof.
  intros HS Hwf Hpos. unfold finite_channel_peaks.
  destruct template as [|r rest]; [simpl in HS; lia|].
  change (map (map Qabs) (r :: rest))
    with (map Qabs r :: map (map Qabs) rest).
  assert (Hwf' : Forall (fun r' => length r' = C)
                   (map Qabs r :: map (map Qabs) rest)).
  { change (Forall (fun r' => length r' = C) (map (map Qabs) (r :: rest))).
    apply Forall_fmap. eapply Forall_impl; [exact Hwf|].
    intros r' Hr'. simpl. by rewrite length_map. }
  split.
  - destruct C as [|C'].
    + clear -Hwf'. revert Hwf'. generalize (map Qabs r).
      induction (map (map Qabs) rest) as [|r' l IH]; intros r0 H.
      * by apply Forall_cons in H as [? _].
      * simpl. apply Forall_cons in H as [H0 [H1 H2]%Forall_cons]. apply IH.
        apply Forall_cons. split; [|done]. rewrite length_zip_with. lia.
    + apply (foldl_zip_Qmax_spec (Datatypes.S C') 0); [done|lia].
  - intros c Hc.
    destruct (foldl_zip_Qmax_spec C c _ _ Hwf' Hc) as (_ & pc & Hpc & Hle & Hin).
    exists pc. split; [done|].
    change (map Qabs r :: map (map Qabs) rest)
      with (map (map Qabs) (r :: rest)) in Hle, Hin.
    rewrite channel_values_abs in Hle, Hin. split.
    + intros v Hv. apply Hle. apply list_elem_of_fmap. eauto.
    + apply list_elem_of_fmap in Hin as (v & -> & Hv). eauto.
Qed.

Lemma finite_peak_spec (m : list Q) :
  m <> [] ->
  (forall v, v ∈ m -> (v <= finite_peak m)%Q) /\ finite_peak m ∈ m.
Proof.
  destruct m as [|x l]; [done|]. intros _. apply foldl_Qmax_spec.
Qed.

Lemma traverse_map_Return {A B C} (f : B -> outcome C) (g : A -> B)
    (h : A -> C) (l : list A) :
  Forall (fun a => f (g a) = Return (h a)) l ->
  traverse f (map g l) = Return (map h l).
Proof.
  induction 1 as [|a l Ha _ IH]; simpl; [done|].
  rewrite Ha. simpl. rewrite IH. done.
Qed.

Lemma zip_with_map_same {A B C D} (f : B -> C -> D) (g : A -> B) (h : A -> C)
    (l : list A) :
  zip_with f (map g l) (map h l) = map (fun a => f (g a) (h a)) l.
Proof. induction l as [|a l IH]; simpl; [done|]. by rewrite IH. Qed.

Lemma map_const_replicate {A B} (b : B) (l : list A) :
  map (fun _ => b) l = replicate (length l) b.
Proof. induction l as [|a l IH]; simpl; [done|]. by rewrite IH. Qed.

Lemma map_abs_Fin (r : list Q) :
  map Num.abs (map Num.Fin r) = map Num.Fin (map Qabs r).
Proof. induction r as [|q r IH]; simpl; [done|]. by rewrite IH. Qed.

Lemma map_map_abs_Fin (p : list (list Q)) :
  map (map Num.abs) (map (map Num.Fin) p)
  = map (map Num.Fin) (map (map Qabs) p).
Proof.
  induction p as [|r p IH]; simpl; [done|]. by rewrite map_abs_Fin, IH.
Qed.

Lemma max_samples_finite (template : list (list Q)) :
  template <> [] ->
  max_samples (map (map Num.abs) (map (map Num.Fin) template))
  = Return (map Num.Fin (finite_channel_peaks template)).
Proof.
  intros Hne. rewrite map_map_abs_Fin. unfold finite_channel_peaks.
  destruct template as [|r rest]; [done|]. simpl.
  by rewrite foldl_zip_max_Fin.
Qed.

Lemma reduce_max_finite (m : list Q) :
  m <> [] ->
  reduce_max (map Num.Fin m) = Return (Num.Fin (finite_peak m)).
Proof.
  destruct m as [|x l]; [done|]. intros _. simpl.
  by rewrite foldl_max_Fin.
Qed.

(** On finite values with at least one sample and one channel, [get_masks]
    returns, and computes each row as [finite_mask_row]. *)
Lemma get_masks_finite (qs : list (list (list Q))) (S C : nat) :
  Forall (fun t => length t = S /\ Forall (fun r => length r = C) t) qs ->
  (0 < S)%nat ->
  (0 < C)%nat ->
  get_masks (finite_tensor qs S C) = Return (Array2 (map finite_mask_row qs) C).
Proof.
  intros Hwf HS HC. unfold get_masks, finite_tensor. simpl.
  rewrite decide_False by lia.
  rewrite (map_map (map (map Num.Fin)) (map (map Num.abs)) qs).
  rewrite (traverse_map_Return max_samples _
             (fun t => map Num.Fin (finite_channel_peaks t))).
  2:{ eapply Forall_impl; [exact Hwf|]. intros t [Ht _]. simpl.
      apply max_samples_finite. intros ->. simpl in Ht. lia. }
  simpl. rewrite decide_False by lia.
  rewrite (traverse_map_Return reduce_max _
             (fun t => Num.Fin (finite_peak (finite_channel_peaks t)))).
  2:{ eapply Forall_impl; [exact Hwf|]. intros t [Ht Hr]. simpl.
      apply reduce_max_finite. intros Hnil.
      destruct (finite_channel_peaks_spec S C t Ht Hr HS) as [Hlen _].
      rewrite Hnil in Hlen. simpl in Hlen. lia. }
  simpl. rewrite !zip_with_map_same. do 2 f_equal.
  apply Forall_fmap_ext_1. eapply Forall_impl; [exact Hwf|].
  intros t [Ht Hr]. simpl.
  destruct (finite_channel_peaks_spec S C t Ht Hr HS) as [Hlen _].
  unfold finite_mask_row, mask_value.
  destruct (Qeq_bool (finite_peak (finite_channel_peaks t)) 0) eqn:Hz.
  - rewrite map_const_replicate, Hlen. done.
  - rewrite map_map. apply map_ext. intros pc. simpl. by rewrite Hz.
Qed.

Lemma elem_of_concat {A} (x : A) (ls : list (list A)) :
  x ∈ concat ls <-> exists l, l ∈ ls /\ x ∈ l.
Proof.
  rewrite list_elem_of_In, in_concat. split.
  - intros (l & Hl & Hx). exists l. by rewrite !list_elem_of_In.
  - intros (l & Hl & Hx). exists l. by rewrite <- !list_elem_of_In.
Qed.

Lemma mask_value_in_unit (pc peak : Q) :
  (0 <= pc)%Q -> (pc <= peak)%Q -> Num.in_unit (mask_value pc peak).
Proof.
  intros H0 Hle. unfold mask_value.
  destruct (Qeq_bool peak 0) eqn:Hz; simpl.
  - split; [apply Qle_refl|discriminate].
  - apply Qeq_bool_neq in Hz.
    assert (Hpos : (0 < peak)%Q).
    { apply Qle_lteq in Hle as Hle'.
      assert (H0p : (0 <= peak)%Q) by (eapply Qle_trans; eauto).
      apply Qle_lteq in H0p as [Hlt|Heq]; [done|].
      exfalso. apply Hz. by symmetry. }
    split.
    + apply Qle_shift_div_l; [done|]. by rewrite Qmult_0_l.
    + apply Qle_shift_div_r; [done|]. by rewrite Qmult_1_l.
Qed.

(** The row of the mask of one template: the peak of each channel over the
    peak of the template, and zeros when the template peak is zero. *)
Lemma finite_mask_row_spec (S C : nat) (template : list (list Q)) :
  length template = S ->
  Forall (fun r => length r = C) template ->
  (0 < S)%nat ->
  (0 < C)%nat ->
  length (finite_mask_row template) = C
  /\ Forall Num.in_unit (finite_mask_row template)
  /\ exists peak,
       is_peak (concat template) peak
       /\ ((peak == 0)%Q ->
           finite_mask_row template = replicate C (Num.Fin 0))
       /\ forall c, (c < C)%nat ->
            exists pc, is_peak (channel_values template c) pc
                       /\ finite_mask_row template !! c
                          = Some (mask_value pc peak).
Proof.
  intros HS Hwf HSpos HCpos.
  destruct (finite_channel_peaks_spec S C template HS Hwf HSpos) as [Hlen Hch].
  set (m := finite_channel_peaks template) in *.
  assert (Hne : m <> []) by (intros Hnil; rewrite Hnil in Hlen; simpl in Hlen; lia).
  destruct (finite_peak_spec m Hne) as [Hle Hin].
  set (peak := finite_peak m) in *.
  assert (Hrow : finite_mask_row template = map (fun pc => mask_value pc peak) m)
    by reflexivity.
  (* every channel peak is the absolute value of an entry *)
  assert (Hpeaks : forall pc, pc ∈ m ->
            exists c, (c < C)%nat /\ m !! c = Some pc
                      /\ is_peak (channel_values template c) pc).
  { intros pc (c & Hc)%list_elem_of_lookup.
    pose proof (lookup_lt_Some _ _ _ Hc) as Hlt. rewrite Hlen in Hlt.
    destruct (Hch c Hlt) as (pc' & Hpc' & Hpeak).
    assert (pc' = pc) as -> by congruence. eauto. }
  split; [by rewrite Hrow, length_map|]. split; [|exists peak; split; [|split]].
  - rewrite Hrow. apply Forall_fmap, Forall_forall. intros pc Hpc. simpl.
    destruct (Hpeaks pc Hpc) as (c & _ & _ & _ & v & _ & Habs).
    apply mask_value_in_unit; [|by apply Hle].
    rewrite <- Habs. apply Qabs_nonneg.
  - split.
    + intros v (r & Hr & Hv)%elem_of_concat.
      apply list_elem_of_lookup in Hv as [c Hc].
      pose proof (lookup_lt_Some _ _ _ Hc) as Hlt.
      rewrite (proj1 (Forall_forall _ _) Hwf r Hr) in Hlt.
      destruct (Hch c Hlt) as (pc & Hpc & Hub & _).
      eapply Qle_trans.
      * apply Hub. apply channel_values_elem. eauto.
      * apply Hle. apply list_elem_of_lookup. eauto.
    + destruct (Hpeaks peak Hin) as (c & _ & _ & _ & v & Hv & Habs).
      exists v. split; [|done].
      apply channel_values_elem in Hv as (r & Hr & Hrc).
      apply elem_of_concat. exists r. split; [done|].
      apply list_elem_of_lookup. eauto.
  - intros Hz. rewrite Hrow. unfold mask_value.
    rewrite (Qeq_eq_bool _ _ Hz). by rewrite map_const_replicate, Hlen.
  - intros c Hc. destruct (Hch c Hc) as (pc & Hpc & Hpeak).
    exists pc. split; [done|].
    rewrite Hrow, list_lookup_fmap, Hpc. done.
Qed.

(** ** Claims on the masks *)

(** C6.  On a tensor of finite values with at least one sample and one
    channel, [get_masks] returns one row per template and one value per
    channel.  Every value is between 0 and 1; the value of channel [c] is
    the peak absolute value of the channel divided by the peak absolute
    value of the template; and a template whose peak is zero has a row of
    zeros (the division by zero raises nothing, and the NaN it leaves is
    overwritten). *)
Theorem get_masks_unit_interval (qs : list (list (list Q))) (S C : nat) :
  Forall (fun t => length t = S /\ Forall (fun r => length r = C) t) qs ->
  (0 < S)%nat ->
  (0 < C)%nat ->
  exists masks,
    get_masks (finite_tensor qs S C) = Return (Array2 masks C)
    /\ length masks = length qs
    /\ forall (t : nat) template,
         qs !! t = Some template ->
         exists row,
           masks !! t = Some row
           /\ length row = C
           /\ Forall Num.in_unit row
           /\ exists peak,
                is_peak (concat template) peak
                /\ ((peak == 0)%Q -> row = replicate C (Num.Fin 0))
                /\ forall c, (c < C)%nat ->
                     exists pc, is_peak (channel_values template c) pc
                                /\ row !! c = Some (mask_value pc peak).
Proof.
  intros Hwf HS HC. exists (map finite_mask_row qs).
  split; [by apply get_masks_finite|]. split; [apply length_map|].
  intros t template Ht. exists (finite_mask_row template).
  split; [by rewrite list_lookup_fmap, Ht|].
  destruct (Forall_lookup_1 _ _ _ _ Hwf Ht) as [Hlen Hrows].
  exact (finite_mask_row_spec S C template Hlen Hrows HS HC).
Qed.

Lemma get_masks_unit_interval_witness :
  Forall (fun t => length t = 2%nat /\ Forall (fun r => length r = 2%nat) t)
    example_templates
  /\ (0 < 2)%nat
  /\ exists masks,
       get_masks (finite_tensor example_templates 2 2) = Return (Array2 masks 2)
       /\ length masks = length example_templates
       /\ forall (t : nat) template,
            example_templates !! t = Some template ->
            exists row,
              masks !! t = Some row
              /\ length row = 2%nat
              /\ Forall Num.in_unit row
              /\ exists peak,
                   is_peak (concat template) peak
                   /\ ((peak == 0)%Q -> row = replicate 2 (Num.Fin 0))
                   /\ forall c, (c < 2)%nat ->
                        exists pc, is_peak (channel_values template c) pc
                                   /\ row !! c = Some (mask_value pc peak).
Proof.
  assert (Hwf : Forall (fun t => length t = 2%nat
                          /\ Forall (fun r => length r = 2%nat) t)
                  example_templates).
  { repeat (constructor; [split; [reflexivity|repeat constructor]|]).
    constructor. }
  split; [exact Hwf|]. split; [lia|].
  apply (get_masks_unit_interval example_templates 2 2 Hwf); lia.
Defined.

(** The rows that [get_masks] computes for the two templates: the first has
    the channel peaks 1 and 2 and the peak 2; the second is all zero. *)
Example get_masks_example :
  get_masks (finite_tensor example_templates 2 2)
  = Return (Array2 [ [Num.Fin ((1 # 1) / (2 # 1)); Num.Fin ((2 # 1) / (2 # 1))];
                     [Num.Fin 0; Num.Fin 0] ] 2).
Proof. reflexivity. Qed.

(** Outside the finite values the bounds are lost: a NaN entry makes the
    whole row NaN, and a tensor with no sample has no maximum. *)
Example get_masks_nan_entry :
  get_masks (Array3 [[[Num.NaN; Num.Fin 1]]] 1 2)
  = Return (Array2 [[Num.NaN; Num.NaN]] 2).
Proof. reflexivity. Qed.

Example get_masks_no_sample :
  get_masks (Array3 [[]] 0 2) = Raise ValueError.
Proof. reflexivity. Qed.

(** * Further properties *)

(** ** One spike, end to end *)

(** The rows of [pre ++ zip_with f mid xs ++ post] when a list [l] is cut
    at [a] and [b]. *)
Lemma splice_lookup {A B} (f : A -> B -> A) (l : list A) (xs : list B)
    (a b k : nat) :
  (a <= b)%nat -> (b <= length l)%nat -> (k + (b - a) <= length xs)%nat ->
  let out := take a l ++ zip_with f (take (b - a) (drop a l))
                           (take (b - a) (drop k xs)) ++ drop b l in
  length out = length l
  /\ (forall i, (i < a \/ b <= i)%nat -> out !! i = l !! i)
  /\ (forall i x, (a <= i < b)%nat -> l !! i = Some x ->
        exists y, xs !! (k + (i - a))%nat = Some y /\ out !! i = Some (f x y)).
Proof.
  intros Hab Hb Hk out. subst out.
  assert (Hmid : length (zip_with f (take (b - a) (drop a l))
                           (take (b - a) (drop k xs))) = (b - a)%nat).
  { rewrite length_zip_with, !length_take, !length_drop. lia. }
  split; [|split].
  - rewrite !length_app, Hmid, length_take, length_drop. lia.
  - intros i [Hi|Hi].
    + rewrite lookup_app_l by (rewrite length_take; lia).
      by apply lookup_take_lt.
    + rewrite lookup_app_r by (rewrite length_take; lia).
      rewrite lookup_app_r by (rewrite Hmid, length_take; lia).
      rewrite Hmid, length_take, lookup_drop. f_equal. lia.
  - intros i x Hi Hx.
    destruct (lookup_lt_is_Some_2 xs (k + (i - a))) as [y Hy]; [lia|].
    exists y. split; [done|].
    rewrite lookup_app_r by (rewrite length_take; lia).
    rewrite lookup_app_l by (rewrite Hmid, length_take; lia).
    rewrite length_take. replace (a `min` length l)%nat with a by lia.
    apply lookup_zip_with_Some. exists x, y. split; [done|]. split.
    + rewrite lookup_take_lt by lia. rewrite lookup_drop. rewrite <- Hx.
      f_equal. lia.
    + rewrite lookup_take_lt by lia. by rewrite lookup_drop.
Qed.

Section OneSpike.
Context {F : Type}.
Variable fsub fmul : F -> F -> F.
Variable round_int : F -> outcome Z.

(** For one spike whose window fits the buffer, [subtract_templates]
    returns a new buffer with as many rows as the input: the rows outside
    the overlap [a, b) of the window with the buffer are those of the
    input, and row [i] of the overlap is the input row minus the template
    sample [i - (t - 20)] times the amplitude. *)
Theorem subtract_templates_one_spike
    (h : gmap loc (array2 F)) (traces : loc) (tr : array2 F)
    (start s amp rate : F) (p : list (list F)) (t : Z) :
  h !! traces = Some tr ->
  length p = 61%nat ->
  round_int (fmul (fsub s start) rate) = Return t ->
  window_fits (length (a2_rows tr)) t ->
  let n := length (a2_rows tr) in
  let a := Z.to_nat (Z.max 0 (t - 20)) in
  let b := Z.to_nat (Z.min (Z.of_nat n) (t + 41)) in
  exists l' out,
    subtract_templates fsub fmul round_int traces start [s] [amp]
      (Array3 [p] 61 (a2_ncols tr)) rate h
    = (Return l', <[l' := out]> h)
    /\ h !! l' = None
    /\ length (a2_rows out) = n
    /\ (forall i, (i < a \/ b <= i)%nat -> a2_rows out !! i = a2_rows tr !! i)
    /\ (forall i row, (a <= i < b)%nat -> a2_rows tr !! i = Some row ->
          exists xrow,
            p !! Z.to_nat (Z.of_nat i - (t - 20)) = Some xrow
            /\ a2_rows out !! i
               = Some (sub_row fsub row (map (fun v => fmul v amp) xrow))).
Proof.
  intros Htr Hp Ht Hfit n a b.
  destruct Hfit as (Hboth & Hsb & Hsa).
  set (l' := fresh (dom h)).
  assert (Hfresh : h !! l' = None) by apply not_elem_of_dom, is_fresh.
  set (x := Array2 (scale_plane fmul amp p) (a2_ncols tr)).
  assert (Hx : length (a2_rows x) = 61%nat).
  { subst x. simpl. unfold scale_plane. by rewrite length_map. }
  pose proof (subtract_window_clipped fsub t x tr Hx eq_refl Hboth Hsb Hsa)
    as Hwin.
  fold n a b in Hwin.
  set (k := Z.to_nat (Z.of_nat a - (t - 20))) in Hwin.
  set (rows := take a (a2_rows tr)
               ++ zip_with (sub_row fsub) (take (b - a) (drop a (a2_rows tr)))
                    (take (b - a) (drop k (a2_rows x)))
               ++ drop b (a2_rows tr)) in Hwin.
  exists l', (Array2 rows (a2_ncols tr)).
  destruct (splice_lookup (sub_row fsub) (a2_rows tr) (a2_rows x) a b k)
    as (Hlen & Hout & Hin); [lia|lia|lia|].
  fold rows in Hlen, Hout, Hin.
  split; [|split; [done|split; [done|split; [done|]]]].
  - unfold subtract_templates. fold l'.
    rewrite run_bind. unfold load at 1. rewrite Htr.
    rewrite run_bind. unfold alloc at 1. fold l'.
    rewrite run_bind. unfold lift at 1, mul_amplitudes. simpl.
    rewrite !run_bind.
    unfold load at 1. rewrite lookup_insert_eq.
    cbv beta iota. rewrite run_bind. unfold lift at 1.
    unfold subtract_spike. simpl. rewrite Ht. simpl. unfold plane. simpl.
    fold x. fold n. rewrite Hwin. unfold write at 1. cbv beta iota. simpl.
    unfold mret, M_ret. f_equal. apply insert_insert_eq.
  - intros i row Hi Hrow.
    destruct (Hin i row Hi Hrow) as (y & Hy & Hout').
    subst x. simpl in Hy. unfold scale_plane in Hy.
    rewrite list_lookup_fmap in Hy.
    replace (k + (i - a))%nat with (Z.to_nat (Z.of_nat i - (t - 20))) in Hy
      by lia.
    destruct (p !! Z.to_nat (Z.of_nat i - (t - 20))) as [xrow|]; [|done].
    injection Hy as <-. exists xrow. split; [done|]. exact Hout'.
Qed.
End OneSpike.

Lemma subtract_templates_one_spike_witness :
  let h := IntBuffers.one_buffer 100 in
  let p := a2_rows (IntBuffers.ones 61 1) in
  h !! 1%positive = Some (IntBuffers.zeros 100 1)
  /\ window_fits 100 5
  /\ exists l' out,
       subtract_templates Z.sub Z.mul (fun v => Return v) 1%positive 0 [5] [2]
         (Array3 [p] 61 1) 1 h
       = (Return l', <[l' := out]> h)
       /\ h !! l' = None
       /\ length (a2_rows out) = 100%nat
       /\ (forall i, (i < 0 \/ 46 <= i)%nat ->
             a2_rows out !! i = a2_rows (IntBuffers.zeros 100 1) !! i)
       /\ (forall i row, (0 <= i < 46)%nat ->
             a2_rows (IntBuffers.zeros 100 1) !! i = Some row ->
             exists xrow,
               p !! Z.to_nat (Z.of_nat i - (5 - 20)) = Some xrow
               /\ a2_rows out !! i
                  = Some (sub_row Z.sub row (map (fun v => v * 2) xrow))).
Proof.
  intros h p.
  assert (Hfit : window_fits 100 5) by (unfold window_fits; lia).
  split; [reflexivity|]. split; [exact Hfit|].
  exact (subtract_templates_one_spike Z.sub Z.mul (fun v => Return v)
           h 1%positive (IntBuffers.zeros 100 1) 0 5 2 1 p 5
           eq_refl eq_refl eq_refl Hfit).
Defined.

(** ** Spikes outside the buffer and mismatched inputs *)

Section SubtractEdges.
Context {F : Type}.
Variable fsub fmul : F -> F -> F.
Variable round_int : F -> outcome Z.

(** A run of [subtract_templates] on one spike is the copy followed by the
    clipped subtraction of its scaled template. *)
Lemma subtract_templates_single_run
    (h : gmap loc (array2 F)) (traces : loc) (tr : array2 F)
    (start s amp rate : F) (p : list (list F)) (d1 d2 : nat) (t : Z) :
  h !! traces = Some tr ->
  round_int (fmul (fsub s start) rate) = Return t ->
  subtract_templates fsub fmul round_int traces start [s] [amp]
    (Array3 [p] d1 d2) rate h
  = match subtract_window fsub (length (a2_rows tr)) t
            (Array2 (scale_plane fmul amp p) d2) tr with
    | Return out => (Return (fresh (dom h)), <[fresh (dom h) := out]> h)
    | Raise e => (Raise e, <[fresh (dom h) := tr]> h)
    end.
Proof.
  intros Htr Ht. unfold subtract_templates. set (l' := fresh (dom h)).
  rewrite run_bind. unfold load at 1. rewrite Htr.
  rewrite run_bind. unfold alloc at 1. fold l'.
  rewrite run_bind. unfold lift at 1, mul_amplitudes. simpl.
  rewrite !run_bind.
  unfold load at 1. rewrite lookup_insert_eq.
  cbv beta iota. rewrite run_bind. unfold lift at 1.
  unfold subtract_spike. simpl. rewrite Ht. simpl. unfold plane. simpl.
  destruct (subtract_window _ _ _ _ _) as [out|e]; [|done].
  unfold write at 1. cbv beta iota. simpl.
  unfold mret, M_ret. f_equal. apply insert_insert_eq.
Qed.

(** A spike whose window starts at or after the end of the buffer is
    ignored: the call returns a copy that holds the values of the input. *)
Theorem subtract_templates_spike_after_end
    (h : gmap loc (array2 F)) (traces : loc) (tr : array2 F)
    (start s amp rate : F) (p : list (list F)) (t : Z) :
  h !! traces = Some tr ->
  length p = 61%nat ->
  round_int (fmul (fsub s start) rate) = Return t ->
  Z.of_nat (length (a2_rows tr)) <= t - 20 ->
  subtract_templates fsub fmul round_int traces start [s] [amp]
    (Array3 [p] 61 (a2_ncols tr)) rate h
  = (Return (fresh (dom h)), <[fresh (dom h) := tr]> h).
Proof.
  intros Htr Hp Ht Hafter.
  rewrite (subtract_templates_single_run h traces tr start s amp rate p
             61 (a2_ncols tr) t Htr Ht).
  set (n := length (a2_rows tr)) in *.
  unfold subtract_window, clip_window.
  rewrite decide_False by lia. rewrite decide_True by lia.
  unfold isub_rows, slice_bounds, slice_rows. simpl. fold n.
  rewrite broadcastable_refl.
  replace (clip_bound n (t - 20)) with n
    by (unfold clip_bound; repeat case_decide; lia).
  rewrite (clip_bound_in_range n (Z.of_nat n)) by lia.
  rewrite Nat2Z.id, Nat.sub_diag.
  replace (- (t + 41 - Z.of_nat n))
    with (- Z.of_nat (Z.to_nat (t + 41 - Z.of_nat n))) by lia.
  rewrite py_slice_drop_last by lia.
  unfold scale_plane at 1. rewrite length_map, Hp.
  replace (61 - Z.to_nat (t + 41 - Z.of_nat n))%nat with 0%nat by lia.
  simpl. rewrite Nat.add_0_r, take_drop. by destruct tr.
Qed.

(** A spike whose window ends before the start of the buffer, by fewer
    samples than the buffer has, makes the call raise: the negative stop of
    the slice counts from the end of the buffer, and the emptied template
    does not fit the rows it selects.  The input is left as it is. *)
Theorem subtract_templates_spike_before_start
    (h : gmap loc (array2 F)) (traces : loc) (tr : array2 F)
    (start s amp rate : F) (p : list (list F)) (d2 : nat) (t : Z) :
  h !! traces = Some tr ->
  length p = 61%nat ->
  round_int (fmul (fsub s start) rate) = Return t ->
  t + 41 < 0 ->
  0 < Z.of_nat (length (a2_rows tr)) + (t + 41) ->
  subtract_templates fsub fmul round_int traces start [s] [amp]
    (Array3 [p] 61 d2) rate h
  = (Raise ValueError, <[fresh (dom h) := tr]> h).
Proof.
  intros Htr Hp Ht Hneg Hwrap.
  rewrite (subtract_templates_single_run h traces tr start s amp rate p
             61 d2 t Htr Ht).
  set (n := length (a2_rows tr)) in *.
  unfold subtract_window, clip_window. rewrite decide_True by lia.
  unfold isub_rows, slice_bounds, slice_rows. simpl. fold n.
  destruct (broadcastable _ _); [|done].
  rewrite (clip_bound_in_range n 0) by lia.
  replace (clip_bound n (t + 41)) with (Z.to_nat (Z.of_nat n + (t + 41)))
    by (unfold clip_bound; repeat case_decide; lia).
  replace (- (t - 20)) with (Z.of_nat (Z.to_nat (20 - t))) by lia.
  rewrite py_slice_from.
  rewrite broadcast_to_none; [done| |];
    unfold scale_plane; rewrite length_drop, length_map, Hp; lia.
Qed.

(** When the number of amplitudes and the number of templates differ and
    neither is one, the call raises [ValueError] after the copy is made;
    the input is left as it is. *)
Theorem subtract_templates_amplitude_mismatch
    (h : gmap loc (array2 F)) (traces : loc) (tr : array2 F)
    (start rate : F) (spike_times amplitudes : list F)
    (spike_templates : array3 F) :
  h !! traces = Some tr ->
  length (a3_planes spike_templates) <> length amplitudes ->
  length (a3_planes spike_templates) <> 1%nat ->
  length amplitudes <> 1%nat ->
  subtract_templates fsub fmul round_int traces start spike_times amplitudes
    spike_templates rate h
  = (Raise ValueError, <[fresh (dom h) := tr]> h).
Proof.
  intros Htr Hne Hp Ha. unfold subtract_templates.
  rewrite run_bind. unfold load at 1. rewrite Htr.
  rewrite run_bind. unfold alloc at 1.
  rewrite run_bind. unfold lift at 1, mul_amplitudes.
  rewrite decide_False by done.
  destruct (a3_planes spike_templates) as [|p0 [|p1 ps]];
    destruct amplitudes as [|a0 [|a1 amps]]; simpl in *; done.
Qed.
End SubtractEdges.

Lemma subtract_templates_spike_after_end_witness :
  let h := IntBuffers.one_buffer 10 in
  h !! 1%positive = Some (IntBuffers.zeros 10 1)
  /\ Z.of_nat (length (a2_rows (IntBuffers.zeros 10 1))) <= 40 - 20
  /\ subtract_templates Z.sub Z.mul (fun v => Return v) 1%positive 0 [40] [2]
       (Array3 [a2_rows (IntBuffers.ones 61 1)] 61 1) 1 h
     = (Return (fresh (dom h)), <[fresh (dom h) := IntBuffers.zeros 10 1]> h).
Proof.
  intros h. split; [reflexivity|]. split; [simpl; lia|].
  apply (subtract_templates_spike_after_end Z.sub Z.mul (fun v => Return v)
           h 1%positive (IntBuffers.zeros 10 1) 0 40 2 1
           (a2_rows (IntBuffers.ones 61 1)) 40); try reflexivity.
  simpl. lia.
Defined.

Lemma subtract_templates_spike_before_start_witness :
  let h := IntBuffers.one_buffer 100 in
  h !! 1%positive = Some (IntBuffers.zeros 100 1)
  /\ -45 + 41 < 0
  /\ 0 < Z.of_nat (length (a2_rows (IntBuffers.zeros 100 1))) + (-45 + 41)
  /\ subtract_templates Z.sub Z.mul (fun v => Return v) 1%positive 0 [-45] [2]
       (Array3 [a2_rows (IntBuffers.ones 61 1)] 61 1) 1 h
     = (Raise ValueError, <[fresh (dom h) := IntBuffers.zeros 100 1]> h).
Proof.
  intros h. split; [reflexivity|]. split; [lia|]. split; [simpl; lia|].
  apply (subtract_templates_spike_before_start Z.sub Z.mul (fun v => Return v)
           h 1%positive (IntBuffers.zeros 100 1) 0 (-45) 2 1
           (a2_rows (IntBuffers.ones 61 1)) 1 (-45)); try reflexivity.
Defined.

Lemma subtract_templates_amplitude_mismatch_witness :
  let h := IntBuffers.one_buffer 100 in
  let tpl := Array3 (replicate 2 (a2_rows (IntBuffers.ones 61 1))) 61 1 in
  h !! 1%positive = Some (IntBuffers.zeros 100 1)
  /\ length (a3_planes tpl) <> length [1; 2; 3]
  /\ subtract_templates Z.sub Z.mul (fun v => Return v) 1%positive 0
       [5; 6; 7] [1; 2; 3] tpl 1 h
     = (Raise ValueError, <[fresh (dom h) := IntBuffers.zeros 100 1]> h).
Proof.
  intros h tpl. split; [reflexivity|]. split; [simpl; lia|].
  apply (subtract_templates_amplitude_mismatch Z.sub Z.mul (fun v => Return v)
           h 1%positive (IntBuffers.zeros 100 1) 0 1 [5; 6; 7] [1; 2; 3] tpl);
    [reflexivity|simpl; lia|simpl; lia|simpl; lia].
Defined.

(** ** Amplitudes of a cluster *)

Lemma py_take_lookup {A} (l : list A) (ids : list Z) (xs : list A) :
  Forall (fun i => 0 <= i < Z.of_nat (length l)) ids ->
  py_take l ids = Return xs ->
  length xs = length ids
  /\ forall (k : nat) i, ids !! k = Some i -> xs !! k = l !! Z.to_nat i.
Proof.
  intros Hids Hxs. apply traverse_Forall2 in Hxs. split.
  - symmetry. by eapply Forall2_length.
  - intros k i Hk.
    destruct (Forall2_lookup_l _ _ _ _ _ Hxs Hk) as (x & Hx & Hix).
    pose proof (Forall_lookup_1 _ _ _ _ Hids Hk) as Hi. simpl in Hi.
    destruct (lookup_lt_is_Some_2 l (Z.to_nat i)) as [x' Hx']; [lia|].
    rewrite (py_index_at l i x') in Hix by (split; [lia|done]).
    injection Hix as <-. by rewrite Hx, Hx'.
Qed.

Lemma py_index_raise {A} (l : list A) (i : Z) (e : exn) :
  py_index l i = Raise e -> e = IndexError.
Proof.
  unfold py_index. destruct (norm_index (length l) i) as [k|e'] eqn:Hk; simpl.
  - destruct (l !! k); congruence.
  - unfold norm_index in Hk. repeat case_decide; congruence.
Qed.

Section AmplitudesFacts.
Context {F : Type}.
Variable _select_spikes : Z -> option nat -> outcome (list Z).

(** [get_amplitudes(c)] selects at most 10000 spikes and returns four
    aligned arrays: entry [k] holds the id of the [k]-th selected spike, its
    time, its amplitude, and the cluster id [c] that was asked for. *)
Theorem get_amplitudes_aligned (spike_times all_amplitudes : list F)
    (c : Z) (spike_ids : list Z) :
  (forall c' n ids, _select_spikes c' (Some n) = Return ids ->
     (length ids <= n)%nat) ->
  _select_spikes c (Some 10000%nat) = Return spike_ids ->
  Forall (fun i => 0 <= i < Z.of_nat (length spike_times)) spike_ids ->
  Forall (fun i => 0 <= i < Z.of_nat (length all_amplitudes)) spike_ids ->
  exists d,
    get_amplitudes _select_spikes spike_times all_amplitudes c = Return d
    /\ a_spike_ids d = spike_ids
    /\ (length spike_ids <= 10000)%nat
    /\ length (a_x d) = length spike_ids
    /\ length (a_y d) = length spike_ids
    /\ length (a_spike_clusters d) = length spike_ids
    /\ forall (k : nat) i,
         spike_ids !! k = Some i ->
         a_x d !! k = spike_times !! Z.to_nat i
         /\ a_y d !! k = all_amplitudes !! Z.to_nat i
         /\ a_spike_clusters d !! k = Some c.
Proof.
  intros Hcap Hsel Ht Ha.
  destruct (py_take_returns spike_times spike_ids Ht) as (x & Hx & _).
  destruct (py_take_returns all_amplitudes spike_ids Ha) as (y & Hy & _).
  destruct (py_take_lookup _ _ _ Ht Hx) as [Hlx Hxk].
  destruct (py_take_lookup _ _ _ Ha Hy) as [Hly Hyk].
  exists (mkAmplitudes spike_ids (replicate (length spike_ids) c) x y).
  split.
  { unfold get_amplitudes. rewrite Hsel, outcome_bind_return. cbv beta zeta.
    rewrite Hx, outcome_bind_return. cbv beta.
    rewrite Hy, outcome_bind_return. done. }
  simpl. split; [done|]. split; [by eapply Hcap|].
  split; [done|]. split; [done|]. split; [apply length_replicate|].
  intros k i Hk. split; [by apply Hxk|]. split; [by apply Hyk|].
  apply lookup_replicate_2. by eapply lookup_lt_Some.
Qed.

(** A spike id outside the spike times makes [get_amplitudes] raise
    [IndexError]. *)
Theorem get_amplitudes_bad_spike (spike_times all_amplitudes : list F)
    (c : Z) (spike_ids : list Z) (i : Z) :
  _select_spikes c (Some 10000%nat) = Return spike_ids ->
  i ∈ spike_ids ->
  (i < - Z.of_nat (length spike_times) \/ Z.of_nat (length spike_times) <= i) ->
  get_amplitudes _select_spikes spike_times all_amplitudes c = Raise IndexError.
Proof.
  intros Hsel Hi Hout.
  unfold get_amplitudes. rewrite Hsel, outcome_bind_return. cbv beta zeta.
  assert (Hx : py_take spike_times spike_ids = Raise IndexError).
  { unfold py_take. clear Hsel.
    induction spike_ids as [|j ids IH]; [by apply elem_of_nil in Hi|].
    simpl. destruct (py_index spike_times j) as [x|e] eqn:Hj.
    - simpl. apply elem_of_cons in Hi as [->|Hi].
      + exfalso. unfold py_index, norm_index in Hj.
        rewrite decide_False in Hj by lia.
        rewrite decide_False in Hj by lia. discriminate.
      + by rewrite (IH Hi).
    - simpl. f_equal. by apply py_index_raise in Hj. }
  by rewrite Hx.
Qed.
End AmplitudesFacts.

Lemma get_amplitudes_aligned_witness :
  exists d,
    get_amplitudes Example.select_spikes [10; 20; 30; 40] [5; 6; 7; 8] 1
      = Return d
    /\ a_spike_ids d = [1; 3]
    /\ (length [1; 3] <= 10000)%nat
    /\ length (a_x d) = length [1; 3]
    /\ length (a_y d) = length [1; 3]
    /\ length (a_spike_clusters d) = length [1; 3]
    /\ forall (k : nat) i,
         [1; 3] !! k = Some i ->
         a_x d !! k = [10; 20; 30; 40] !! Z.to_nat i
         /\ a_y d !! k = [5; 6; 7; 8] !! Z.to_nat i
         /\ a_spike_clusters d !! k = Some 1.
Proof.
  apply (get_amplitudes_aligned Example.select_spikes [10; 20; 30; 40]
           [5; 6; 7; 8] 1 [1; 3]).
  - exact example_select_spikes_cap.
  - reflexivity.
  - repeat (constructor; [simpl; lia|]). constructor.
  - repeat (constructor; [simpl; lia|]). constructor.
Defined.

Lemma get_amplitudes_bad_spike_witness :
  Example.select_spikes 1 (Some 10000%nat) = Return [1; 3]
  /\ 3 ∈ [1; 3]
  /\ get_amplitudes Example.select_spikes [10; 20; 30] [5; 6; 7; 8] 1
     = Raise IndexError.
Proof.
  split; [reflexivity|]. split; [set_solver|].
  apply (get_amplitudes_bad_spike Example.select_spikes [10; 20; 30]
           [5; 6; 7; 8] 1 [1; 3] 3); [reflexivity|set_solver|simpl; lia].
Defined.

(** ** The values of the template features of a pair *)

Lemma list_index_spec (z : Z) (l : list Z) (k : nat) :
  list_index z l = Return k ->
  l !! k = Some z /\ forall k', (k' < k)%nat -> l !! k' <> Some z.
Proof.
  revert k. induction l as [|y l IH]; intros k; simpl; [discriminate|].
  case_decide as Hy.
  - intros [= <-]. split; [by rewrite Hy|]. intros k' Hk'. lia.
  - destruct (list_index z l) as [k0|] eqn:Hk0; simpl; [|discriminate].
    intros [= <-]. destruct (IH k0 eq_refl) as [Hz Hfirst].
    split; [done|]. intros [|k'] Hk'; simpl.
    + congruence.
    + apply Hfirst. lia.
Qed.

Lemma py_take_column_lookup {A} (a : array2 A) (ids : list Z) (j : nat)
    (xs : list A) :
  wf2 a ->
  Forall (fun i => 0 <= i < Z.of_nat (length (a2_rows a))) ids ->
  (j < a2_ncols a)%nat ->
  py_take_column a ids (Z.of_nat j) = Return xs ->
  forall (k : nat) i, ids !! k = Some i ->
    exists row, a2_rows a !! Z.to_nat i = Some row /\ xs !! k = row !! j.
Proof.
  intros Hwf Hids Hj Hxs k i Hk.
  unfold py_take_column, norm_index in Hxs.
  rewrite decide_True in Hxs by lia. simpl in Hxs. rewrite Nat2Z.id in Hxs.
  apply traverse_Forall2 in Hxs.
  destruct (Forall2_lookup_l _ _ _ _ _ Hxs Hk) as (x & Hx & Hix).
  pose proof (Forall_lookup_1 _ _ _ _ Hids Hk) as Hi. simpl in Hi.
  destruct (lookup_lt_is_Some_2 (a2_rows a) (Z.to_nat i)) as [row Hrow]; [lia|].
  exists row. split; [done|].
  rewrite (py_index_at _ i row) in Hix by (split; [lia|done]). simpl in Hix.
  rewrite Hx. destruct (row !! j); congruence.
Qed.

Section TemplateFeaturesFacts.
Context {F : Type}.
Variable _select_spikes : Z -> option nat -> outcome (list Z).

(** The run of [get_template_features] on two valid ids. *)
Lemma get_template_features_run (self : controller F)
    (a b : Z) (rest : list Z) (sa sb spa spb : list Z) :
  wf2 (template_features self) ->
  similar_templates self a = Return sa ->
  similar_templates self b = Return sb ->
  length sa = a2_ncols (template_features self) ->
  length sb = a2_ncols (template_features self) ->
  _select_spikes a None = Return spa ->
  _select_spikes b None = Return spb ->
  Forall (valid_spike self) (spa ++ spb) ->
  ((a ∉ sb \/ b ∉ sa) ->
   get_template_features _select_spikes self (a :: b :: rest) = Return None)
  /\ (a ∈ sb -> b ∈ sa ->
      exists sxy syx x1 x2 y1 y2 clu,
        list_index b sa = Return sxy
        /\ list_index a sb = Return syx
        /\ py_take_column (template_features self) spa 0 = Return x1
        /\ py_take_column (template_features self) spb (Z.of_nat syx) = Return x2
        /\ py_take_column (template_features self) spa (Z.of_nat sxy) = Return y1
        /\ py_take_column (template_features self) spb 0 = Return y2
        /\ py_take (spike_clusters self) (spa ++ spb) = Return clu
        /\ get_template_features _select_spikes self (a :: b :: rest)
           = Return (Some (mkTemplateFeatures (x1 ++ x2) (y1 ++ y2)
                             (spa ++ spb) clu))).
Proof.
  intros Hwf Hsa Hsb Hlsa Hlsb Hspa Hspb Hvalid. split.
  - intros Hor. unfold get_template_features.
    rewrite decide_False by (simpl; lia).
    rewrite Hsa. simpl. rewrite Hsb. simpl.
    destruct Hor as [Hab|Hba].
    + by rewrite (bool_decide_eq_true_2 _ Hab).
    + rewrite (bool_decide_eq_true_2 (b ∉ sa) Hba). by rewrite orb_true_r.
  - intros Hab Hba.
    pose proof (proj1 (Forall_forall _ _) Hvalid) as Hv.
    destruct (list_index_elem b sa Hba) as (sxy & Hsxy & Hlxy).
    destruct (list_index_elem a sb Hab) as (syx & Hsyx & Hlyx).
    assert (Hrows : forall l, l ⊆ spa ++ spb ->
              Forall (fun i => 0 <= i
                         < Z.of_nat (length (a2_rows (template_features self)))) l).
    { intros l Hl. apply Forall_forall. intros i Hi.
      destruct (Hv i (Hl i Hi)) as [? _]. done. }
    assert (Hx : spa ⊆ spa ++ spb) by (intros i Hi; apply elem_of_app; tauto).
    assert (Hy : spb ⊆ spa ++ spb) by (intros i Hi; apply elem_of_app; tauto).
    destruct (py_take_column_returns (template_features self) spa 0 Hwf
                (Hrows _ Hx)) as (x1 & Hx1 & _); [lia|].
    destruct (py_take_column_returns (template_features self) spb
                (Z.of_nat syx) Hwf (Hrows _ Hy)) as (x2 & Hx2 & _); [lia|].
    destruct (py_take_column_returns (template_features self) spa
                (Z.of_nat sxy) Hwf (Hrows _ Hx)) as (y1 & Hy1 & _); [lia|].
    destruct (py_take_column_returns (template_features self) spb 0 Hwf
                (Hrows _ Hy)) as (y2 & Hy2 & _); [lia|].
    destruct (py_take_returns (spike_clusters self) (spa ++ spb))
      as (clu & Hclu & _).
    { apply Forall_forall. intros i Hi. destruct (Hv i Hi) as [? ?]. lia. }
    exists sxy, syx, x1, x2, y1, y2, clu. repeat (split; [done|]).
    unfold get_template_features. rewrite decide_False by (simpl; lia).
    rewrite Hsa. simpl. rewrite Hsb. simpl.
    rewrite bool_decide_eq_false_2 by (intros H; by apply H).
    rewrite bool_decide_eq_false_2 by (intros H; by apply H). simpl.
    rewrite Hsxy. simpl. rewrite Hsyx. simpl.
    rewrite Hspa. simpl. rewrite Hspb. simpl.
    rewrite Hx1. simpl. rewrite Hx2. simpl. rewrite Hy1. simpl.
    rewrite Hy2. simpl. rewrite Hclu. done.
Qed.

(** For mutually similar [a] and [b], the bundle pairs, for a spike of [a],
    its feature at slot 0 (in [x]) with its feature at the first slot where
    the row of [a] lists [b] (in [y]); for a spike of [b], its feature at
    the first slot where the row of [b] lists [a] (in [x]) with its feature
    at slot 0 (in [y]).  The spikes of [a] come first, and entry [k] of
    [spike_clusters] is the cluster of spike [k]. *)
Theorem get_template_features_values (self : controller F)
    (a b : Z) (rest : list Z) (sa sb spa spb : list Z) :
  wf2 (template_features self) ->
  similar_templates self a = Return sa ->
  similar_templates self b = Return sb ->
  length sa = a2_ncols (template_features self) ->
  length sb = a2_ncols (template_features self) ->
  _select_spikes a None = Return spa ->
  _select_spikes b None = Return spb ->
  Forall (valid_spike self) (spa ++ spb) ->
  a ∈ sb ->
  b ∈ sa ->
  exists d (sxy syx : nat),
    get_template_features _select_spikes self (a :: b :: rest) = Return (Some d)
    /\ sa !! sxy = Some b /\ (forall k', (k' < sxy)%nat -> sa !! k' <> Some b)
    /\ sb !! syx = Some a /\ (forall k', (k' < syx)%nat -> sb !! k' <> Some a)
    /\ (forall (k : nat) i, spa !! k = Some i ->
          exists row,
            a2_rows (template_features self) !! Z.to_nat i = Some row
            /\ d_x d !! k = row !! 0%nat
            /\ d_y d !! k = row !! sxy)
    /\ (forall (k : nat) i, spb !! k = Some i ->
          exists row,
            a2_rows (template_features self) !! Z.to_nat i = Some row
            /\ d_x d !! (length spa + k)%nat = row !! syx
            /\ d_y d !! (length spa + k)%nat = row !! 0%nat)
    /\ (forall (k : nat) i, (spa ++ spb) !! k = Some i ->
          d_spike_clusters d !! k = spike_clusters self !! Z.to_nat i).
Proof.
  intros Hwf Hsa Hsb Hlsa Hlsb Hspa Hspb Hvalid Hab Hba.
  destruct (get_template_features_run self a b rest sa sb spa spb
              Hwf Hsa Hsb Hlsa Hlsb Hspa Hspb Hvalid) as [_ Hrun].
  destruct (Hrun Hab Hba)
    as (sxy & syx & x1 & x2 & y1 & y2 & clu & Hsxy & Hsyx
        & Hx1 & Hx2 & Hy1 & Hy2 & Hclu & Hd).
  destruct (list_index_spec _ _ _ Hsxy) as [Hxy1 Hxy2].
  destruct (list_index_spec _ _ _ Hsyx) as [Hyx1 Hyx2].
  pose proof (lookup_lt_Some _ _ _ Hxy1) as Hltxy.
  pose proof (lookup_lt_Some _ _ _ Hyx1) as Hltyx.
  pose proof (proj1 (Forall_forall _ _) Hvalid) as Hv.
  assert (Hra : Forall (fun i => 0 <= i
                  < Z.of_nat (length (a2_rows (template_features self)))) spa).
  { apply Forall_forall. intros i Hi.
    destruct (Hv i) as [? _]; [apply elem_of_app; tauto|done]. }
  assert (Hrb : Forall (fun i => 0 <= i
                  < Z.of_nat (length (a2_rows (template_features self)))) spb).
  { apply Forall_forall. intros i Hi.
    destruct (Hv i) as [? _]; [apply elem_of_app; tauto|done]. }
  assert (Hlx1 : length x1 = length spa).
  { unfold py_take_column in Hx1.
    destruct (norm_index _ _); simpl in Hx1; [|discriminate].
    by apply traverse_length in Hx1. }
  assert (Hly1 : length y1 = length spa).
  { unfold py_take_column in Hy1.
    destruct (norm_index _ _); simpl in Hy1; [|discriminate].
    by apply traverse_length in Hy1. }
  eexists _, sxy, syx. split; [exact Hd|]. simpl.
  repeat (split; [done|]). split; [|split].
  - intros k i Hk. pose proof (lookup_lt_Some _ _ _ Hk) as Hlt.
    destruct (py_take_column_lookup _ _ 0 _ Hwf Hra ltac:(lia) Hx1 k i Hk)
      as (row & Hrow & Hxk).
    destruct (py_take_column_lookup _ _ sxy _ Hwf Hra ltac:(lia) Hy1 k i Hk)
      as (row' & Hrow' & Hyk).
    assert (row' = row) as -> by congruence.
    exists row. split; [done|].
    rewrite !lookup_app_l by lia. done.
  - intros k i Hk.
    destruct (py_take_column_lookup _ _ syx _ Hwf Hrb ltac:(lia) Hx2 k i Hk)
      as (row & Hrow & Hxk).
    destruct (py_take_column_lookup _ _ 0 _ Hwf Hrb ltac:(lia) Hy2 k i Hk)
      as (row' & Hrow' & Hyk).
    assert (row' = row) as -> by congruence.
    exists row. split; [done|].
    rewrite !lookup_app_r by lia.
    rewrite Hlx1, Hly1.
    replace (length spa + k - length spa)%nat with k by lia. done.
  - intros k i Hk.
    assert (Hc : Forall (fun i => 0 <= i < Z.of_nat (length (spike_clusters self)))
                   (spa ++ spb)).
    { apply Forall_forall. intros j Hj. destruct (Hv j Hj) as [? ?]. lia. }
    destruct (py_take_lookup _ _ _ Hc Hclu) as [_ Hlook]. by apply Hlook.
Qed.

(** Whether a pair has template features does not depend on the order of
    the two ids, nor on the ids that follow them. *)
Theorem get_template_features_none_symmetric (self : controller F)
    (a b : Z) (rest1 rest2 : list Z) (sa sb spa spb : list Z) :
  wf2 (template_features self) ->
  similar_templates self a = Return sa ->
  similar_templates self b = Return sb ->
  length sa = a2_ncols (template_features self) ->
  length sb = a2_ncols (template_features self) ->
  _select_spikes a None = Return spa ->
  _select_spikes b None = Return spb ->
  Forall (valid_spike self) (spa ++ spb) ->
  get_template_features _select_spikes self (a :: b :: rest1) = Return None
  <-> get_template_features _select_spikes self (b :: a :: rest2) = Return None.
Proof.
  intros Hwf Hsa Hsb Hlsa Hlsb Hspa Hspb Hvalid.
  assert (Hvalid' : Forall (valid_spike self) (spb ++ spa)).
  { apply Forall_app in Hvalid as [? ?]. by apply Forall_app. }
  destruct (get_template_features_run self a b rest1 sa sb spa spb
              Hwf Hsa Hsb Hlsa Hlsb Hspa Hspb Hvalid) as [Hn1 Hs1].
  destruct (get_template_features_run self b a rest2 sb sa spb spa
              Hwf Hsb Hsa Hlsb Hlsa Hspb Hspa Hvalid') as [Hn2 Hs2].
  destruct (decide (a ∈ sb)) as [Hab|Hab];
    [destruct (decide (b ∈ sa)) as [Hba|Hba]|].
  - destruct (Hs1 Hab Hba) as (?&?&?&?&?&?&?&_&_&_&_&_&_&_& ->).
    destruct (Hs2 Hba Hab) as (?&?&?&?&?&?&?&_&_&_&_&_&_&_& ->).
    split; discriminate.
  - rewrite Hn1 by tauto. rewrite Hn2 by tauto. done.
  - rewrite Hn1 by tauto. rewrite Hn2 by tauto. done.
Qed.
End TemplateFeaturesFacts.

Lemma example_valid_spikes :
  Forall (valid_spike Example.self) ([0; 2] ++ [1; 3]).
Proof. repeat (constructor; [split; simpl; lia|]). constructor. Qed.

Lemma example_template_features_wf : wf2 (template_features Example.self).
Proof. repeat constructor. Qed.

Lemma get_template_features_values_witness :
  0 ∈ [1; 0] /\ 1 ∈ [0; 1]
  /\ exists d (sxy syx : nat),
       get_template_features Example.select_spikes Example.self [0; 1]
         = Return (Some d)
       /\ [0; 1] !! sxy = Some 1
       /\ (forall k', (k' < sxy)%nat -> [0; 1] !! k' <> Some 1)
       /\ [1; 0] !! syx = Some 0
       /\ (forall k', (k' < syx)%nat -> [1; 0] !! k' <> Some 0)
       /\ (forall (k : nat) i, [0; 2] !! k = Some i ->
             exists row,
               a2_rows (template_features Example.self) !! Z.to_nat i = Some row
               /\ d_x d !! k = row !! 0%nat
               /\ d_y d !! k = row !! sxy)
       /\ (forall (k : nat) i, [1; 3] !! k = Some i ->
             exists row,
               a2_rows (template_features Example.self) !! Z.to_nat i = Some row
               /\ d_x d !! (length [0; 2] + k)%nat = row !! syx
               /\ d_y d !! (length [0; 2] + k)%nat = row !! 0%nat)
       /\ (forall (k : nat) i, ([0; 2] ++ [1; 3]) !! k = Some i ->
             d_spike_clusters d !! k
             = spike_clusters Example.self !! Z.to_nat i).
Proof.
  assert (H0 : 0 ∈ [1; 0]) by set_solver.
  assert (H1 : 1 ∈ [0; 1]) by set_solver.
  split; [exact H0|]. split; [exact H1|].
  exact (get_template_features_values Example.select_spikes Example.self
           0 1 [] [0; 1] [1; 0] [0; 2] [1; 3]
           example_template_features_wf eq_refl eq_refl eq_refl eq_refl
           eq_refl eq_refl example_valid_spikes H0 H1).
Defined.

Lemma get_template_features_none_symmetric_witness :
  get_template_features Example.select_spikes Example.self [0; 1; 7] = Return None
  <-> get_template_features Example.select_spikes Example.self [1; 0] = Return None.
Proof.
  exact (get_template_features_none_symmetric Example.select_spikes
           Example.self 0 1 [7] [] [0; 1] [1; 0] [0; 2] [1; 3]
           example_template_features_wf eq_refl eq_refl eq_refl eq_refl
           eq_refl eq_refl example_valid_spikes).
Defined.

(** ** Cluster ids that are not template indices *)

Lemma norm_index_out_of_range (len : nat) (i : Z) :
  (i < - Z.of_nat len \/ Z.of_nat len <= i) ->
  norm_index len i = Raise IndexError.
Proof.
  intros Hout. unfold norm_index.
  rewrite decide_False by lia. by rewrite decide_False by lia.
Qed.

Lemma py_index_out_of_range {A} (l : list A) (i : Z) :
  (i < - Z.of_nat (length l) \/ Z.of_nat (length l) <= i) ->
  py_index l i = Raise IndexError.
Proof.
  intros Hout. unfold py_index. by rewrite norm_index_out_of_range.
Qed.

Lemma py_take_out_of_range {A} (l : list A) (ids : list Z) (i : Z) :
  i ∈ ids ->
  (i < - Z.of_nat (length l) \/ Z.of_nat (length l) <= i) ->
  py_take l ids = Raise IndexError.
Proof.
  intros Hi Hout. unfold py_take.
  induction ids as [|j ids IH]; [by apply elem_of_nil in Hi|].
  simpl. destruct (py_index l j) as [x|e] eqn:Hj; simpl.
  - apply elem_of_cons in Hi as [->|Hi].
    + rewrite py_index_out_of_range in Hj by done. discriminate.
    + by rewrite (IH Hi).
  - f_equal. by apply py_index_raise in Hj.
Qed.

Section BadClusterFacts.
Context {F S : Type}.
Variable zero : F.
Variable _select_spikes : Z -> option nat -> outcome (list Z).
Variable get_close_clusters : Z -> outcome (list (Z * score S)).

(** The mask lookup indexes the mask table by cluster id: when one of the
    spikes has a cluster id that is no row of the table (a cluster created
    after the templates were fit), the lookup raises [IndexError]. *)
Theorem mask_lookup_cluster_without_row
    (template_masks : array2 F) (spike_clusters : list Z)
    (ids clus : list Z) (c : Z) :
  Forall2 (at_index spike_clusters) ids clus ->
  c ∈ clus ->
  (c < - Z.of_nat (length (a2_rows template_masks))
   \/ Z.of_nat (length (a2_rows template_masks)) <= c) ->
  MaskLoader_getitem (MaskLoader_init template_masks spike_clusters) (Many ids)
  = Raise IndexError.
Proof.
  intros Hclus Hc Hout. simpl.
  rewrite (py_take_at _ _ _ Hclus). simpl.
  by rewrite (py_take_out_of_range _ clus c).
Qed.

(** A cluster id that is no index of the template tables makes the
    per-cluster queries raise [IndexError]: [get_features] at the column of
    [features_ind], [similarity] and [get_template_features] at the row of
    [template_features_ind]. *)
Theorem queries_cluster_without_template (self : controller F)
    (c other : Z) (spike_ids : list Z) :
  _select_spikes c (Some 1000%nat) = Return spike_ids ->
  (c < - Z.of_nat (a2_ncols (features_ind self))
   \/ Z.of_nat (a2_ncols (features_ind self)) <= c) ->
  (c < - Z.of_nat (length (a2_rows (template_features_ind self)))
   \/ Z.of_nat (length (a2_rows (template_features_ind self))) <= c) ->
  get_features zero _select_spikes self c = Raise IndexError
  /\ similarity get_close_clusters self c = Raise IndexError
  /\ get_template_features _select_spikes self [c; other] = Raise IndexError.
Proof.
  intros Hsel Hcol Hrow. split; [|split].
  - unfold get_features. rewrite Hsel, outcome_bind_return. cbv beta zeta.
    unfold py_column. by rewrite norm_index_out_of_range.
  - unfold similarity. by rewrite py_index_out_of_range.
  - unfold get_template_features. rewrite decide_False by (simpl; lia).
    unfold similar_templates.
    rewrite (py_index_out_of_range _ c) by exact Hrow. reflexivity.
Qed.
End BadClusterFacts.

Lemma mask_lookup_cluster_without_row_witness :
  Forall2 (at_index [0; 1; 2]) [1; 2] [1; 2]
  /\ 2 ∈ [1; 2]
  /\ MaskLoader_getitem
       (MaskLoader_init Example.template_masks [0; 1; 2]) (Many [1; 2])
     = Raise IndexError.
Proof.
  assert (H1 : Forall2 (at_index [0; 1; 2]) [1; 2] [1; 2]).
  { repeat (constructor; [split; [lia|reflexivity]|]). constructor. }
  assert (H2 : 2 ∈ [1; 2]) by set_solver.
  split; [exact H1|]. split; [exact H2|].
  apply (mask_lookup_cluster_without_row Example.template_masks [0; 1; 2]
           [1; 2] [1; 2] 2 H1 H2).
  simpl. lia.
Defined.

Lemma queries_cluster_without_template_witness :
  Example.select_spikes 2 (Some 1000%nat) = Return []
  /\ get_features 0 Example.select_spikes Example.self 2 = Raise IndexError
  /\ similarity Example.close_clusters Example.self 2 = Raise IndexError
  /\ get_template_features Example.select_spikes Example.self [2; 0]
     = Raise IndexError.
Proof.
  split; [reflexivity|].
  apply (queries_cluster_without_template 0 Example.select_spikes
           Example.close_clusters Example.self 2 0 []);
    [reflexivity|simpl; lia|simpl; lia].
Defined.

(** ** The peak channel of a template *)

Lemma Qabs_pos_nonzero (v : Q) : ~ (v == 0)%Q -> (0 < Qabs v)%Q.
Proof. intros H. apply Qabs_case; intros; lra. Qed.

(** On finite values, a template that is not all zero has a channel whose
    mask is 1: the channel on which the template reaches its peak. *)
Theorem get_masks_peak_channel (qs : list (list (list Q))) (S C : nat)
    (t : nat) (template : list (list Q)) (v : Q) :
  Forall (fun t => length t = S /\ Forall (fun r => length r = C) t) qs ->
  (0 < S)%nat ->
  (0 < C)%nat ->
  qs !! t = Some template ->
  v ∈ concat template ->
  ~ (v == 0)%Q ->
  exists masks row (c : nat) q,
    get_masks (finite_tensor qs S C) = Return (Array2 masks C)
    /\ masks !! t = Some row
    /\ (c < C)%nat
    /\ row !! c = Some (Num.Fin q)
    /\ (q == 1)%Q.
Proof.
  intros Hwf HS HC Ht Hv Hnz.
  destruct (Forall_lookup_1 _ _ _ _ Hwf Ht) as [Hlen Hrows].
  destruct (finite_mask_row_spec S C template Hlen Hrows HS HC)
    as (_ & _ & peak & [Hub (w & Hw & Hwp)] & _ & Hch).
  assert (Hpos : (0 < peak)%Q).
  { eapply Qlt_le_trans; [apply (Qabs_pos_nonzero v Hnz)|by apply Hub]. }
  (* the entry [w] that reaches the peak sits in some channel [c] *)
  apply elem_of_concat in Hw as (r & Hr & Hwr).
  apply list_elem_of_lookup in Hwr as [c Hc].
  pose proof (lookup_lt_Some _ _ _ Hc) as Hlt.
  rewrite (proj1 (Forall_forall _ _) Hrows r Hr) in Hlt.
  destruct (Hch c Hlt) as (pc & [Hcub (u & Hu & Hupc)] & Hrow).
  assert (Hge : (peak <= pc)%Q).
  { rewrite <- Hwp. apply Hcub. apply channel_values_elem. eauto. }
  assert (Hle : (pc <= peak)%Q).
  { rewrite <- Hupc. apply Hub.
    apply channel_values_elem in Hu as (r' & Hr' & Hur').
    apply elem_of_concat. exists r'. split; [done|].
    apply list_elem_of_lookup. eauto. }
  exists (map finite_mask_row qs), (finite_mask_row template), c, (pc / peak)%Q.
  split; [by apply get_masks_finite|].
  split; [by rewrite list_lookup_fmap, Ht|]. split; [done|]. split.
  - rewrite Hrow. unfold mask_value.
    destruct (Qeq_bool peak 0) eqn:Hz; [|done].
    apply Qeq_bool_eq in Hz. lra.
  - assert (Heq : (pc == peak)%Q) by (by apply Qle_antisym).
    rewrite Heq. unfold Qdiv. apply Qmult_inv_r. lra.
Qed.

Lemma get_masks_peak_channel_witness :
  (-2 # 1)%Q ∈ concat [[1 # 2; -2 # 1]; [1 # 1; 0 # 1]]%Q
  /\ ~ (-2 # 1 == 0)%Q
  /\ exists masks row (c : nat) q,
       get_masks (finite_tensor example_templates 2 2) = Return (Array2 masks 2)
       /\ masks !! 0%nat = Some row
       /\ (c < 2)%nat
       /\ row !! c = Some (Num.Fin q)
       /\ (q == 1)%Q.
Proof.
  assert (Hin : (-2 # 1)%Q ∈ concat [[1 # 2; -2 # 1]; [1 # 1; 0 # 1]]%Q).
  { simpl. apply list_elem_of_further, list_elem_of_here. }
  assert (Hnz : ~ (-2 # 1 == 0)%Q) by (intros H; discriminate H).
  split; [exact Hin|]. split; [exact Hnz|].
  apply (get_masks_peak_channel example_templates 2 2 0
           [[1 # 2; -2 # 1]; [1 # 1; 0 # 1]]%Q (-2 # 1)%Q);
    [|lia|lia|reflexivity|exact Hin|exact Hnz].
  repeat (constructor; [split; [reflexivity|repeat constructor]|]).
  constructor.
Defined.

(** ** [get_masks] on a template that holds a NaN *)

Lemma foldl_zip_max_length (C : nat) (r : list Num.num)
    (rest : list (list Num.num)) :
  Forall (fun r' => length r' = C) (r :: rest) ->
  length (foldl (zip_with Num.max) r rest) = C.
Proof.
  revert r. induction rest as [|r' rest IH]; intros r Hwf.
  - by apply Forall_cons in Hwf as [? _].
  - apply Forall_cons in Hwf as [Hr [Hr' Hrest]%Forall_cons]. simpl.
    apply IH. apply Forall_cons. split; [|done].
    rewrite length_zip_with. lia.
Qed.

Lemma channel_peaks_length (S C : nat) (template : list (list Num.num)) :
  length template = S ->
  Forall (fun r => length r = C) template ->
  (0 < S)%nat ->
  length (channel_peaks template) = C.
Proof.
  intros HS Hwf Hpos. unfold channel_peaks.
  destruct template as [|r rest]; [simpl in HS; lia|].
  change (map (map Num.abs) (r :: rest))
    with (map Num.abs r :: map (map Num.abs) rest).
  apply foldl_zip_max_length.
  change (Forall (fun r' => length r' = C) (map (map Num.abs) (r :: rest))).
  apply Forall_fmap. eapply Forall_impl; [exact Hwf|].
  intros r' Hr'. simpl. by rewrite length_map.
Qed.

(** For any values, with at least one sample and one channel, [get_masks]
    returns, and computes each row as [mask_row]. *)
Lemma get_masks_run (templates : array3 Num.num) :
  wf3 templates ->
  (0 < a3_dim1 templates)%nat ->
  (0 < a3_dim2 templates)%nat ->
  get_masks templates
  = Return (Array2 (map (mask_row (a3_dim2 templates)) (a3_planes templates))
                   (a3_dim2 templates)).
Proof.
  intros Hwf HS HC. unfold get_masks.
  rewrite decide_False by lia.
  rewrite (traverse_map_Return max_samples _ channel_peaks).
  2:{ eapply Forall_impl; [exact Hwf|]. intros p [Hp _]. simpl.
      unfold max_samples, channel_peaks.
      destruct p as [|r rest]; [simpl in Hp; lia|]. done. }
  simpl. rewrite decide_False by lia.
  rewrite (traverse_map_Return reduce_max _ (fun p => template_peak (channel_peaks p))).
  2:{ eapply Forall_impl; [exact Hwf|]. intros p [Hp Hr]. simpl.
      pose proof (channel_peaks_length _ _ p Hp Hr HS) as Hlen.
      destruct (channel_peaks p) as [|x l]; [simpl in Hlen; lia|]. done. }
  simpl. rewrite !zip_with_map_same. done.
Qed.

Lemma foldl_max_NaN (l : list Num.num) : foldl Num.max Num.NaN l = Num.NaN.
Proof. induction l as [|y l IH]; simpl; [done|exact IH]. Qed.

Lemma max_NaN_r (x : Num.num) : Num.max x Num.NaN = Num.NaN.
Proof. by destruct x. Qed.

Lemma foldl_max_has_NaN (x : Num.num) (l : list Num.num) :
  Num.NaN ∈ x :: l -> foldl Num.max x l = Num.NaN.
Proof.
  revert x. induction l as [|y l IH]; intros x Hin; simpl.
  - by apply list_elem_of_singleton in Hin.
  - apply elem_of_cons in Hin as [<-|Hin].
    + apply foldl_max_NaN.
    + apply elem_of_cons in Hin as [<-|Hin].
      * rewrite max_NaN_r. apply foldl_max_NaN.
      * apply IH. by apply list_elem_of_further.
Qed.

Lemma foldl_zip_max_keeps_NaN (c : nat) (r : list Num.num)
    (rest : list (list Num.num)) :
  r !! c = Some Num.NaN ->
  Forall (fun r' => (c < length r')%nat) rest ->
  foldl (zip_with Num.max) r rest !! c = Some Num.NaN.
Proof.
  revert r. induction rest as [|r' rest IH]; intros r Hr Hlen; [done|].
  apply Forall_cons in Hlen as [Hr' Hrest]. simpl. apply IH; [|done].
  destruct (lookup_lt_is_Some_2 r' c Hr') as [y Hy].
  apply lookup_zip_with_Some. exists Num.NaN, y. done.
Qed.

Lemma foldl_zip_max_has_NaN (C c : nat) (r row : list Num.num)
    (rest : list (list Num.num)) :
  Forall (fun r' => length r' = C) (r :: rest) ->
  row ∈ r :: rest ->
  row !! c = Some Num.NaN ->
  foldl (zip_with Num.max) r rest !! c = Some Num.NaN.
Proof.
  revert r. induction rest as [|r' rest IH]; intros r Hwf Hrow Hc.
  - apply list_elem_of_singleton in Hrow as ->. done.
  - pose proof (lookup_lt_Some _ _ _ Hc) as Hlt.
    apply Forall_cons in Hwf as [Hr [Hr' Hrest]%Forall_cons].
    assert (HcC : (c < C)%nat).
    { apply elem_of_cons in Hrow as [->|Hrow]; [lia|].
      apply elem_of_cons in Hrow as [->|Hrow]; [lia|].
      by rewrite (proj1 (Forall_forall _ _) Hrest row Hrow) in Hlt. }
    simpl.
    apply elem_of_cons in Hrow as [->|Hrow].
    + apply foldl_zip_max_keeps_NaN.
      * destruct (lookup_lt_is_Some_2 r' c) as [y Hy]; [lia|].
        apply lookup_zip_with_Some. exists Num.NaN, y. done.
      * eapply Forall_impl; [exact Hrest|]. intros ? ->. done.
    + apply elem_of_cons in Hrow as [->|Hrow].
      * apply foldl_zip_max_keeps_NaN.
        -- destruct (lookup_lt_is_Some_2 r c) as [x Hx]; [lia|].
           apply lookup_zip_with_Some. exists x, Num.NaN.
           split; [by rewrite max_NaN_r|done].
        -- eapply Forall_impl; [exact Hrest|]. intros ? ->. done.
      * apply IH; [|by apply list_elem_of_further|done].
        apply Forall_cons. split; [|done]. rewrite length_zip_with. lia.
Qed.

Lemma div_NaN_r (x : Num.num) : Num.div x Num.NaN = Num.NaN.
Proof. by destruct x. Qed.

(** A template that holds a NaN gets a mask row of NaNs: the NaN reaches
    the peak of the template, every division by it is a NaN, and the peak
    does not compare equal to zero. *)
Theorem get_masks_nan_template (templates : array3 Num.num)
    (t : nat) (template : list (list Num.num)) (row : list Num.num) :
  wf3 templates ->
  (0 < a3_dim1 templates)%nat ->
  (0 < a3_dim2 templates)%nat ->
  a3_planes templates !! t = Some template ->
  row ∈ template ->
  Num.NaN ∈ row ->
  exists masks,
    get_masks templates = Return (Array2 masks (a3_dim2 templates))
    /\ masks !! t = Some (replicate (a3_dim2 templates) Num.NaN).
Proof.
  intros Hwf HS HC Ht Hrow Hnan.
  eexists. split; [by apply get_masks_run|].
  rewrite list_lookup_fmap, Ht. simpl. f_equal.
  destruct (Forall_lookup_1 _ _ _ _ Hwf Ht) as [Hlen Hrows].
  pose proof (channel_peaks_length _ _ template Hlen Hrows HS) as Hm.
  apply list_elem_of_lookup in Hnan as [c Hc].
  assert (Hpc : channel_peaks template !! c = Some Num.NaN).
  { unfold channel_peaks.
    destruct template as [|r rest]; [by apply elem_of_nil in Hrow|].
    change (map (map Num.abs) (r :: rest))
      with (map Num.abs r :: map (map Num.abs) rest).
    apply (foldl_zip_max_has_NaN (a3_dim2 templates) c _ (map Num.abs row)).
    - change (Forall (fun r' => length r' = a3_dim2 templates)
                (map (map Num.abs) (r :: rest))).
      apply Forall_fmap. eapply Forall_impl; [exact Hrows|].
      intros r' Hr'. simpl. by rewrite length_map.
    - change (map Num.abs row ∈ map (map Num.abs) (r :: rest)).
      apply list_elem_of_fmap. eauto.
    - by rewrite list_lookup_fmap, Hc. }
  assert (Hpeak : template_peak (channel_peaks template) = Num.NaN).
  { unfold template_peak.
    destruct (channel_peaks template) as [|x l] eqn:Hcp; [done|].
    apply foldl_max_has_NaN. apply list_elem_of_lookup. eauto. }
  unfold mask_row. rewrite Hpeak. simpl.
  rewrite <- Hm. rewrite <- map_const_replicate.
  apply map_ext. intros x. apply div_NaN_r.
Qed.

Lemma get_masks_nan_template_witness :
  let templates := Array3 [[[Num.Fin 1; Num.Fin 2]; [Num.NaN; Num.Fin 3]]] 2 2 in
  wf3 templates
  /\ [Num.NaN; Num.Fin 3] ∈ [[Num.Fin 1; Num.Fin 2]; [Num.NaN; Num.Fin 3]]
  /\ Num.NaN ∈ [Num.NaN; Num.Fin 3]
  /\ exists masks,
       get_masks templates = Return (Array2 masks 2)
       /\ masks !! 0%nat = Some (replicate 2 Num.NaN).
Proof.
  intros templates.
  assert (Hwf : wf3 templates) by (repeat constructor).
  assert (H1 : [Num.NaN; Num.Fin 3]
               ∈ [[Num.Fin 1; Num.Fin 2]; [Num.NaN; Num.Fin 3]])
    by apply list_elem_of_further, list_elem_of_here.
  assert (H2 : Num.NaN ∈ [Num.NaN; Num.Fin 3]) by apply list_elem_of_here.
  split; [exact Hwf|]. split; [exact H1|]. split; [exact H2|].
  apply (get_masks_nan_template templates 0
           [[Num.Fin 1; Num.Fin 2]; [Num.NaN; Num.Fin 3]]
           [Num.NaN; Num.Fin 3] Hwf); [simpl; lia|simpl; lia|reflexivity|exact H1|exact H2].
Defined.

(** ** The cluster ids and the keys of the cluster groups *)

Lemma insert_unique_elem (z x : Z) (l : list Z) :
  x ∈ insert_unique z l <-> x = z \/ x ∈ l.
Proof.
  induction l as [|y l IH]; simpl.
  - rewrite list_elem_of_singleton, elem_of_nil. tauto.
  - repeat case_decide; subst; rewrite ?elem_of_cons; try rewrite IH;
      rewrite ?elem_of_cons; tauto.
Qed.

Lemma insert_unique_sorted (z : Z) (l : list Z) :
  StronglySorted Z.lt l -> StronglySorted Z.lt (insert_unique z l).
Proof.
  induction 1 as [|y l Hl IH Hy]; simpl.
  - repeat constructor.
  - repeat case_decide.
    + constructor; [by constructor|]. constructor; [done|].
      eapply Forall_impl; [exact Hy|]. intros x Hx. simpl in *. lia.
    + by constructor.
    + constructor; [done|]. apply Forall_forall.
      intros x [->|Hx]%insert_unique_elem; [lia|].
      by apply (proj1 (Forall_forall _ _) Hy).
Qed.

Lemma np_unique_sorted (l : list Z) : StronglySorted Z.lt (np_unique l).
Proof.
  unfold np_unique. induction l as [|z l IH]; simpl; [constructor|].
  by apply insert_unique_sorted.
Qed.

Lemma np_unique_elem (x : Z) (l : list Z) : x ∈ np_unique l <-> x ∈ l.
Proof.
  unfold np_unique. induction l as [|z l IH]; simpl; [done|].
  rewrite insert_unique_elem, IH, elem_of_cons. done.
Qed.

Lemma sorted_lt_NoDup (l : list Z) : StronglySorted Z.lt l -> NoDup l.
Proof.
  induction 1 as [|y l Hl IH Hy]; constructor; [|done].
  intros Hin. pose proof (proj1 (Forall_forall _ _) Hy y Hin). lia.
Qed.

(** At load, [cluster_ids] lists the values of the cluster assignment, each
    once, in increasing order. *)
Theorem cluster_ids_sorted_unique (spike_clusters : list Z) :
  let info := _init_data_clusters spike_clusters in
  StronglySorted Z.lt (cluster_ids info)
  /\ NoDup (cluster_ids info)
  /\ forall c, c ∈ cluster_ids info <-> c ∈ spike_clusters.
Proof.
  simpl. split; [apply np_unique_sorted|].
  split; [apply sorted_lt_NoDup, np_unique_sorted|].
  intros c. apply np_unique_elem.
Qed.

(** The keys of [cluster_groups] are the cluster ids exactly when the
    cluster ids are the integers from 0 to [n_clusters - 1], that is when
    every value of the cluster assignment is non-negative and below the
    number of distinct values. *)
Theorem cluster_groups_keys_iff_contiguous (spike_clusters : list Z) :
  let info := _init_data_clusters spike_clusters in
  let n_clusters := length (cluster_ids info) in
  (forall k, is_Some (cluster_groups info !! k) <-> k ∈ cluster_ids info)
  <-> (forall c, c ∈ spike_clusters -> 0 <= c < Z.of_nat n_clusters).
Proof.
  simpl. set (ids := np_unique spike_clusters).
  assert (Hkeys : forall k, is_Some (groups_for_range (length ids) !! k)
                            <-> 0 <= k < Z.of_nat (length ids)).
  { intros k. rewrite groups_for_range_lookup.
    case_decide; split; done. }
  split.
  - intros Heq c Hc. apply Hkeys, Heq. by apply np_unique_elem.
  - intros Hrange k. rewrite Hkeys.
    set (range := (Z.of_nat <$> seq 0 (length ids))).
    assert (Hperm : ids ≡ₚ range).
    { apply submseteq_length_Permutation.
      - apply NoDup_submseteq; [apply sorted_lt_NoDup, np_unique_sorted|].
        intros x Hx. unfold ids in Hx.
        apply (np_unique_elem x spike_clusters) in Hx. specialize (Hrange x Hx).
        apply list_elem_of_fmap. exists (Z.to_nat x).
        split; [lia|]. apply elem_of_seq. lia.
      - subst range. by rewrite length_fmap, length_seq. }
    assert (Hmem : k ∈ ids <-> k ∈ range) by (by rewrite Hperm).
    rewrite Hmem. subst range. rewrite list_elem_of_fmap. split.
    + intros Hk. exists (Z.to_nat k). split; [lia|]. apply elem_of_seq. lia.
    + intros (x & -> & Hx%elem_of_seq). lia.
Qed.

(** ** Traces of an interval *)

Lemma py_slice_empty {A} (a b : nat) (l : list A) :
  (b <= a)%nat -> py_slice (Some (Z.of_nat a)) (Some (Z.of_nat b)) l = [].
Proof.
  intros Hba. unfold py_slice, slice_bounds. simpl.
  rewrite !clip_bound_nonneg.
  replace (b `min` length l - a `min` length l)%nat with 0%nat by lia.
  done.
Qed.

Section TracesFacts.
Context {F : Type}.
Variable fsub fmul : F -> F -> F.
Variable round_int : F -> outcome Z.
Variable select_traces : F * F -> outcome (array2 F).
Variable remove_mean : array2 F -> array2 F.
Variable searchsorted : list F -> F -> nat.

Lemma subtract_templates_nil_run (h : gmap loc (array2 F)) traces tr
    start st rate d1 d2 :
  h !! traces = Some tr ->
  subtract_templates fsub fmul round_int traces start st [] (Array3 [] d1 d2)
    rate h
  = (Return (fresh (dom h)), <[fresh (dom h) := tr]> h).
Proof.
  intros Htr. unfold subtract_templates. rewrite run_bind. unfold load at 1.
  rewrite Htr. reflexivity.
Qed.

(** A run of [get_traces]: one new buffer for the mean-removed traces,
    then one for the residual. *)
Lemma get_traces_run (self : trace_data F) (interval : F * F)
    (h : gmap loc (array2 F)) (raw : array2 F) :
  select_traces interval = Return raw ->
  let tr := remove_mean raw in
  let la := fresh (dom h) in
  let h1 := <[la := tr]> h in
  let lb := fresh (dom h1) in
  exists r h',
    get_traces fsub fmul round_int select_traces remove_mean searchsorted
      self interval h = (r, h')
    /\ (h' = h1 \/ exists out, h' = <[lb := out]> h1 /\ shape2 out = shape2 tr)
    /\ (forall l1 l2, r = Return (l1, l2) ->
          l1 = la /\ l2 = lb
          /\ exists out, h' = <[lb := out]> h1 /\ shape2 out = shape2 tr).
Proof.
  intros Hraw tr la h1 lb. unfold get_traces.
  rewrite run_bind. unfold lift at 1. rewrite Hraw.
  rewrite run_bind. unfold alloc at 1. fold tr la h1.
  rewrite run_bind. unfold lift at 1.
  destruct (py_take _ _) as [planes|e].
  2:{ exists (Raise e), h1. split; [done|]. split; [by left|]. discriminate. }
  rewrite run_bind.
  match goal with
  | |- context [subtract_templates ?f ?m ?r ?t ?s ?st ?am ?tp ?ra h1] =>
      destruct (subtract_templates_run f m r h1 t tr s st am tp ra)
        as (r0 & out & Hrun & Hshape & Hr); [apply lookup_insert_eq|];
      rewrite Hrun
  end.
  fold lb in Hr |- *.
  destruct Hr as [->|[e ->]].
  - exists (Return (la, lb)), (<[lb := out]> h1). split; [done|].
    split; [right; eauto|]. intros l1 l2 [= <- <-]. eauto.
  - exists (Raise e), (<[lb := out]> h1). split; [done|].
    split; [right; eauto|]. discriminate.
Qed.

(** When [get_traces] returns, the raw and the residual bundles hold two
    different new buffers of the same shape; the raw buffer still holds the
    mean-removed traces after the templates were subtracted, and no buffer
    that existed before the call has changed. *)
Theorem get_traces_raw_kept (self : trace_data F) (interval : F * F)
    (h : gmap loc (array2 F)) (raw : array2 F) (l1 l2 : loc) :
  select_traces interval = Return raw ->
  let res := get_traces fsub fmul round_int select_traces remove_mean
               searchsorted self interval h in
  res.1 = Return (l1, l2) ->
  l1 <> l2
  /\ h !! l1 = None
  /\ h !! l2 = None
  /\ res.2 !! l1 = Some (remove_mean raw)
  /\ (exists out, res.2 !! l2 = Some out
                  /\ shape2 out = shape2 (remove_mean raw))
  /\ forall l a, h !! l = Some a -> res.2 !! l = Some a.
Proof.
  intros Hraw res.
  destruct (get_traces_run self interval h raw Hraw)
    as (r & h' & Hrun & _ & Hret).
  subst res. rewrite Hrun. simpl. intros ->.
  destruct (Hret l1 l2 eq_refl) as (-> & -> & out & -> & Hshape).
  set (tr := remove_mean raw). set (la := fresh (dom h)).
  set (h1 := <[la := tr]> h). set (lb := fresh (dom h1)).
  assert (Hla : h !! la = None) by apply not_elem_of_dom, is_fresh.
  assert (Hlb : h1 !! lb = None) by apply not_elem_of_dom, is_fresh.
  assert (Hne : la <> lb).
  { intros Heq. rewrite <- Heq in Hlb. subst h1.
    by rewrite lookup_insert_eq in Hlb. }
  assert (Hlb' : h !! lb = None).
  { subst h1. by rewrite lookup_insert_ne in Hlb. }
  split; [done|]. split; [done|]. split; [done|]. split.
  { rewrite lookup_insert_ne by done. subst h1. apply lookup_insert_eq. }
  split.
  { exists out. split; [apply lookup_insert_eq|done]. }
  intros l a Hl.
  assert (l <> la) by congruence. assert (l <> lb) by congruence.
  rewrite lookup_insert_ne by done. subst h1. by rewrite lookup_insert_ne.
Qed.

(** When no spike time falls in the interval (the two positions that
    [searchsorted] returns leave nothing between them), [get_traces]
    returns, and the residual buffer holds the same values as the raw one. *)
Theorem get_traces_no_spike (self : trace_data F) (interval : F * F)
    (h : gmap loc (array2 F)) (raw : array2 F) :
  select_traces interval = Return raw ->
  (searchsorted (t_spike_times self) interval.2
   <= searchsorted (t_spike_times self) interval.1)%nat ->
  exists l1 l2 h',
    get_traces fsub fmul round_int select_traces remove_mean searchsorted
      self interval h = (Return (l1, l2), h')
    /\ l1 <> l2
    /\ h' !! l1 = Some (remove_mean raw)
    /\ h' !! l2 = Some (remove_mean raw).
Proof.
  intros Hraw Hab. unfold get_traces.
  rewrite run_bind. unfold lift at 1. rewrite Hraw.
  rewrite run_bind. unfold alloc at 1.
  set (tr := remove_mean raw). set (la := fresh (dom h)).
  rewrite !py_slice_empty by done.
  rewrite run_bind. unfold lift at 1. simpl.
  rewrite run_bind.
  set (h1 := <[la := tr]> h).
  rewrite (subtract_templates_nil_run h1 la tr) by apply lookup_insert_eq.
  set (lb := fresh (dom h1)).
  assert (Hlb : h1 !! lb = None) by apply not_elem_of_dom, is_fresh.
  assert (Hne : la <> lb).
  { intros Heq. rewrite <- Heq in Hlb. subst h1.
    by rewrite lookup_insert_eq in Hlb. }
  exists la, lb, (<[lb := tr]> h1). split; [done|]. split; [done|]. split.
  - rewrite lookup_insert_ne by done. subst h1. apply lookup_insert_eq.
  - apply lookup_insert_eq.
Qed.
End TracesFacts.

Lemma get_traces_raw_kept_witness :
  let h : gmap loc (array2 Z) := ∅ in
  let res := ExampleTraces.get_traces (0, 100) h in
  ExampleTraces.select_traces (0, 100) = Return (IntBuffers.zeros 100 1)
  /\ res.1 = Return (1%positive, 2%positive)
  /\ 1%positive <> 2%positive
  /\ h !! 1%positive = None
  /\ h !! 2%positive = None
  /\ res.2 !! 1%positive
     = Some (ExampleTraces.remove_mean (IntBuffers.zeros 100 1))
  /\ (exists out, res.2 !! 2%positive = Some out
                  /\ shape2 out
                     = shape2 (ExampleTraces.remove_mean (IntBuffers.zeros 100 1)))
  /\ forall l a, h !! l = Some a -> res.2 !! l = Some a.
Proof.
  intros h res.
  assert (Hret : res.1 = Return (1%positive, 2%positive))
    by (vm_compute; reflexivity).
  split; [reflexivity|]. split; [exact Hret|].
  exact (get_traces_raw_kept Z.sub Z.mul (fun v => Return v)
           ExampleTraces.select_traces ExampleTraces.remove_mean
           ExampleTraces.searchsorted ExampleTraces.self (0, 100) h
           (IntBuffers.zeros 100 1) 1%positive 2%positive eq_refl Hret).
Defined.

Lemma get_traces_no_spike_witness :
  ExampleTraces.select_traces (200, 300) = Return (IntBuffers.zeros 100 1)
  /\ (ExampleTraces.searchsorted (t_spike_times ExampleTraces.self) 300
      <= ExampleTraces.searchsorted (t_spike_times ExampleTraces.self) 200)%nat
  /\ exists l1 l2 h',
       ExampleTraces.get_traces (200, 300) ∅ = (Return (l1, l2), h')
       /\ l1 <> l2
       /\ h' !! l1 = Some (ExampleTraces.remove_mean (IntBuffers.zeros 100 1))
       /\ h' !! l2 = Some (ExampleTraces.remove_mean (IntBuffers.zeros 100 1)).
Proof.
  assert (Hab : (ExampleTraces.searchsorted (t_spike_times ExampleTraces.self) 300
                 <= ExampleTraces.searchsorted
                      (t_spike_times ExampleTraces.self) 200)%nat)
    by (vm_compute; lia).
  split; [reflexivity|]. split; [exact Hab|].
  exact (get_traces_no_spike Z.sub Z.mul (fun v => Return v)
           ExampleTraces.select_traces ExampleTraces.remove_mean
           ExampleTraces.searchsorted ExampleTraces.self (200, 300) ∅
           (IntBuffers.zeros 100 1) eq_refl Hab).
Defined.

(** ** File names and the [.mat] branch of [read_array] *)



Section ReadArrayFacts.
Context {V : Type}.
Variable np_load : string -> outcome V.
Variable sio_loadmat : string -> outcome (gmap string V).

End ReadArrayFacts.


(** ** The candidates of the similarity ranking *)

Section SimilarityFacts.
Context {F S : Type}.
Variable get_close_clusters : Z -> outcome (list (Z * score S)).

Lemma similarity_run (self : controller F) (c : Z)
    (sim0 : list Z) (sim2 : list (Z * score S)) :
  similar_templates self c = Return sim0 ->
  get_close_clusters c = Return sim2 ->
  similarity get_close_clusters self c
  = Return (imap (fun i id =>
                    (id, Rank (- Z.of_nat (a2_ncols (template_features_ind self))
                               + Z.of_nat i))) sim0
            ++ filter (fun e => e.1 ∉ sim0) sim2).
Proof.
  intros Hsim0 Hsim2. unfold similarity.
  unfold similar_templates in Hsim0. rewrite Hsim0. simpl.
  by rewrite Hsim2.
Qed.

(** The removal of duplicates loses no candidate: the ids of
    [similarity(c)] are the ids of the similar-template row of [c] together
    with the ids of the close-clusters collaborator, and the result has at
    least as many entries as the row and at most as many as both lists. *)
Theorem similarity_covers (self : controller F) (c : Z)
    (sim0 : list Z) (sim2 : list (Z * score S)) :
  similar_templates self c = Return sim0 ->
  get_close_clusters c = Return sim2 ->
  exists res,
    similarity get_close_clusters self c = Return res
    /\ (forall id, id ∈ res.*1 <-> id ∈ sim0 \/ id ∈ sim2.*1)
    /\ (length sim0 <= length res <= length sim0 + length sim2)%nat.
Proof.
  intros Hsim0 Hsim2. eexists. split; [by apply similarity_run|]. split.
  - intros id. rewrite fmap_app, elem_of_app, fst_imap_rank. split.
    + intros [Hid|(e & -> & He%list_elem_of_filter)%list_elem_of_fmap];
        [by left|].
      right. apply list_elem_of_fmap. exists e. tauto.
    + intros [Hid|(e & -> & He)%list_elem_of_fmap]; [by left|].
      destruct (decide (e.1 ∈ sim0)) as [Hin|Hnot]; [by left|].
      right. apply list_elem_of_fmap. exists e. split; [done|].
      by apply list_elem_of_filter.
  - rewrite length_app, length_imap.
    pose proof (length_filter (fun e : Z * score S => e.1 ∉ sim0) sim2). lia.
Qed.
End SimilarityFacts.

Lemma similarity_covers_witness :
  let sim0 : list Z := [0; 1] in
  let sim2 : list (Z * score Z) := [(1, Other 5); (2, Other 9)] in
  similar_templates Example.self 0 = Return sim0
  /\ Example.close_clusters 0 = Return sim2
  /\ exists res,
       similarity Example.close_clusters Example.self 0 = Return res
       /\ (forall id, id ∈ res.*1 <-> id ∈ sim0 \/ id ∈ sim2.*1)
       /\ (length sim0 <= length res <= length sim0 + length sim2)%nat.
Proof.
  intros sim0 sim2. split; [reflexivity|]. split; [reflexivity|].
  apply (similarity_covers Example.close_clusters Example.self 0 [0; 1]
           [(1, Other 5); (2, Other 9)]); reflexivity.
Defined.

(** ** The bundle of [get_features] *)

Section FeaturesFacts.
Context {F : Type}.
Variable zero : F.
Variable _select_spikes : Z -> option nat -> outcome (list Z).

(** The run of [get_features] on valid inputs. *)
Lemma get_features_run (self : controller F) (c : Z)
    (spike_ids ch : list Z) (sparse : list (list (list F)))
    (clu : list Z) (masks : mask_item F) :
  _select_spikes c (Some 1000%nat) = Return spike_ids ->
  py_column (features_ind self) c = Return ch ->
  length ch = a3_dim2 (all_features self) ->
  a3_dim1 (all_features self) = n_features_per_channel self ->
  wf3 (all_features self) ->
  Forall (fun g => 0 <= g < Z.of_nat (n_channels self)) ch ->
  Forall2 (at_index (a3_planes (all_features self))) spike_ids sparse ->
  py_take (spike_clusters self) spike_ids = Return clu ->
  MaskLoader_getitem (all_masks self) (Many spike_ids) = Return masks ->
  get_features zero _select_spikes self c
  = Return (mkFeatures
              (Array3
                 (zip_with (assign_channels (Z.to_nat <$> ch))
                    (map (transpose (a3_dim2 (all_features self))) sparse)
                    (replicate (length spike_ids)
                       (replicate (n_channels self)
                          (replicate (n_features_per_channel self) zero))))
                 (n_channels self) (n_features_per_channel self))
              spike_ids clu masks).
Proof.
  intros Hsel Hch Hlen Hnf Hwf Hrange Hsparse Hclu Hmasks.
  set (nfpc := n_features_per_channel self).
  set (nloc := a3_dim2 (all_features self)).
  set (v := map (transpose nloc) sparse).
  assert (Hv : Forall (fun blk => length blk = length ch
                          /\ Forall (fun r => length r = nfpc) blk) v).
  { subst v. apply Forall_fmap, Forall_forall.
    intros p (s & Hp)%list_elem_of_lookup. simpl.
    destruct (Forall2_lookup_r _ _ _ _ _ Hsparse Hp) as (i & _ & _ & Hi).
    destruct (Forall_lookup_1 _ _ _ _ Hwf Hi) as [Hp1 Hp2].
    destruct (transpose_shape nloc p Hp2) as [Hl Hc].
    split; [by rewrite Hlen|]. unfold nfpc. by rewrite <- Hnf, <- Hp1. }
  assert (Hb : traverse (broadcast_block (length ch) nfpc) v = Return v).
  { apply traverse_Forall2, Forall_Forall2_diag.
    eapply Forall_impl; [exact Hv|]. intros blk [H1 H2].
    by apply broadcast_block_same. }
  unfold get_features.
  rewrite Hsel, outcome_bind_return. cbv beta zeta.
  rewrite Hch, outcome_bind_return. cbv beta zeta.
  rewrite (py_take_at _ _ _ Hsparse), outcome_bind_return. cbv beta zeta.
  rewrite <- Hlen at 1. rewrite Hnf, !broadcastable_refl.
  cbv beta iota. fold nloc v nfpc.
  rewrite Hb, outcome_bind_return. cbv beta.
  rewrite (norm_index_in_range _ ch Hrange), outcome_bind_return. cbv beta.
  rewrite Hclu, outcome_bind_return. cbv beta.
  rewrite Hmasks, outcome_bind_return. done.
Qed.

(** The four parts of the bundle of [get_features] are aligned: with the
    mask loader built on the cluster assignment of the controller, entry
    [k] of [spike_clusters] is the cluster of the [k]-th selected spike,
    row [k] of [masks] is the row of that cluster in the mask table, and
    [data] has one block per selected spike. *)
Theorem get_features_aligned (self : controller F) (c : Z)
    (template_masks : array2 F)
    (spike_ids ch clus : list Z) (sparse : list (list (list F)))
    (mrows : list (list F)) :
  all_masks self = MaskLoader_init template_masks (spike_clusters self) ->
  _select_spikes c (Some 1000%nat) = Return spike_ids ->
  py_column (features_ind self) c = Return ch ->
  length ch = a3_dim2 (all_features self) ->
  a3_dim1 (all_features self) = n_features_per_channel self ->
  wf3 (all_features self) ->
  Forall (fun g => 0 <= g < Z.of_nat (n_channels self)) ch ->
  Forall2 (at_index (a3_planes (all_features self))) spike_ids sparse ->
  Forall2 (at_index (spike_clusters self)) spike_ids clus ->
  Forall2 (at_index (a2_rows template_masks)) clus mrows ->
  exists b,
    get_features zero _select_spikes self c = Return b
    /\ b_spike_ids b = spike_ids
    /\ b_spike_clusters b = clus
    /\ b_masks b = Rows (Array2 mrows (a2_ncols template_masks))
    /\ length (a3_planes (b_data b)) = length spike_ids
    /\ length clus = length spike_ids
    /\ length mrows = length spike_ids.
Proof.
  intros Hml Hsel Hch Hlen Hnf Hwf Hrange Hsparse Hclus Hmrows.
  assert (Hmasks : MaskLoader_getitem (all_masks self) (Many spike_ids)
                   = Return (Rows (Array2 mrows (a2_ncols template_masks)))).
  { rewrite Hml. simpl. rewrite (py_take_at _ _ _ Hclus). simpl.
    by rewrite (py_take_at _ _ _ Hmrows). }
  eexists. split.
  { exact (get_features_run self c spike_ids ch sparse clus _ Hsel Hch Hlen
             Hnf Hwf Hrange Hsparse (py_take_at _ _ _ Hclus) Hmasks). }
  simpl. repeat (split; [done|]).
  pose proof (Forall2_length _ _ _ Hsparse) as H1.
  pose proof (Forall2_length _ _ _ Hclus) as H2.
  pose proof (Forall2_length _ _ _ Hmrows) as H3.
  split; [|split; lia].
  rewrite length_zip_with, length_map, length_replicate. lia.
Qed.
End FeaturesFacts.

Lemma get_features_aligned_witness :
  Forall2 (at_index (spike_clusters Example.self)) [0; 2] [0; 0]
  /\ Forall2 (at_index (a2_rows Example.template_masks)) [0; 0]
       [[1; 0; 2; 0]; [1; 0; 2; 0]]
  /\ exists b,
       get_features 0 Example.select_spikes Example.self 0 = Return b
       /\ b_spike_ids b = [0; 2]
       /\ b_spike_clusters b = [0; 0]
       /\ b_masks b = Rows (Array2 [[1; 0; 2; 0]; [1; 0; 2; 0]]
                              (a2_ncols Example.template_masks))
       /\ length (a3_planes (b_data b)) = length [0; 2]
       /\ length [0; 0] = length [0; 2]
       /\ length [[1; 0; 2; 0]; [1; 0; 2; 0]] = length [0; 2].
Proof.
  assert (H1 : Forall2 (at_index (spike_clusters Example.self)) [0; 2] [0; 0]).
  { repeat (constructor; [split; [lia|reflexivity]|]). constructor. }
  assert (H2 : Forall2 (at_index (a2_rows Example.template_masks)) [0; 0]
                 [[1; 0; 2; 0]; [1; 0; 2; 0]]).
  { repeat (constructor; [split; [lia|reflexivity]|]). constructor. }
  split; [exact H1|]. split; [exact H2|].
  apply (get_features_aligned 0 Example.select_spikes Example.self 0
           Example.template_masks [0; 2] [0; 2] [0; 0]
           [[[1; 2]; [3; 4]; [5; 6]]; [[21; 22]; [23; 24]; [25; 26]]]
           [[1; 0; 2; 0]; [1; 0; 2; 0]]);
    try reflexivity; try assumption.
  - repeat constructor.
  - repeat (constructor; [simpl; lia|]). constructor.
  - repeat (constructor; [split; [lia|reflexivity]|]). constructor.
Defined.

(** ** A window that overhangs both ends *)

Section OverhangBoth.
Context {F : Type}.
Variable fsub fmul : F -> F -> F.
Variable round_int : F -> outcome Z.

(** On every buffer with at least one row, a spike whose window overhangs
    both ends makes [subtract_templates] raise [ValueError]: only the
    leading samples of the template are trimmed.  The input is left as it
    is. *)
Theorem subtract_templates_overhang_both
    (h : gmap loc (array2 F)) (traces : loc) (tr : array2 F)
    (start s amp rate : F) (p : list (list F)) (d2 : nat) (t : Z) :
  h !! traces = Some tr ->
  length p = 61%nat ->
  round_int (fmul (fsub s start) rate) = Return t ->
  (0 < length (a2_rows tr))%nat ->
  t - 20 < 0 ->
  t + 41 > Z.of_nat (length (a2_rows tr)) ->
  subtract_templates fsub fmul round_int traces start [s] [amp]
    (Array3 [p] 61 d2) rate h
  = (Raise ValueError, <[fresh (dom h) := tr]> h).
Proof.
  intros Htr Hp Ht Hn Hlo Hhi.
  rewrite (subtract_templates_single_run fsub fmul round_int h traces tr
             start s amp rate p 61 d2 t Htr Ht).
  rewrite subtract_window_overhang_both; try done.
  simpl. unfold scale_plane. by rewrite length_map.
Qed.
End OverhangBoth.

Lemma subtract_templates_overhang_both_witness :
  let h := IntBuffers.one_buffer 30 in
  h !! 1%positive = Some (IntBuffers.zeros 30 1)
  /\ (0 < length (a2_rows (IntBuffers.zeros 30 1)))%nat
  /\ 10 - 20 < 0
  /\ 10 + 41 > Z.of_nat (length (a2_rows (IntBuffers.zeros 30 1)))
  /\ subtract_templates Z.sub Z.mul (fun v => Return v) 1%positive 0 [10] [1]
       (Array3 [a2_rows (IntBuffers.ones 61 1)] 61 1) 1 h
     = (Raise ValueError, <[fresh (dom h) := IntBuffers.zeros 30 1]> h).
Proof.
  intros h. split; [reflexivity|]. split; [simpl; lia|]. split; [lia|].
  split; [simpl; lia|].
  apply (subtract_templates_overhang_both Z.sub Z.mul (fun v => Return v)
           h 1%positive (IntBuffers.zeros 30 1) 0 10 1 1
           (a2_rows (IntBuffers.ones 61 1)) 1 10);
    [reflexivity|reflexivity|reflexivity|simpl; lia|lia|simpl; lia].
Defined.

Lemma subtract_templates_returns_witness :
  let h := IntBuffers.one_buffer 100 in
  let tpl := Array3 (replicate 3 (a2_rows (IntBuffers.ones 61 1))) 61 1 in
  h !! 1%positive = Some (IntBuffers.zeros 100 1)
  /\ length (a3_planes tpl) = length [1; 2; 3]
  /\ (subtract_templates Z.sub Z.mul (fun v => Return v) 1%positive 0
        [5; 50; 95] [1; 2; 3] tpl 1 h).1
     = Return (fresh (dom h)).
Proof.
  intros h tpl. split; [reflexivity|]. split; [reflexivity|].
  apply (subtract_templates_returns Z.sub Z.mul (fun v => Return v)
           h 1%positive (IntBuffers.zeros 100 1) 0 [5; 50; 95] [1; 2; 3] tpl 1);
    [reflexivity|reflexivity| |reflexivity|].
  - repeat constructor.
  - intros [|[|[|index]]] Hlt; simpl in Hlt; [| | |lia].
    + exists 5, 5. repeat split; simpl; lia.
    + exists 50, 50. repeat split; simpl; lia.
    + exists 95, 95. repeat split; simpl; lia.
Defined.

(** ** Masks and absolute values *)

Lemma Qabs_opp_eq (q : Q) : Qabs (- q) = Qabs q.
Proof. destruct q as [n d]. simpl. by rewrite Z.abs_opp. Qed.

(** The masks depend on the absolute values only: the tensor of the
    opposite values has the same masks. *)
Theorem get_masks_opposite (qs : list (list (list Q))) (S C : nat) :
  Forall (fun t => length t = S /\ Forall (fun r => length r = C) t) qs ->
  (0 < S)%nat ->
  (0 < C)%nat ->
  get_masks (finite_tensor (map (map (map Qopp)) qs) S C)
  = get_masks (finite_tensor qs S C).
Proof.
  intros Hwf HS HC.
  assert (Hwf' : Forall (fun t => length t = S
                           /\ Forall (fun r => length r = C) t)
                   (map (map (map Qopp)) qs)).
  { apply Forall_fmap. eapply Forall_impl; [exact Hwf|].
    intros t [Ht Hr]. simpl. split; [by rewrite length_map|].
    apply Forall_fmap. eapply Forall_impl; [exact Hr|].
    intros r Hlen. simpl. by rewrite length_map. }
  rewrite (get_masks_finite qs S C Hwf HS HC).
  rewrite (get_masks_finite _ S C Hwf' HS HC).
  do 2 f_equal. rewrite map_map. apply map_ext. intros t.
  unfold finite_mask_row, finite_channel_peaks.
  assert (Habs : map (map Qabs) (map (map Qopp) t) = map (map Qabs) t).
  { rewrite map_map. apply map_ext. intros r.
    rewrite map_map. apply map_ext. intros q. apply Qabs_opp_eq. }
  by rewrite Habs.
Qed.

Lemma get_masks_opposite_witness :
  Forall (fun t => length t = 2%nat /\ Forall (fun r => length r = 2%nat) t)
    example_templates
  /\ get_masks (finite_tensor (map (map (map Qopp)) example_templates) 2 2)
     = get_masks (finite_tensor example_templates 2 2).
Proof.
  assert (Hwf : Forall (fun t => length t = 2%nat
                          /\ Forall (fun r => length r = 2%nat) t)
                  example_templates).
  { repeat (constructor; [split; [reflexivity|repeat constructor]|]).
    constructor. }
  split; [exact Hwf|].
  apply (get_masks_opposite example_templates 2 2 Hwf); lia.
Defined.

(** The row of a template depends on that template only: two tensors of
    the same shape that hold the same template at position [t] give the
    same mask row [t]. *)
Theorem get_masks_row_local (templates1 templates2 : array3 Num.num)
    (t : nat) (template : list (list Num.num)) :
  wf3 templates1 ->
  wf3 templates2 ->
  a3_dim1 templates1 = a3_dim1 templates2 ->
  a3_dim2 templates1 = a3_dim2 templates2 ->
  (0 < a3_dim1 templates1)%nat ->
  (0 < a3_dim2 templates1)%nat ->
  a3_planes templates1 !! t = Some template ->
  a3_planes templates2 !! t = Some template ->
  exists masks1 masks2 row,
    get_masks templates1 = Return (Array2 masks1 (a3_dim2 templates1))
    /\ get_masks templates2 = Return (Array2 masks2 (a3_dim2 templates1))
    /\ masks1 !! t = Some row
    /\ masks2 !! t = Some row.
Proof.
  intros Hwf1 Hwf2 Hd1 Hd2 HS HC Ht1 Ht2.
  exists (map (mask_row (a3_dim2 templates1)) (a3_planes templates1)),
         (map (mask_row (a3_dim2 templates1)) (a3_planes templates2)),
         (mask_row (a3_dim2 templates1) template).
  split; [by apply get_masks_run|]. split.
  - rewrite Hd2. apply get_masks_run; [done|lia|lia].
  - split; by rewrite list_lookup_fmap, ?Ht1, ?Ht2.
Qed.

Lemma get_masks_row_local_witness :
  let t0 := [[Num.Fin 1; Num.Fin 2]; [Num.Fin 4; Num.Fin 3]] in
  let t1 := [[Num.Fin 9; Num.Fin 9]; [Num.Fin 9; Num.Fin 9]] in
  let a := Array3 [t0] 2 2 in
  let b := Array3 [t0; t1] 2 2 in
  wf3 a /\ wf3 b
  /\ exists masks1 masks2 row,
       get_masks a = Return (Array2 masks1 (a3_dim2 a))
       /\ get_masks b = Return (Array2 masks2 (a3_dim2 a))
       /\ masks1 !! 0%nat = Some row
       /\ masks2 !! 0%nat = Some row.
Proof.
  intros t0 t1 a b.
  assert (Ha : wf3 a) by (repeat constructor).
  assert (Hb : wf3 b) by (repeat constructor).
  split; [exact Ha|]. split; [exact Hb|].
  apply (get_masks_row_local a b 0 t0 Ha Hb);
    [reflexivity|reflexivity|simpl; lia|simpl; lia|reflexivity|reflexivity].
Defined.
